(** * Invoicing application: report aggregation and session bootstrap

    A shallow embedding of the logic of the application:
    - the aggregation of invoices into daily and monthly report rows
      ([ReportsDashboard]) and into today / this-month / this-year customer
      counts ([CustomerStatsDashboard]);
    - the start-up effect of [App] ([initializeApp], the auth listener) and
      [getOrCreateUserProfile];
    - the invoice form ([getNewInvoiceTemplate]), the invoice handlers of
      [App] and the template editor of [SettingsModal].

    JavaScript numbers that hold time values are [option Z]: [None] is NaN,
    [Some t] is a number of milliseconds since the epoch. *)

From Stdlib Require Import ZArith List String Ascii Bool Lia.
From Stdlib Require Import QArith.
From Stdlib Require Import Sorting.Sorted Sorting.Permutation.
From Stdlib Require Import DecimalString DecimalPos.
From Stdlib Require Import Btauto.
Import ListNotations.
Local Open Scope Z_scope.

(** ** The ECMAScript date functions used by the components *)

Module JsDate.

Definition msPerDay : Z := 86400000.

(** [Day(t)] of ECMAScript: the day number of a time value. *)
Definition Day (t : Z) : Z := t / msPerDay.

Definition isLeapYear (y : Z) : bool :=
  (y mod 4 =? 0) && (negb (y mod 100 =? 0) || (y mod 400 =? 0)).

Definition DaysInYear (y : Z) : Z := if isLeapYear y then 366 else 365.

(** [DayFromYear(y)]: the day number of the first day of year [y]. *)
Definition DayFromYear (y : Z) : Z :=
  365 * (y - 1970) + (y - 1969) / 4 - (y - 1901) / 100 + (y - 1601) / 400.

(** The largest year whose first day is not after day [d]: a first guess
    from the mean length of a year, corrected by at most one. *)
Definition YearFromDay (d : Z) : Z :=
  let g := 1970 + (400 * d) / 146097 in
  if d <? DayFromYear g then g - 1
  else if DayFromYear (g + 1) <=? d then g + 1
  else g.

Definition YearFromTime (t : Z) : Z := YearFromDay (Day t).

(** Number of days of the year before month [m] (1 = January). *)
Definition daysBeforeMonth (leap : bool) (m : Z) : Z :=
  let l := if leap then 1 else 0 in
  match m with
  | 1 => 0 | 2 => 31 | 3 => 59 + l | 4 => 90 + l | 5 => 120 + l
  | 6 => 151 + l | 7 => 181 + l | 8 => 212 + l | 9 => 243 + l
  | 10 => 273 + l | 11 => 304 + l | 12 => 334 + l
  | _ => 365 + l
  end.

Definition DaysInMonth (y m : Z) : Z :=
  daysBeforeMonth (isLeapYear y) (m + 1) - daysBeforeMonth (isLeapYear y) m.

(** [MonthFromTime]: the month index, 0 = January, as [getMonth] returns it. *)
Definition MonthFromDay (d : Z) : Z :=
  let y := YearFromDay d in
  let k := d - DayFromYear y in
  let leap := isLeapYear y in
  if k <? daysBeforeMonth leap 2 then 0
  else if k <? daysBeforeMonth leap 3 then 1
  else if k <? daysBeforeMonth leap 4 then 2
  else if k <? daysBeforeMonth leap 5 then 3
  else if k <? daysBeforeMonth leap 6 then 4
  else if k <? daysBeforeMonth leap 7 then 5
  else if k <? daysBeforeMonth leap 8 then 6
  else if k <? daysBeforeMonth leap 9 then 7
  else if k <? daysBeforeMonth leap 10 then 8
  else if k <? daysBeforeMonth leap 11 then 9
  else if k <? daysBeforeMonth leap 12 then 10
  else 11.

Definition MonthFromTime (t : Z) : Z := MonthFromDay (Day t).

Definition DateFromDay (d : Z) : Z :=
  let y := YearFromDay d in
  d - DayFromYear y - daysBeforeMonth (isLeapYear y) (MonthFromDay d + 1) + 1.

(** [MakeDay] for a calendar date, month counted from 1. *)
Definition MakeDay (y m d : Z) : Z :=
  DayFromYear y + daysBeforeMonth (isLeapYear y) m + d - 1.

Definition validDate (y m d : Z) : bool :=
  (0 <=? y) && (y <=? 9999) && (1 <=? m) && (m <=? 12)
  && (1 <=? d) && (d <=? DaysInMonth y m).

(** *** Strings of digits *)

Definition digit (c : ascii) : option Z :=
  let n := Z.of_N (N_of_ascii c) in
  if (48 <=? n) && (n <=? 57) then Some (n - 48) else None.

Definition isDash (c : ascii) : bool := Ascii.eqb c "-"%char.
Definition isColon (c : ascii) : bool := Ascii.eqb c ":"%char.

Definition digits2 (a b : ascii) : option Z :=
  match digit a, digit b with
  | Some x, Some y => Some (10 * x + y)
  | _, _ => None
  end.

Definition digits4 (a b c d : ascii) : option Z :=
  match digits2 a b, digits2 c d with
  | Some x, Some y => Some (100 * x + y)
  | _, _ => None
  end.

(** The date-only form [YYYY-MM-DD] of the ECMAScript date-time string
    format; [None] on any other string and on illegal element values. *)
Definition parseISODate (s : string) : option (Z * Z * Z) :=
  match list_ascii_of_string s with
  | [y1; y2; y3; y4; s1; m1; m2; s2; d1; d2] =>
      match digits4 y1 y2 y3 y4, digits2 m1 m2, digits2 d1 d2 with
      | Some y, Some m, Some d =>
          if isDash s1 && isDash s2 && validDate y m d
          then Some (y, m, d) else None
      | _, _, _ => None
      end
  | _ => None
  end.

(** The time part [THH:mm:ss] of the date-time form, in milliseconds. *)
Definition parseISOTime (s : string) : option Z :=
  match list_ascii_of_string s with
  | [t; h1; h2; c1; n1; n2; c2; s1; s2] =>
      match digits2 h1 h2, digits2 n1 n2, digits2 s1 s2 with
      | Some h, Some n, Some sec =>
          if Ascii.eqb t "T"%char && isColon c1 && isColon c2
             && (h <=? 23) && (n <=? 59) && (sec <=? 59)
          then Some (((h * 60 + n) * 60 + sec) * 1000) else None
      | _, _, _ => None
      end
  | _ => None
  end.

(** The host environment: the offset of local time from UTC, in
    milliseconds (a zone with a fixed offset; [LocalTime(t) = t + tza]). *)
Definition TimeZone : Type := Z.

Definition LocalTime (tza : TimeZone) (t : Z) : Z := t + tza.
Definition UTC (tza : TimeZone) (t : Z) : Z := t - tza.

(** [new Date(s).getTime()] on the two forms the components build: the
    date-only [YYYY-MM-DD], taken as UTC, and [YYYY-MM-DDTHH:mm:ss]
    without offset, taken as local time.  Every other string is taken as
    an invalid date (outside the ECMAScript format the standard leaves
    the parsing to the engine). *)
Definition Date_parse (tza : TimeZone) (s : string) : option Z :=
  if (String.length s =? 10)%nat then
    match parseISODate s with
    | Some (y, m, d) => Some (MakeDay y m d * msPerDay)
    | None => None
    end
  else
    match parseISODate (substring 0 10 s),
          parseISOTime (substring 10 (String.length s - 10) s) with
    | Some (y, m, d), Some ms => Some (UTC tza (MakeDay y m d * msPerDay + ms))
    | _, _ => None
    end.

(** [getFullYear], [getMonth]: local-time fields; NaN on an invalid date. *)
Definition getFullYear (tza : TimeZone) (t : option Z) : option Z :=
  option_map (fun t => YearFromTime (LocalTime tza t)) t.

Definition getMonth (tza : TimeZone) (t : option Z) : option Z :=
  option_map (fun t => MonthFromTime (LocalTime tza t)) t.

(** [String(n)] for an integral number, ["NaN"] for NaN. *)
Definition String_of_number (n : option Z) : string :=
  match n with
  | Some z => NilZero.string_of_int (Z.to_int z)
  | None => "NaN"
  end.

Fixpoint repeat_char (c : ascii) (n : nat) : string :=
  match n with
  | O => EmptyString
  | S n' => String c (repeat_char c n')
  end.

(** [s.padStart(n, '0')]. *)
Definition padStart (n : nat) (s : string) : string :=
  (repeat_char "0"%char (n - String.length s) ++ s)%string.

(** [toISOString().split('T')[0]]: the UTC calendar day of a time value,
    for the years 0 to 9999 that the plain form covers. *)
Definition toISODateString (t : Z) : string :=
  let d := Day t in
  (padStart 4 (String_of_number (Some (YearFromDay d))) ++ "-"
   ++ padStart 2 (String_of_number (Some (MonthFromDay d + 1))) ++ "-"
   ++ padStart 2 (String_of_number (Some (DateFromDay d))))%string.

End JsDate.

Import JsDate.


(** ** Data model (types.ts)

    Each interface is a record in a module of its name.  JavaScript
    numbers that hold amounts are rationals; no property below depends on
    their arithmetic. *)

Module Product.
Record t : Type := {
  id : string;
  name : string;
  description : string
}.
End Product.

Module Customer.
Record t : Type := {
  name : string;
  email : option string;
  address : string;
  logoUrl : option string
}.
End Customer.

Module LineItem.
Record t : Type := {
  id : string;
  product : Product.t;
  quantity : Q;
  price : Q
}.
End LineItem.

Module Invoice.
Record t : Type := {
  id : string;
  invoiceNumber : string;
  issueDate : string;
  billFrom : Customer.t;
  billTo : Customer.t;
  lineItems : list LineItem.t;
  notes : string;
  createdAt : string;
  templateId : string;
  createdById : string
}.
End Invoice.

(** A [Set<string>] in insertion order. *)
Module StringSet.

Definition t : Type := list string.

Definition empty : t := [].

Definition has (x : string) (s : t) : bool := existsb (String.eqb x) s.

Definition add (x : string) (s : t) : t := if has x s then s else s ++ [x].

Definition size (s : t) : Z := Z.of_nat (List.length s).

End StringSet.

(** A [Map<string, V>] in insertion order, as [Array.from(m.entries())]
    lists it. *)
Module StringMap.

Section WithValue.
Context {V : Type}.

Definition t : Type := list (string * V).

Fixpoint has (k : string) (m : t) : bool :=
  match m with
  | [] => false
  | (k', _) :: m' => String.eqb k k' || has k m'
  end.

Fixpoint get (k : string) (m : t) : option V :=
  match m with
  | [] => None
  | (k', v) :: m' => if String.eqb k k' then Some v else get k m'
  end.

(** [m.set(k, v)]: replaces the value of a present key, else appends. *)
Fixpoint set (k : string) (v : V) (m : t) : t :=
  match m with
  | [] => [(k, v)]
  | (k', v') :: m' =>
      if String.eqb k k' then (k', v) :: m' else (k', v') :: set k v m'
  end.

(** Mutation of the object stored under [k], obtained with [m.get(k)!]. *)
Fixpoint update (k : string) (f : V -> V) (m : t) : t :=
  match m with
  | [] => []
  | (k', v) :: m' =>
      if String.eqb k k' then (k', f v) :: m' else (k', v) :: update k f m'
  end.

Definition entries (m : t) : list (string * V) := m.

End WithValue.

Arguments t : clear implicits.

End StringMap.

(** [Array.prototype.sort(compare)]: the stable sort the standard asks for,
    as an insertion sort; a comparator result of NaN counts as 0. *)
Module JsArray.

Section Sort.
Context {A : Type} (compare : A -> A -> option Z).

Definition compareValue (a b : A) : Z :=
  match compare a b with
  | Some v => v
  | None => 0
  end.

Fixpoint insert (x : A) (l : list A) : list A :=
  match l with
  | [] => [x]
  | y :: l' => if compareValue x y <? 0 then x :: y :: l' else y :: insert x l'
  end.

Definition sort (l : list A) : list A :=
  fold_left (fun acc x => insert x acc) l [].

End Sort.

End JsArray.

(** [a - b] on numbers that may be NaN. *)
Definition number_sub (a b : option Z) : option Z :=
  match a, b with
  | Some x, Some y => Some (x - y)
  | _, _ => None
  end.

(** ** ReportsDashboard: daily and monthly report rows *)

Module Reports.

Record ReportItem : Type := {
  customers : StringSet.t;
  invoiceCount : Z;
  totalBilled : Q
}.

Record ReportRow : Type := {
  date : string;
  item : ReportItem;
  uniqueCustomers : Z
}.

Definition newItem : ReportItem :=
  {| customers := StringSet.empty; invoiceCount := 0; totalBilled := 0%Q |}.

(** [lineItems.reduce((acc, item) => acc + item.quantity * item.price, 0)] *)
Definition invoiceTotal (inv : Invoice.t) : Q :=
  fold_left (fun acc it => (acc + LineItem.quantity it * LineItem.price it)%Q)
    (Invoice.lineItems inv) 0%Q.

(** The month key of an invoice: year and zero-padded month of the issue
    date parsed as a local date-time. *)
Definition monthKey (tza : TimeZone) (inv : Invoice.t) : string :=
  let issue := Date_parse tza (Invoice.issueDate inv ++ "T00:00:00") in
  (String_of_number (getFullYear tza issue) ++ "-"
   ++ padStart 2 (String_of_number (option_map (Z.add 1) (getMonth tza issue))))%string.

(** The three mutations made on the report item of a period. *)
Definition record (inv : Invoice.t) (r : ReportItem) : ReportItem :=
  {| customers := StringSet.add (Customer.name (Invoice.billTo inv)) (customers r);
     invoiceCount := invoiceCount r + 1;
     totalBilled := (totalBilled r + invoiceTotal inv)%Q |}.

Definition accumulate (key : string) (inv : Invoice.t)
    (m : StringMap.t ReportItem) : StringMap.t ReportItem :=
  let m1 := if negb (StringMap.has key m) then StringMap.set key newItem m else m in
  StringMap.update key (record inv) m1.

(** One iteration of [invoices.forEach], on the pair of maps. *)
Definition step (tza : TimeZone)
    (maps : StringMap.t ReportItem * StringMap.t ReportItem) (inv : Invoice.t)
    : StringMap.t ReportItem * StringMap.t ReportItem :=
  (accumulate (Invoice.issueDate inv) inv (fst maps),
   accumulate (monthKey tza inv) inv (snd maps)).

Definition toRow (e : string * ReportItem) : ReportRow :=
  {| date := fst e; item := snd e;
     uniqueCustomers := StringSet.size (customers (snd e)) |}.

Definition compareDaily (tza : TimeZone) (a b : ReportRow) : option Z :=
  number_sub (Date_parse tza (date b)) (Date_parse tza (date a)).

Definition compareMonthly (tza : TimeZone) (a b : ReportRow) : option Z :=
  number_sub (Date_parse tza (date b ++ "-01")) (Date_parse tza (date a ++ "-01")).

Record Result : Type := {
  dailyReports : list ReportRow;
  monthlyReports : list ReportRow
}.

Definition computeDailyAndMonthlyReports (tza : TimeZone) (invoices : list Invoice.t)
    : Result :=
  let maps := fold_left (step tza) invoices ([], []) in
  {| dailyReports :=
       JsArray.sort (compareDaily tza) (map toRow (StringMap.entries (fst maps)));
     monthlyReports :=
       JsArray.sort (compareMonthly tza)
         (map toRow (StringMap.entries (snd maps))) |}.

End Reports.

(** ** CustomerStatsDashboard: today / this month / this year *)

Module CustomerStats.

Record Stats : Type := {
  today : Z;
  thisMonth : Z;
  thisYear : Z
}.

Record Sets : Type := {
  dailyCustomers : StringSet.t;
  monthlyCustomers : StringSet.t;
  yearlyCustomers : StringSet.t
}.

(** [===] on numbers: NaN is equal to nothing. *)
Definition number_eq (a b : option Z) : bool :=
  match a, b with
  | Some x, Some y => x =? y
  | _, _ => false
  end.

(** One iteration of [invoices.forEach]; [now] is the time value of
    [new Date()]. *)
Definition step (tza : TimeZone) (now : Z) (acc : Sets) (inv : Invoice.t) : Sets :=
  let todayStr := toISODateString now in
  let currentMonth := getMonth tza (Some now) in
  let currentYear := getFullYear tza (Some now) in
  let issue := Date_parse tza (Invoice.issueDate inv) in
  let who := Customer.name (Invoice.billTo inv) in
  let daily :=
    if String.eqb (Invoice.issueDate inv) todayStr
    then StringSet.add who (dailyCustomers acc) else dailyCustomers acc in
  let monthly :=
    if number_eq (getFullYear tza issue) currentYear
       && number_eq (getMonth tza issue) currentMonth
    then StringSet.add who (monthlyCustomers acc) else monthlyCustomers acc in
  let yearly :=
    if number_eq (getFullYear tza issue) currentYear
    then StringSet.add who (yearlyCustomers acc) else yearlyCustomers acc in
  {| dailyCustomers := daily; monthlyCustomers := monthly; yearlyCustomers := yearly |}.

Definition computeCustomerCounts (tza : TimeZone) (now : Z) (invoices : list Invoice.t)
    : Stats :=
  let sets :=
    fold_left (step tza now) invoices
      {| dailyCustomers := StringSet.empty; monthlyCustomers := StringSet.empty;
         yearlyCustomers := StringSet.empty |} in
  {| today := StringSet.size (dailyCustomers sets);
     thisMonth := StringSet.size (monthlyCustomers sets);
     thisYear := StringSet.size (yearlyCustomers sets) |}.

End CustomerStats.

(** ** The backend interface (supabase-js) *)

Inductive Role : Type := admin | staff.

(** A row of [profiles] (the interface [User] of types.ts). *)
Module User.
Record t : Type := {
  id : string;
  name : string;
  email : string;
  role : Role
}.
End User.

(** The authenticated subject of a session (the [User] of supabase-js,
    imported as [SupabaseUser]). *)
Module SupabaseUser.
Record t : Type := {
  id : string;
  email : option string
}.
End SupabaseUser.

Module Session.
Record t : Type := {
  access_token : string;
  user : SupabaseUser.t
}.
End Session.

Module PgError.
Record t : Type := {
  code : string;
  message : string
}.
End PgError.

(** The object given to [insert]; [email] is [user.email!], which is
    still undefined when the subject has no email. *)
Module NewProfile.
Record t : Type := {
  id : string;
  email : option string;
  name : string;
  role : Role
}.
End NewProfile.

(** [{ data, error }] of a single-row query. *)
Record PgResult : Type := {
  data : option User.t;
  error : option PgError.t
}.

(** The remote operations the bootstrap awaits. *)
Inductive Remote : Type :=
| ProbeProfiles                       (* from('profiles').select('id').limit(1) *)
| SelectProfile (uid : string)        (* ...select('*').eq('id', uid).single() *)
| InsertProfile (row : NewProfile.t) (* ...insert(row).select().single() *)
| GetSession                          (* auth.getSession() *)
| SignOut.                            (* auth.signOut() *)

(** What the caller destructures from the resolved value of each. *)
Definition Reply (c : Remote) : Type :=
  match c with
  | ProbeProfiles => option PgError.t
  | SelectProfile _ => PgResult
  | InsertProfile _ => PgResult
  | GetSession => option Session.t
  | SignOut => unit
  end.

(** Resolved values, untyped, as they appear in traces and as the
    environment delivers them. *)
Inductive Response : Type :=
| ProbeResponse (e : option PgError.t)
| RowResponse (r : PgResult)
| SessionResponse (s : option Session.t)
| SignOutResponse.

Definition toResponse (c : Remote) : Reply c -> Response :=
  match c return Reply c -> Response with
  | ProbeProfiles => ProbeResponse
  | SelectProfile _ => RowResponse
  | InsertProfile _ => RowResponse
  | GetSession => SessionResponse
  | SignOut => fun _ => SignOutResponse
  end.

Definition fromResponse (c : Remote) (r : Response) : option (Reply c) :=
  match c return option (Reply c) with
  | ProbeProfiles => match r with ProbeResponse e => Some e | _ => None end
  | SelectProfile _ => match r with RowResponse x => Some x | _ => None end
  | InsertProfile _ => match r with RowResponse x => Some x | _ => None end
  | GetSession => match r with SessionResponse x => Some x | _ => None end
  | SignOut => match r with SignOutResponse => Some tt | _ => None end
  end.

(** ** Asynchronous code as trees of suspension points *)

(** Code that only awaits the backend. *)
Inductive Proc (A : Type) : Type :=
| PRet (a : A)
| PAwait (c : Remote) (k : Reply c -> Proc A).

Arguments PRet {A} a.
Arguments PAwait {A} c k.

(** The five pieces of React state the bootstrap writes. *)
Record AppState : Type := {
  session : option Session.t;
  currentUser : option User.t;
  isAuthLoading : bool;
  needsDbSetup : bool;
  loginMessage : option string
}.

Inductive StateUpdate : Type :=
| SetSession (s : option Session.t)
| SetCurrentUser (u : option User.t)
| SetIsAuthLoading (b : bool)
| SetNeedsDbSetup (b : bool)
| SetLoginMessage (m : option string).

Definition applyUpdate (u : StateUpdate) (st : AppState) : AppState :=
  match u with
  | SetSession s =>
      {| session := s; currentUser := currentUser st;
         isAuthLoading := isAuthLoading st; needsDbSetup := needsDbSetup st;
         loginMessage := loginMessage st |}
  | SetCurrentUser c =>
      {| session := session st; currentUser := c;
         isAuthLoading := isAuthLoading st; needsDbSetup := needsDbSetup st;
         loginMessage := loginMessage st |}
  | SetIsAuthLoading b =>
      {| session := session st; currentUser := currentUser st;
         isAuthLoading := b; needsDbSetup := needsDbSetup st;
         loginMessage := loginMessage st |}
  | SetNeedsDbSetup b =>
      {| session := session st; currentUser := currentUser st;
         isAuthLoading := isAuthLoading st; needsDbSetup := b;
         loginMessage := loginMessage st |}
  | SetLoginMessage m =>
      {| session := session st; currentUser := currentUser st;
         isAuthLoading := isAuthLoading st; needsDbSetup := needsDbSetup st;
         loginMessage := m |}
  end.

(** The [useState] initial values. *)
Definition initialState : AppState :=
  {| session := None; currentUser := None; isAuthLoading := true;
     needsDbSetup := false; loginMessage := None |}.

(** Code of the component: it awaits the backend, awaits
    [getOrCreateUserProfile] and calls state setters. *)
Inductive Ctl (A : Type) : Type :=
| Ret (a : A)
| Await (c : Remote) (k : Reply c -> Ctl A)
| AwaitProfile (u : SupabaseUser.t) (k : option User.t -> Ctl A)
| Do (u : StateUpdate) (k : Ctl A).

Arguments Ret {A} a.
Arguments Await {A} c k.
Arguments AwaitProfile {A} u k.
Arguments Do {A} u k.

Fixpoint bind {A B : Type} (p : Ctl A) (f : A -> Ctl B) : Ctl B :=
  match p with
  | Ret a => f a
  | Await c k => Await c (fun r => bind (k r) f)
  | AwaitProfile u k => AwaitProfile u (fun r => bind (k r) f)
  | Do u k => Do u (bind k f)
  end.

Definition await (c : Remote) : Ctl (Reply c) := Await c Ret.
Definition set (u : StateUpdate) : Ctl unit := Do u (Ret tt).

Declare Scope ctl_scope.
Delimit Scope ctl_scope with ctl.
Notation "x <- p ;; q" := (bind p (fun x => q))
  (at level 61, p at next level, right associativity) : ctl_scope.
Notation "p ;; q" := (bind p (fun _ => q))
  (at level 61, right associativity) : ctl_scope.

(** ** getOrCreateUserProfile *)

(** [s.split('@')[0]]: the characters before the first ['@']. *)
Fixpoint beforeAt (s : string) : string :=
  match s with
  | EmptyString => EmptyString
  | String c s' => if Ascii.eqb c "@"%char then EmptyString else String c (beforeAt s')
  end.

(** [user.email?.split('@')[0] || 'New User'] *)
Definition fallbackName (u : SupabaseUser.t) : string :=
  match SupabaseUser.email u with
  | Some e =>
      if String.eqb (beforeAt e) EmptyString then "New User" else beforeAt e
  | None => "New User"
  end.

(** [error && error.code !== 'PGRST116'] *)
Definition isRealError (e : option PgError.t) : bool :=
  match e with
  | Some err => negb (String.eqb (PgError.code err) "PGRST116")
  | None => false
  end.

Definition fallbackProfile (u : SupabaseUser.t) : NewProfile.t :=
  {| NewProfile.id := SupabaseUser.id u; NewProfile.email := SupabaseUser.email u;
     NewProfile.name := fallbackName u; NewProfile.role := staff |}.

Definition getOrCreateUserProfile (u : SupabaseUser.t) : Proc (option User.t) :=
  PAwait (SelectProfile (SupabaseUser.id u)) (fun res =>
    match data res with
    | Some profile => PRet (Some profile)
    | None =>
        if isRealError (error res) then PRet None
        else
          PAwait (InsertProfile (fallbackProfile u)) (fun ins =>
            match error ins with
            | Some _ => PRet None
            | None => PRet (data ins)
            end)
    end).

(** ** The start-up effect of App *)

(** [s.includes(sub)] *)
Fixpoint includes (sub s : string) : bool :=
  prefix sub s
  || match s with
     | EmptyString => false
     | String _ s' => includes sub s'
     end.

(** [dbError && (dbError.code === '42P01' ||
     dbError.message.includes('does not exist'))] *)
Definition isMissingRelation (dbError : option PgError.t) : bool :=
  match dbError with
  | Some e => String.eqb (PgError.code e) "42P01" || includes "does not exist" (PgError.message e)
  | None => false
  end.

Definition profileFailureMessage : string :=
  "Your user profile could not be loaded or created. Please contact support.".

Local Open Scope ctl_scope.

Definition initializeApp : Ctl unit :=
  dbError <- await ProbeProfiles ;;
  if isMissingRelation dbError then
    set (SetNeedsDbSetup true) ;;
    set (SetIsAuthLoading false)
  else
    sess <- await GetSession ;;
    match sess with
    | Some s =>
        userProfile <- AwaitProfile (Session.user s) Ret ;;
        match userProfile with
        | Some p =>
            set (SetSession (Some s)) ;;
            set (SetCurrentUser (Some p))
        | None =>
            set (SetLoginMessage (Some profileFailureMessage)) ;;
            await SignOut ;;
            set (SetSession None) ;;
            set (SetCurrentUser None)
        end
    | None =>
        set (SetSession None) ;;
        set (SetCurrentUser None)
    end ;;
    set (SetIsAuthLoading false).

(** The callback given to [onAuthStateChange]. *)
Definition onAuthStateChange (sess : option Session.t) : Ctl unit :=
  set (SetSession sess) ;;
  match sess with
  | Some s =>
      userProfile <- AwaitProfile (Session.user s) Ret ;;
      set (SetCurrentUser userProfile)
  | None => set (SetCurrentUser None)
  end.

(** The synchronous statements of the effect body: an async function
    called without [await], and a subscription. *)
Inductive EffectStmt : Type :=
| Spawn (p : Ctl unit)
| Subscribe (callback : option Session.t -> Ctl unit).

Definition effectBody : list EffectStmt :=
  [Spawn initializeApp; Subscribe onAuthStateChange].

Local Close Scope ctl_scope.

(** What [App] renders. *)
Inductive Screen : Type :=
| SplashScreen
| DatabaseSetup
| LoginPage (msg : option string)
| MainApp (s : Session.t) (u : User.t).

Definition render (isLocalDataLoading : bool) (st : AppState) : Screen :=
  if isAuthLoading st || isLocalDataLoading then SplashScreen
  else if needsDbSetup st then DatabaseSetup
  else
    match session st, currentUser st with
    | Some s, Some u => MainApp s u
    | _, _ => LoginPage (loginMessage st)
    end.

(** ** Traces *)

Inductive Event : Type :=
| Requested (c : Remote)
| Replied (c : Remote) (r : Response)
| StateSet (u : StateUpdate)
| ResolveCalled (u : SupabaseUser.t)      (* getOrCreateUserProfile(u) is entered *)
| Resolved (r : option User.t)            (* getOrCreateUserProfile returns r *)
| Subscribed                            (* onAuthStateChange(callback) *)
| Notified (s : option Session.t).        (* the callback is invoked with s *)

(** ** One asynchronous function run to completion against a backend *)

Section Run.

Context {W : Type}.
Variable respond : W -> forall c : Remote, Reply c * W.

Fixpoint runProc {A : Type} (p : Proc A) (w : W) : A * W * list Event :=
  match p with
  | PRet a => (a, w, [])
  | PAwait c k =>
      let (r, w1) := respond w c in
      let '(a, w2, tr) := runProc (k r) w1 in
      (a, w2, Requested c :: Replied c (toResponse c r) :: tr)
  end.

Fixpoint run {A : Type} (p : Ctl A) (st : AppState) (w : W)
    : A * AppState * W * list Event :=
  match p with
  | Ret a => (a, st, w, [])
  | Await c k =>
      let (r, w1) := respond w c in
      let '(a, st2, w2, tr) := run (k r) st w1 in
      (a, st2, w2, Requested c :: Replied c (toResponse c r) :: tr)
  | AwaitProfile u k =>
      let '(r, w1, tr1) := runProc (getOrCreateUserProfile u) w in
      let '(a, st2, w2, tr2) := run (k r) st w1 in
      (a, st2, w2, ResolveCalled u :: tr1 ++ Resolved r :: tr2)
  | Do u k =>
      let '(a, st2, w2, tr) := run k (applyUpdate u st) w in
      (a, st2, w2, StateSet u :: tr)
  end.

End Run.

Definition finalState {A W : Type} (x : A * AppState * W * list Event) : AppState :=
  snd (fst (fst x)).
Definition finalWorld {A W : Type} (x : A * AppState * W * list Event) : W :=
  snd (fst x).
Definition traceOf {A W : Type} (x : A * AppState * W * list Event) : list Event :=
  snd x.

(** ** A backend: the profiles table, the stored session, scheduled failures *)

Module Backend.

(** [faults] lists, for the coming remote calls in order, the error a call
    fails with ([None]: the call goes through). *)
Record World : Type := {
  profiles : list User.t;
  stored : option Session.t;
  faults : list (option PgError.t)
}.

Definition nextFault (w : World) : option PgError.t := hd None (faults w).

Definition consume (w : World) : World :=
  {| profiles := profiles w; stored := stored w; faults := tl (faults w) |}.

Definition rowsOf (uid : string) (w : World) : list User.t :=
  filter (fun r => String.eqb (User.id r) uid) (profiles w).

Definition noRows : PgError.t :=
  {| PgError.code := "PGRST116";
     PgError.message := "JSON object requested, multiple (or no) rows returned" |}.

Definition duplicateKey : PgError.t :=
  {| PgError.code := "23505";
     PgError.message := "duplicate key value violates unique constraint profiles_pkey" |}.

Definition notNull : PgError.t :=
  {| PgError.code := "23502";
     PgError.message := "null value in column email violates not-null constraint" |}.

Definition failed (e : PgError.t) : PgResult := {| data := None; error := Some e |}.
Definition found (r : User.t) : PgResult := {| data := Some r; error := None |}.

(** [.single()]: exactly one row, or the PGRST116 error. *)
Definition selectSingle (uid : string) (w : World) : PgResult :=
  match rowsOf uid w with
  | [r] => found r
  | _ => failed noRows
  end.

(** An insert under the constraints of the schema (primary key [id],
    [email] not null); the stored row is returned. *)
Definition insertRow (row : NewProfile.t) (w : World) : PgResult * World :=
  match rowsOf (NewProfile.id row) w, NewProfile.email row with
  | _ :: _, _ => (failed duplicateKey, w)
  | [], None => (failed notNull, w)
  | [], Some e =>
      let r := {| User.id := NewProfile.id row; User.name := NewProfile.name row;
                  User.email := e; User.role := NewProfile.role row |} in
      (found r,
       {| profiles := profiles w ++ [r]; stored := stored w; faults := faults w |})
  end.

Definition respond (w : World) (c : Remote) : Reply c * World :=
  let w' := consume w in
  match c return Reply c * World with
  | ProbeProfiles => (nextFault w, w')
  | SelectProfile uid =>
      match nextFault w with
      | Some e => (failed e, w')
      | None => (selectSingle uid w', w')
      end
  | InsertProfile row =>
      match nextFault w with
      | Some e => (failed e, w')
      | None => insertRow row w'
      end
  | GetSession =>
      match nextFault w with
      | Some _ => (None, w')
      | None => (stored w', w')
      end
  | SignOut =>
      (tt, {| profiles := profiles w'; stored := None; faults := faults w' |})
  end.

End Backend.

(** ** The component under the event loop *)

(** A started asynchronous function: suspended at an [await] of its own,
    suspended inside [getOrCreateUserProfile], or finished. *)
Inductive Task : Type :=
| Waiting (c : Remote) (k : Reply c -> Ctl unit)
| WaitingInProfile (c : Remote) (k : Reply c -> Proc (option User.t))
    (ret : option User.t -> Ctl unit)
| Finished.

(** Runs component code up to its next suspension point. *)
Fixpoint advance (p : Ctl unit) (st : AppState) : AppState * list Event * Task :=
  match p with
  | Ret _ => (st, [], Finished)
  | Await c k => (st, [Requested c], Waiting c k)
  | AwaitProfile u k =>
      match getOrCreateUserProfile u with
      | PRet r =>
          let '(st', tr, t) := advance (k r) st in
          (st', ResolveCalled u :: Resolved r :: tr, t)
      | PAwait c k' => (st, [ResolveCalled u; Requested c], WaitingInProfile c k' k)
      end
  | Do u k =>
      let '(st', tr, t) := advance k (applyUpdate u st) in
      (st', StateSet u :: tr, t)
  end.

(** Continues [getOrCreateUserProfile] and, when it returns, its caller. *)
Definition advanceProfile (q : Proc (option User.t)) (ret : option User.t -> Ctl unit)
    (st : AppState) : AppState * list Event * Task :=
  match q with
  | PRet r =>
      let '(st', tr, t) := advance (ret r) st in
      (st', Resolved r :: tr, t)
  | PAwait c k' => (st, [Requested c], WaitingInProfile c k' ret)
  end.

Record Config : Type := {
  app : AppState;
  tasks : list Task;
  listener : option (option Session.t -> Ctl unit);
  trace : list Event
}.

(** The effect body runs to its end before the event loop takes over. *)
Definition execStmt (cfg : Config) (s : EffectStmt) : Config :=
  match s with
  | Spawn p =>
      let '(st, tr, t) := advance p (app cfg) in
      {| app := st; tasks := tasks cfg ++ [t]; listener := listener cfg;
         trace := trace cfg ++ tr |}
  | Subscribe cb =>
      {| app := app cfg; tasks := tasks cfg; listener := Some cb;
         trace := trace cfg ++ [Subscribed] |}
  end.

Definition mount : Config :=
  fold_left execStmt effectBody
    {| app := initialState; tasks := []; listener := None; trace := [] |}.

(** What the event loop can run next: the continuation of task [i], whose
    request resolved with [r], or the auth listener, called with [s]. *)
Inductive Input : Type :=
| Deliver (i : nat) (r : Response)
| Notify (s : option Session.t).

Fixpoint replaceNth {A : Type} (i : nat) (x : A) (l : list A) : list A :=
  match l, i with
  | [], _ => []
  | _ :: l', O => x :: l'
  | y :: l', S i' => y :: replaceNth i' x l'
  end.

Definition resume (t : Task) (r : Response) (st : AppState)
    : option (AppState * list Event * Task) :=
  match t with
  | Waiting c k =>
      match fromResponse c r with
      | Some x =>
          let '(st', tr, t') := advance (k x) st in
          Some (st', Replied c r :: tr, t')
      | None => None
      end
  | WaitingInProfile c k ret =>
      match fromResponse c r with
      | Some x =>
          let '(st', tr, t') := advanceProfile (k x) ret st in
          Some (st', Replied c r :: tr, t')
      | None => None
      end
  | Finished => None
  end.

Definition step (cfg : Config) (i : Input) : option Config :=
  match i with
  | Deliver n r =>
      match nth_error (tasks cfg) n with
      | Some t =>
          match resume t r (app cfg) with
          | Some (st, tr, t') =>
              Some {| app := st; tasks := replaceNth n t' (tasks cfg);
                      listener := listener cfg; trace := trace cfg ++ tr |}
          | None => None
          end
      | None => None
      end
  | Notify s =>
      match listener cfg with
      | Some cb =>
          let '(st, tr, t) := advance (cb s) (app cfg) in
          Some {| app := st; tasks := tasks cfg ++ [t]; listener := listener cfg;
                  trace := trace cfg ++ Notified s :: tr |}
      | None => None
      end
  end.

Fixpoint steps (cfg : Config) (inputs : list Input) : option Config :=
  match inputs with
  | [] => Some cfg
  | i :: rest =>
      match step cfg i with
      | Some cfg' => steps cfg' rest
      | None => None
      end
  end.

(** The configurations of the mounted component that some behaviour of
    the backend and of the session provider leads to. *)
Inductive Reachable : Config -> Prop :=
| reach_mount : Reachable mount
| reach_step cfg i cfg' :
    Reachable cfg -> step cfg i = Some cfg' -> Reachable cfg'.

(** ** Observations on traces *)

Definition isSignOutRequest (e : Event) : bool :=
  match e with
  | Requested SignOut => true
  | _ => false
  end.

Definition isInsertRequest (e : Event) : bool :=
  match e with
  | Requested (InsertProfile _) => true
  | _ => false
  end.

Definition isSessionRequest (e : Event) : bool :=
  match e with
  | Requested GetSession => true
  | _ => false
  end.

Definition isResolveCall (e : Event) : bool :=
  match e with
  | ResolveCalled _ => true
  | _ => false
  end.

Definition isLoginMessageUpdate (e : Event) : bool :=
  match e with
  | StateSet (SetLoginMessage _) => true
  | _ => false
  end.

Definition countEvents (f : Event -> bool) (tr : list Event) : nat :=
  List.length (filter f tr).

(** The rows the backend was asked to insert, in order. *)
Fixpoint insertedRows (tr : list Event) : list NewProfile.t :=
  match tr with
  | [] => []
  | Requested (InsertProfile row) :: tr' => row :: insertedRows tr'
  | _ :: tr' => insertedRows tr'
  end.

(** The read of a profile failed with the no-matching-row error. *)
Definition noMatchingRow (r : PgResult) : Prop :=
  data r = None /\ exists e, error r = Some e /\ PgError.code e = "PGRST116"%string.

(** ** Sample data *)

Module Sample.

Definition ann : SupabaseUser.t :=
  {| SupabaseUser.id := "u1"; SupabaseUser.email := Some "ann@example.com"%string |}.

Definition annSession : Session.t := {| Session.access_token := "tok-1"; Session.user := ann |}.

Definition annRow : User.t :=
  {| User.id := "u1"; User.name := "Ann"; User.email := "ann@example.com";
     User.role := admin |}.

Definition noLocalPart : SupabaseUser.t :=
  {| SupabaseUser.id := "u2"; SupabaseUser.email := Some "@example.com"%string |}.

Definition undefinedTable : PgError.t :=
  {| PgError.code := "42P01"; PgError.message := "relation public.profiles does not exist" |}.

Definition timeout : PgError.t :=
  {| PgError.code := "57014"; PgError.message := "canceling statement due to statement timeout" |}.

(** The schema is in place, nobody has a profile, Ann is signed in. *)
Definition fresh : Backend.World :=
  {| Backend.profiles := []; Backend.stored := Some annSession; Backend.faults := [] |}.

Definition withAnn : Backend.World :=
  {| Backend.profiles := [annRow]; Backend.stored := Some annSession;
     Backend.faults := [] |}.

Definition noSchema : Backend.World :=
  {| Backend.profiles := []; Backend.stored := Some annSession;
     Backend.faults := [Some undefinedTable] |}.


(** The probe resolves; then the session and Ann's profile arrive. *)
Definition probeInputs : list Input := [Deliver 0 (ProbeResponse None)].

Definition loginInputs : list Input :=
  [Deliver 0 (ProbeResponse None);
   Deliver 0 (SessionResponse (Some annSession));
   Deliver 0 (RowResponse (Backend.found annRow))].

Definition after (inputs : list Input) : Config :=
  match steps mount inputs with
  | Some cfg => cfg
  | None => mount
  end.

Definition item (p : Q * Q) : LineItem.t :=
  {| LineItem.id := "item";
     LineItem.product :=
       {| Product.id := "prod"; Product.name := "Service";
          Product.description := "Billed work" |};
     LineItem.quantity := fst p; LineItem.price := snd p |}.

Definition customer (n : string) : Customer.t :=
  {| Customer.name := n; Customer.email := None; Customer.address := "Main St.";
     Customer.logoUrl := None |}.

(** An invoice issued on [d] to customer [n] for [items] (quantity, price). *)
Definition invoice (d n : string) (items : list (Q * Q)) : Invoice.t :=
  {| Invoice.id := "INV-1"; Invoice.invoiceNumber := "#001";
     Invoice.issueDate := d; Invoice.billFrom := customer "God Favor";
     Invoice.billTo := customer n; Invoice.lineItems := map item items;
     Invoice.notes := "Thank you"; Invoice.createdAt := d;
     Invoice.templateId := "default"; Invoice.createdById := "u1" |}.

(** The invoices of the worked example, and one of the previous year. *)
Definition invoices : list Invoice.t :=
  [invoice "2025-03-01" "A" [(2 # 1, 10 # 1)%Q];
   invoice "2025-03-01" "B" [(1 # 1, 5 # 1)%Q];
   invoice "2025-04-02" "A" [(1 # 1, 1 # 1)%Q];
   invoice "2024-12-31" "C" []].

Definition marchFirst : Invoice.t := invoice "2025-03-01" "A" [].
Definition newYearsDay : Invoice.t := invoice "2025-01-01" "B" [].

(** A zone five hours behind UTC, and the instant 2025-03-15T17:00:00Z,
    noon of 15 March there. *)
Definition utcMinus5 : TimeZone := -18000000.
Definition midMarch : Z := 1742058000000.

End Sample.

(** ** Observations on report rows *)

(** An issue date as the date input and [toISOString] of today produce
    it: [YYYY-MM-DD] of a calendar date, the year with four significant
    digits. *)
Definition wellFormedDate (s : string) : Prop :=
  exists y m d, parseISODate s = Some (y, m, d) /\ 1000 <= y.

(** The calendar day of [a] is later than that of [b]. *)
Definition dateAfter (a b : string) : Prop :=
  match parseISODate a, parseISODate b with
  | Some (y1, m1, d1), Some (y2, m2, d2) =>
      y2 < y1 \/ (y2 = y1 /\ (m2 < m1 \/ (m2 = m1 /\ d2 < d1)))
  | _, _ => False
  end.

(** The year and month a key [YYYY-MM] names. *)
Definition parseYearMonth (s : string) : option (Z * Z) :=
  match list_ascii_of_string s with
  | [y1; y2; y3; y4; s1; m1; m2] =>
      match digits4 y1 y2 y3 y4, digits2 m1 m2 with
      | Some y, Some m =>
          if isDash s1 && (1 <=? m) && (m <=? 12) then Some (y, m) else None
      | _, _ => None
      end
  | _ => None
  end.

(** The month of [a] is chronologically later than that of [b]. *)
Definition monthAfter (a b : string) : Prop :=
  match parseYearMonth a, parseYearMonth b with
  | Some (y1, m1), Some (y2, m2) => y2 < y1 \/ (y2 = y1 /\ m2 < m1)
  | _, _ => False
  end.

Definition totalCount (rows : list Reports.ReportRow) : Z :=
  fold_right (fun r acc => Reports.invoiceCount (Reports.item r) + acc) 0 rows.

(** The key of month [m] of year [y], as [monthKey] formats it. *)
Definition monthKeyOf (y m : Z) : string :=
  (String_of_number (Some y) ++ "-" ++ padStart 2 (String_of_number (Some m)))%string.

(** For a year of four digits the key reads back, alone and as the first
    day of its month. *)
Definition keyReadsBack (y m : Z) : bool :=
  match parseYearMonth (monthKeyOf y m),
        parseISODate (monthKeyOf y m ++ "-01") with
  | Some (y1, m1), Some (y2, m2, d2) =>
      (y1 =? y) && (m1 =? m) && (y2 =? y) && (m2 =? m) && (d2 =? 1)
      && (String.length (monthKeyOf y m ++ "-01") =? 10)%nat
  | _, _ => false
  end.

Definition fourDigitYears : list Z :=
  map Z.of_nat (seq (Z.to_nat 1000) (Z.to_nat 9000)).
Definition monthNumbers : list Z := map Z.of_nat (seq 1 12).

Definition entryCount (m : StringMap.t Reports.ReportItem) : Z :=
  fold_right (fun e acc => Reports.invoiceCount (snd e) + acc) 0 m.

(** ** Invariants of the component under the event loop *)

(** Component code that writes to [currentUser] only null, an identity
    in [P], or one that a call of [getOrCreateUserProfile] it has awaited
    returned. *)
Fixpoint writesResolved (P : User.t -> Prop) (p : Ctl unit) : Prop :=
  match p with
  | Ret _ => True
  | Await c k => forall r, writesResolved P (k r)
  | AwaitProfile u k =>
      forall r, writesResolved (fun x => P x \/ r = Some x) (k r)
  | Do upd k =>
      (forall x, upd = SetCurrentUser (Some x) -> P x) /\ writesResolved P k
  end.

(** The identities that [getOrCreateUserProfile] has returned so far. *)
Definition resolvedIn (tr : list Event) (x : User.t) : Prop :=
  In (Resolved (Some x)) tr.

Definition taskWritesResolved (tr : list Event) (t : Task) : Prop :=
  match t with
  | Waiting c k => forall r, writesResolved (resolvedIn tr) (k r)
  | WaitingInProfile c k ret =>
      forall r, writesResolved (fun x => resolvedIn tr x \/ r = Some x) (ret r)
  | Finished => True
  end.

Definition identityResolved (cfg : Config) : Prop :=
  (forall x, currentUser (app cfg) = Some x -> resolvedIn (trace cfg) x)
  /\ Forall (taskWritesResolved (trace cfg)) (tasks cfg)
  /\ (forall cb, listener cfg = Some cb ->
        forall s, writesResolved (fun _ => False) (cb s)).

(** The first two events of every run: the probe is requested, then the
    auth listener is installed. *)
Definition subscribedAtMount (cfg : Config) : Prop :=
  exists rest, trace cfg = Requested ProbeProfiles :: Subscribed :: rest.


Ltac month_cases m :=
  let H := fresh in
  assert (H : m = 1 \/ m = 2 \/ m = 3 \/ m = 4 \/ m = 5 \/ m = 6 \/ m = 7
              \/ m = 8 \/ m = 9 \/ m = 10 \/ m = 11 \/ m = 12) by lia;
  destruct H as [H|[H|[H|[H|[H|[H|[H|[H|[H|[H|[H|H]]]]]]]]]]]; subst m.

Ltac eval_days :=
  repeat match goal with
         | |- context [daysBeforeMonth ?l ?m] =>
             let v := eval vm_compute in (daysBeforeMonth l m) in
             change (daysBeforeMonth l m) with v
         | H : context [daysBeforeMonth ?l ?m] |- _ =>
             let v := eval vm_compute in (daysBeforeMonth l m) in
             change (daysBeforeMonth l m) with v in H
         end.

(** ** Observations on the grouping of invoices *)

(** The invoices of period [k] under the grouping [key]. *)
Definition invoicesOf (key : Invoice.t -> string) (k : string)
    (invoices : list Invoice.t) : list Invoice.t :=
  filter (fun inv => String.eqb (key inv) k) invoices.

Definition billedNames (invoices : list Invoice.t) : list string :=
  map (fun inv => Customer.name (Invoice.billTo inv)) invoices.

(** The report item stored under [k], a fresh one when there is none. *)
Definition itemOf (k : string) (m : StringMap.t Reports.ReportItem)
    : Reports.ReportItem :=
  match StringMap.get k m with
  | Some r => r
  | None => Reports.newItem
  end.

(** ** Observations on formatted numbers *)

(** A number of the years 0 to 9999, padded to four characters, reads
    back as four digits; a number from 1 to 31, padded to two, as two. *)
Definition fourDigitsReadBack (y : Z) : bool :=
  match padStart 4 (String_of_number (Some y)) with
  | String a (String b (String c (String d EmptyString))) =>
      match digits4 a b c d with
      | Some v => v =? y
      | None => false
      end
  | _ => false
  end.

Definition twoDigitsReadBack (n : Z) : bool :=
  match padStart 2 (String_of_number (Some n)) with
  | String a (String b EmptyString) =>
      match digits2 a b with
      | Some v => v =? n
      | None => false
      end
  | _ => false
  end.

Definition yearNumbers : list Z := map Z.of_nat (seq 0 (Z.to_nat 10000)).
Definition dayNumbers : list Z := map Z.of_nat (seq 1 31).

Ltac eval_month_table :=
  repeat match goal with
         | |- context [Z.pos ?p + 1] =>
             let v := eval vm_compute in (Z.pos p + 1) in
             change (Z.pos p + 1) with v
         | |- context [0 + 1] => change (0 + 1) with 1
         | |- context [daysBeforeMonth ?l (Z.pos ?p)] =>
             let v := eval vm_compute in (daysBeforeMonth l (Z.pos p)) in
             change (daysBeforeMonth l (Z.pos p)) with v
         end.


(** Sample data for the report and the counts. *)
Module SampleReport.

(** The daily row of 1 March 2025 for [Sample.invoices]. *)
Definition marchRow : Reports.ReportRow :=
  nth 1 (Reports.dailyReports
           (Reports.computeDailyAndMonthlyReports 0 Sample.invoices))
    {| Reports.date := EmptyString; Reports.item := Reports.newItem;
       Reports.uniqueCustomers := 0 |}.

(** 2025-02-15T17:00:00Z, four weeks before [Sample.midMarch]. *)
Definition midFebruary : Z := 1739638800000.

(** A zone one hour ahead of UTC. *)
Definition utcPlus1 : TimeZone := 3600000.

(** An invoice with the issue date the form gives at [Sample.midMarch]. *)
Definition issuedNow : Invoice.t :=
  Sample.invoice (toISODateString Sample.midMarch) "A" [].

Definition noSets : CustomerStats.Sets :=
  {| CustomerStats.dailyCustomers := StringSet.empty;
     CustomerStats.monthlyCustomers := StringSet.empty;
     CustomerStats.yearlyCustomers := StringSet.empty |}.

End SampleReport.

(** ** InvoiceForm.tsx: the template of a new invoice *)

Inductive Layout : Type := modern | classic.

Module Template.
Record t : Type := {
  id : string;
  name : string;
  isDefault : bool;
  accentColor : string;
  defaultNotes : string;
  layout : Layout
}.
End Template.

Module BusinessProfile.
Record t : Type := {
  name : string;
  email : string;
  address : string;
  logoUrl : option string
}.
End BusinessProfile.

(** [Number.MAX_SAFE_INTEGER]: up to it the integers are exact numbers. *)
Definition MAX_SAFE_INTEGER : Z := 2 ^ 53 - 1.

Definition isDigit (c : ascii) : bool :=
  match digit c with
  | Some _ => true
  | None => false
  end.

(** [s.replace(/[^0-9]/g, '')]. *)
Fixpoint stripNonDigits (s : string) : string :=
  match s with
  | EmptyString => EmptyString
  | String c s' =>
      if isDigit c then String c (stripNonDigits s') else stripNonDigits s'
  end.

(** The value of the leading decimal digits of [s], continuing [acc]. *)
Fixpoint digitsValue (acc : Z) (s : string) : Z :=
  match s with
  | EmptyString => acc
  | String c s' =>
      match digit c with
      | Some d => digitsValue (10 * acc + d) s'
      | None => acc
      end
  end.

(** [parseInt(s, 10)] for a string that starts with neither white space
    nor a sign: the value of its leading digits, NaN when there is none.
    The value is exact up to [MAX_SAFE_INTEGER]. *)
Definition parseInt (s : string) : option Z :=
  match s with
  | EmptyString => None
  | String c _ => if isDigit c then Some (digitsValue 0 s) else None
  end.

(** [Math.max(a, b)] on numbers: NaN if either is. *)
Definition number_max (a b : option Z) : option Z :=
  match a, b with
  | Some x, Some y => Some (Z.max x y)
  | _, _ => None
  end.

(** [Math.max(first, ...rest)]. *)
Definition Math_max (first : option Z) (rest : list (option Z)) : option Z :=
  fold_left number_max rest first.

Definition number_succ (a : option Z) : option Z := option_map (fun x => x + 1) a.

(** *** The time of day, and [toISOString] *)

Definition HourFromTime (t : Z) : Z := (t / 3600000) mod 24.
Definition MinFromTime (t : Z) : Z := (t / 60000) mod 60.
Definition SecFromTime (t : Z) : Z := (t / 1000) mod 60.
Definition msFromTime (t : Z) : Z := t mod 1000.

(** [toISOString()] of a time value of the years 0 to 9999. *)
Definition toISOString (t : Z) : string :=
  (toISODateString t ++ "T"
   ++ padStart 2 (String_of_number (Some (HourFromTime t))) ++ ":"
   ++ padStart 2 (String_of_number (Some (MinFromTime t))) ++ ":"
   ++ padStart 2 (String_of_number (Some (SecFromTime t))) ++ "."
   ++ padStart 3 (String_of_number (Some (msFromTime t))) ++ "Z")%string.

Module InvoiceForm.

(** The numeric part of an invoice number, as the form reads it:
    [numPart ? parseInt(numPart, 10) : 0]. *)
Definition numberPart (invoiceNumber : string) : option Z :=
  let numPart := stripNonDigits invoiceNumber in
  match numPart with
  | EmptyString => Some 0
  | _ => parseInt numPart
  end.

Definition nextInvoiceNumber (invoices : list Invoice.t) : option Z :=
  match invoices with
  | [] => Some 1
  | _ =>
      let invoiceNumbers :=
        map (fun inv => numberPart (Invoice.invoiceNumber inv)) invoices in
      let maxNumber := Math_max (Some 0) invoiceNumbers in
      number_succ maxNumber
  end.

Definition formattedInvoiceNumber (invoices : list Invoice.t) : string :=
  padStart 3 (String_of_number (nextInvoiceNumber invoices)).

Section Form.

(** [DEFAULT_TEMPLATE] of [constants.ts], which the form only reads. *)
Variable DEFAULT_TEMPLATE : Template.t.

Variable templates : list Template.t.
Variable invoices : list Invoice.t.
Variable businessProfile : BusinessProfile.t.
Variable currentUser : User.t.

(** [templates.find(t => t.isDefault) || templates[0] || DEFAULT_TEMPLATE]. *)
Definition defaultTemplate : Template.t :=
  match find Template.isDefault templates with
  | Some t => t
  | None =>
      match templates with
      | t :: _ => t
      | [] => DEFAULT_TEMPLATE
      end
  end.

(** [getNewInvoiceTemplate]; the clock is read three times, for the id,
    the issue date and the creation time. *)
Definition getNewInvoiceTemplate (now issued created : Z) : Invoice.t :=
  {| Invoice.id := "INV-" ++ String_of_number (Some now);
     Invoice.invoiceNumber := "#" ++ formattedInvoiceNumber invoices;
     Invoice.issueDate := toISODateString issued;
     Invoice.billFrom :=
       {| Customer.name := BusinessProfile.name businessProfile;
          Customer.email := Some (BusinessProfile.email businessProfile);
          Customer.address := BusinessProfile.address businessProfile;
          Customer.logoUrl := BusinessProfile.logoUrl businessProfile |};
     Invoice.billTo :=
       {| Customer.name := EmptyString; Customer.email := None;
          Customer.address := EmptyString; Customer.logoUrl := None |};
     Invoice.lineItems := [];
     Invoice.notes := Template.defaultNotes defaultTemplate;
     Invoice.createdAt := toISOString created;
     Invoice.templateId := Template.id defaultTemplate;
     Invoice.createdById := User.id currentUser |}.

End Form.

End InvoiceForm.

(** ** App.tsx: the invoice list and the view on it *)

Inductive View : Type := ListView | FormView | InvoiceView.

(** The state variables of [App] that the invoice handlers touch. *)
Module Workspace.
Record t : Type := {
  invoices : list Invoice.t;
  view : View;
  selectedInvoice : option Invoice.t;
  invoiceToEdit : option Invoice.t;
  printOnLoad : bool
}.
End Workspace.

Definition isSome {A : Type} (x : option A) : bool :=
  match x with
  | Some _ => true
  | None => false
  end.

Definition handleSaveInvoice (invoice : Invoice.t) (st : Workspace.t) : Workspace.t :=
  let isEditing := isSome (Workspace.invoiceToEdit st) in
  {| Workspace.invoices :=
       if isEditing
       then map (fun inv => if String.eqb (Invoice.id inv) (Invoice.id invoice)
                            then invoice else inv) (Workspace.invoices st)
       else Workspace.invoices st ++ [invoice];
     Workspace.view := InvoiceView;
     Workspace.selectedInvoice := Some invoice;
     Workspace.invoiceToEdit := None;
     Workspace.printOnLoad := if isEditing then Workspace.printOnLoad st else true |}.

Definition handleDeleteInvoice (st : Workspace.t) : Workspace.t :=
  match Workspace.selectedInvoice st with
  | None => st
  | Some selected =>
      {| Workspace.invoices :=
           filter (fun inv => negb (String.eqb (Invoice.id inv) (Invoice.id selected)))
             (Workspace.invoices st);
         Workspace.view := ListView;
         Workspace.selectedInvoice := None;
         Workspace.invoiceToEdit := Workspace.invoiceToEdit st;
         Workspace.printOnLoad := Workspace.printOnLoad st |}
  end.

(** The handlers written in the JSX of [renderContent] and of the header. *)
Definition onCreateNew (st : Workspace.t) : Workspace.t :=
  {| Workspace.invoices := Workspace.invoices st; Workspace.view := FormView;
     Workspace.selectedInvoice := Workspace.selectedInvoice st; Workspace.invoiceToEdit := None;
     Workspace.printOnLoad := Workspace.printOnLoad st |}.

Definition onCancel (st : Workspace.t) : Workspace.t :=
  {| Workspace.invoices := Workspace.invoices st; Workspace.view := ListView;
     Workspace.selectedInvoice := Workspace.selectedInvoice st; Workspace.invoiceToEdit := None;
     Workspace.printOnLoad := Workspace.printOnLoad st |}.

Definition onSelectInvoice (inv : Invoice.t) (st : Workspace.t) : Workspace.t :=
  {| Workspace.invoices := Workspace.invoices st; Workspace.view := InvoiceView;
     Workspace.selectedInvoice := Some inv; Workspace.invoiceToEdit := Workspace.invoiceToEdit st;
     Workspace.printOnLoad := Workspace.printOnLoad st |}.

Definition onClose (st : Workspace.t) : Workspace.t :=
  {| Workspace.invoices := Workspace.invoices st; Workspace.view := ListView;
     Workspace.selectedInvoice := None; Workspace.invoiceToEdit := Workspace.invoiceToEdit st;
     Workspace.printOnLoad := Workspace.printOnLoad st |}.

Definition onEdit (st : Workspace.t) : Workspace.t :=
  {| Workspace.invoices := Workspace.invoices st; Workspace.view := FormView;
     Workspace.selectedInvoice := Workspace.selectedInvoice st;
     Workspace.invoiceToEdit := Workspace.selectedInvoice st;
     Workspace.printOnLoad := Workspace.printOnLoad st |}.

Definition onPrintComplete (st : Workspace.t) : Workspace.t :=
  {| Workspace.invoices := Workspace.invoices st; Workspace.view := Workspace.view st;
     Workspace.selectedInvoice := Workspace.selectedInvoice st; Workspace.invoiceToEdit := Workspace.invoiceToEdit st;
     Workspace.printOnLoad := false |}.

Definition invoiceIds (l : list Invoice.t) : list string := map Invoice.id l.

(** ** SettingsModal.tsx: the template editor

    The editor works on the template objects of [App] themselves: its
    arrays hold references, and an object reached from two arrays is one
    object.  [Store.t] is the memory that holds the template objects. *)

Definition Ref : Type := nat.

Module Store.

Record t : Type := {
  cell : Ref -> Template.t;
  next : Ref
}.

Definition get (h : t) (r : Ref) : Template.t := cell h r.

(** A new object. *)
Definition alloc (o : Template.t) (h : t) : Ref * t :=
  (next h,
   {| cell := fun r => if Nat.eqb r (next h) then o else cell h r;
      next := S (next h) |}).

(** Assignment to the fields of an existing object. *)
Definition put (r : Ref) (o : Template.t) (h : t) : t :=
  {| cell := fun x => if Nat.eqb x r then o else cell h x;
     next := next h |}.

(** The array [refs] as the values it holds now. *)
Definition load (h : t) (refs : list Ref) : list Template.t := map (cell h) refs.

End Store.

(** [{...t, [field]: value}]: a field of [Template] and its new value. *)
Inductive TemplateField : Type :=
| FieldId (value : string)
| FieldName (value : string)
| FieldIsDefault (value : bool)
| FieldAccentColor (value : string)
| FieldDefaultNotes (value : string)
| FieldLayout (value : Layout).

Definition withField (f : TemplateField) (t : Template.t) : Template.t :=
  match f with
  | FieldId v =>
      {| Template.id := v; Template.name := Template.name t;
         Template.isDefault := Template.isDefault t;
         Template.accentColor := Template.accentColor t;
         Template.defaultNotes := Template.defaultNotes t;
         Template.layout := Template.layout t |}
  | FieldName v =>
      {| Template.id := Template.id t; Template.name := v;
         Template.isDefault := Template.isDefault t;
         Template.accentColor := Template.accentColor t;
         Template.defaultNotes := Template.defaultNotes t;
         Template.layout := Template.layout t |}
  | FieldIsDefault v =>
      {| Template.id := Template.id t; Template.name := Template.name t;
         Template.isDefault := v;
         Template.accentColor := Template.accentColor t;
         Template.defaultNotes := Template.defaultNotes t;
         Template.layout := Template.layout t |}
  | FieldAccentColor v =>
      {| Template.id := Template.id t; Template.name := Template.name t;
         Template.isDefault := Template.isDefault t;
         Template.accentColor := v;
         Template.defaultNotes := Template.defaultNotes t;
         Template.layout := Template.layout t |}
  | FieldDefaultNotes v =>
      {| Template.id := Template.id t; Template.name := Template.name t;
         Template.isDefault := Template.isDefault t;
         Template.accentColor := Template.accentColor t;
         Template.defaultNotes := v;
         Template.layout := Template.layout t |}
  | FieldLayout v =>
      {| Template.id := Template.id t; Template.name := Template.name t;
         Template.isDefault := Template.isDefault t;
         Template.accentColor := Template.accentColor t;
         Template.defaultNotes := Template.defaultNotes t;
         Template.layout := v |}
  end.

(** [refs.map(t => ...)] where the callback returns either [t] itself
    ([None]) or a new object ([Some]). *)
Fixpoint mapObjects (f : Template.t -> option Template.t) (refs : list Ref)
    (h : Store.t) : list Ref * Store.t :=
  match refs with
  | [] => ([], h)
  | r :: rest =>
      match f (Store.get h r) with
      | Some o =>
          let (r', h1) := Store.alloc o h in
          let (rest', h2) := mapObjects f rest h1 in
          (r' :: rest', h2)
      | None =>
          let (rest', h2) := mapObjects f rest h in
          (r :: rest', h2)
      end
  end.

(** A string or null in a condition: null and the empty string are false. *)
Definition truthy (s : option string) : bool :=
  match s with
  | Some (String _ _) => true
  | _ => false
  end.

(** [t.id === id] for a string or null [id]. *)
Definition hasId (id : option string) (t : Template.t) : bool :=
  match id with
  | Some s => String.eqb (Template.id t) s
  | None => false
  end.

Module SettingsModal.

(** The state of the editor: [localTemplates] and [selectedTemplateId]. *)
Record State : Type := {
  localTemplates : list Ref;
  selectedTemplateId : option string
}.

(** What a handler leaves: the memory and the state, and whether it
    showed an alert; or a [TypeError] thrown on the way. *)
Inductive Outcome : Type :=
| Continue (alerted : bool) (h : Store.t) (st : State)
| TypeError.

(** The initial state, from the [templates] of [App]:
    [templates.find(t => t.isDefault)?.id || templates[0]?.id || null]. *)
Definition mount (h : Store.t) (templates : list Ref) : State :=
  let values := Store.load h templates in
  let first := option_map Template.id (find Template.isDefault values) in
  let second := option_map Template.id (hd_error values) in
  {| localTemplates := templates;
     selectedTemplateId :=
       if truthy first then first
       else if truthy second then second
       else None |}.

Definition selectedTemplate (h : Store.t) (st : State) : option Ref :=
  find (fun r => hasId (selectedTemplateId st) (Store.get h r)) (localTemplates st).

Definition setSelectedTemplateId (id : string) (st : State) : State :=
  {| localTemplates := localTemplates st; selectedTemplateId := Some id |}.

Definition handleTemplateChange (f : TemplateField) (h : Store.t) (st : State)
    : Store.t * State :=
  if negb (truthy (selectedTemplateId st)) then (h, st)
  else
    let (refs, h') :=
      mapObjects (fun t => if hasId (selectedTemplateId st) t
                           then Some (withField f t) else None)
        (localTemplates st) h in
    (h', {| localTemplates := refs; selectedTemplateId := selectedTemplateId st |}).

Definition handleSetDefaultTemplate (h : Store.t) (st : State) : Store.t * State :=
  if negb (truthy (selectedTemplateId st)) then (h, st)
  else
    let (refs, h') :=
      mapObjects (fun t => Some (withField
                                   (FieldIsDefault (hasId (selectedTemplateId st) t)) t))
        (localTemplates st) h in
    (h', {| localTemplates := refs; selectedTemplateId := selectedTemplateId st |}).

(** [newTemplateFactory] at the instant [now]. *)
Definition newTemplateFactory (now : Z) : Template.t :=
  {| Template.id := "template_" ++ String_of_number (Some now);
     Template.name := "New Template";
     Template.isDefault := false;
     Template.accentColor := "#6b7280";
     Template.defaultNotes := "Thank you!";
     Template.layout := modern |}.

Definition handleAddNewTemplate (now : Z) (h : Store.t) (st : State)
    : Store.t * State :=
  let (newTemp, h') := Store.alloc (newTemplateFactory now) h in
  (h', {| localTemplates := localTemplates st ++ [newTemp];
          selectedTemplateId := Some (Template.id (Store.get h' newTemp)) |}).

(** [handleDeleteTemplate]; [confirmed] is the answer to the dialog. *)
Definition handleDeleteTemplate (confirmed : bool) (h : Store.t) (st : State)
    : Outcome :=
  if negb (truthy (selectedTemplateId st))
     || (List.length (localTemplates st) <=? 1)%nat
  then Continue true h st
  else if confirmed then
    let remainingTemplates :=
      filter (fun r => negb (hasId (selectedTemplateId st) (Store.get h r)))
        (localTemplates st) in
    let isDefault :=
      match selectedTemplate h st with
      | Some r => Template.isDefault (Store.get h r)
      | None => false
      end in
    match remainingTemplates with
    | [] => TypeError
    | first :: _ =>
        let h' :=
          if isDefault
          then Store.put first (withField (FieldIsDefault true) (Store.get h first)) h
          else h in
        Continue false h'
          {| localTemplates := remainingTemplates;
             selectedTemplateId := Some (Template.id (Store.get h' first)) |}
    end
  else Continue false h st.

(** The templates that [handleSave] hands to [handleSaveSettings], which
    makes them the [templates] of [App]. *)
Definition handleSave (st : State) : list Ref := localTemplates st.

(** What the user can do in the editor. *)
Inductive Action : Type :=
| Select (id : string)
| ChangeName (value : string)
| ChangeAccentColor (value : string)
| ChangeLayout (value : Layout)
| ChangeDefaultNotes (value : string)
| SetDefault
| AddNew (now : Z)
| Delete (confirmed : bool).

Definition act (a : Action) (h : Store.t) (st : State) : Outcome :=
  match a with
  | Select id => Continue false h (setSelectedTemplateId id st)
  | ChangeName v =>
      let (h', st') := handleTemplateChange (FieldName v) h st in Continue false h' st'
  | ChangeAccentColor v =>
      let (h', st') := handleTemplateChange (FieldAccentColor v) h st in
      Continue false h' st'
  | ChangeLayout v =>
      let (h', st') := handleTemplateChange (FieldLayout v) h st in Continue false h' st'
  | ChangeDefaultNotes v =>
      let (h', st') := handleTemplateChange (FieldDefaultNotes v) h st in
      Continue false h' st'
  | SetDefault =>
      let (h', st') := handleSetDefaultTemplate h st in Continue false h' st'
  | AddNew now =>
      let (h', st') := handleAddNewTemplate now h st in Continue false h' st'
  | Delete confirmed => handleDeleteTemplate confirmed h st
  end.

(** An action the editor offers in state [st].  The editor shows its
    controls only for a selected template; the selector lists the local
    templates; the default button is disabled on the default template; a
    new template gets an id no local template has. *)
Definition offered (a : Action) (h : Store.t) (st : State) : Prop :=
  match selectedTemplate h st with
  | None => False
  | Some r =>
      match a with
      | Select id => In id (map Template.id (Store.load h (localTemplates st)))
      | SetDefault => Template.isDefault (Store.get h r) = false
      | AddNew now =>
          ~ In (Template.id (newTemplateFactory now))
              (map Template.id (Store.load h (localTemplates st)))
      | _ => True
      end
  end.

Fixpoint run (actions : list Action) (h : Store.t) (st : State) : Outcome :=
  match actions with
  | [] => Continue false h st
  | a :: rest =>
      match act a h st with
      | Continue _ h' st' => run rest h' st'
      | TypeError => TypeError
      end
  end.

(** All actions of a run were offered when they were taken. *)
Fixpoint allOffered (actions : list Action) (h : Store.t) (st : State) : Prop :=
  match actions with
  | [] => True
  | a :: rest =>
      offered a h st
      /\ match act a h st with
         | Continue _ h' st' => allOffered rest h' st'
         | TypeError => True
         end
  end.

End SettingsModal.

(** The number of templates marked as default. *)
Definition defaultCount (ts : list Template.t) : nat :=
  List.length (filter Template.isDefault ts).

Definition templateIds (ts : list Template.t) : list string := map Template.id ts.

(** The template array [refs]: distinct ids and exactly one default. *)
Definition wellFormedTemplates (h : Store.t) (refs : list Ref) : Prop :=
  Forall (fun r => (r < Store.next h)%nat) refs
  /\ NoDup (templateIds (Store.load h refs))
  /\ defaultCount (Store.load h refs) = 1%nat.

(** The selection of the editor is one of its templates. *)
Definition selectionValid (h : Store.t) (st : SettingsModal.State) : Prop :=
  exists id, SettingsModal.selectedTemplateId st = Some id
             /\ In id (templateIds (Store.load h (SettingsModal.localTemplates st))).

(** The fields that the inputs of the editor change. *)
Definition plainField (f : TemplateField) : Prop :=
  match f with
  | FieldId _ | FieldIsDefault _ => False
  | _ => True
  end.

(** The runs of the editor that end in [post]. *)
Definition endsWith (post : Store.t -> SettingsModal.State -> Prop)
    (out : SettingsModal.Outcome) : Prop :=
  match out with
  | SettingsModal.Continue _ h st => post h st
  | SettingsModal.TypeError => False
  end.

(** Sample data for the invoice form, the workspace and the editor. *)
Module SampleForm.

Definition classicTemplate : Template.t :=
  {| Template.id := "classic"; Template.name := "Classic";
     Template.isDefault := false; Template.accentColor := "#111827";
     Template.defaultNotes := "Payment due in 30 days."; Template.layout := classic |}.

Definition modernTemplate : Template.t :=
  {| Template.id := "modern"; Template.name := "Modern";
     Template.isDefault := true; Template.accentColor := "#2563eb";
     Template.defaultNotes := "Thank you for your business!";
     Template.layout := modern |}.

(** The two template objects of [App], the second one the default. *)
Definition store : Store.t :=
  {| Store.cell := fun r => nth r [classicTemplate; modernTemplate] classicTemplate;
     Store.next := 2%nat |}.

Definition templates : list Ref := [0; 1]%nat.

Definition business : BusinessProfile.t :=
  {| BusinessProfile.name := "God Favor Business Center";
     BusinessProfile.email := "contact@gfbc.com";
     BusinessProfile.address := "123 Business Rd.";
     BusinessProfile.logoUrl := None |}.

(** A session in the editor: delete the default template, add a new
    one, make it the default and rename it. *)
Definition session : list SettingsModal.Action :=
  [SettingsModal.Delete true; SettingsModal.AddNew 1742058000000;
   SettingsModal.SetDefault; SettingsModal.ChangeName "Receipt"].

(** The list view on the sample invoices, and the same with the second
    invoice open for editing. *)
Definition listing : Workspace.t :=
  {| Workspace.invoices :=
       [Sample.marchFirst;
        Sample.invoice "2025-04-02" "A" [(1 # 1, 1 # 1)%Q]];
     Workspace.view := ListView; Workspace.selectedInvoice := None;
     Workspace.invoiceToEdit := None; Workspace.printOnLoad := false |}.

Definition draft : Invoice.t :=
  {| Invoice.id := "INV-1742058000000"; Invoice.invoiceNumber := "#002";
     Invoice.issueDate := "2025-03-15"; Invoice.billFrom := Sample.customer "God Favor";
     Invoice.billTo := Sample.customer "D"; Invoice.lineItems := [];
     Invoice.notes := "Thank you"; Invoice.createdAt := "2025-03-15T17:00:00.000Z";
     Invoice.templateId := "modern"; Invoice.createdById := "u1" |}.

Definition firstOf (n : string) : Invoice.t :=
  {| Invoice.id := "INV-A"; Invoice.invoiceNumber := "#001";
     Invoice.issueDate := "2025-03-01"; Invoice.billFrom := Sample.customer "God Favor";
     Invoice.billTo := Sample.customer n; Invoice.lineItems := [];
     Invoice.notes := "Thank you"; Invoice.createdAt := "2025-03-01";
     Invoice.templateId := "modern"; Invoice.createdById := "u1" |}.

Definition second : Invoice.t :=
  {| Invoice.id := "INV-B"; Invoice.invoiceNumber := "#002";
     Invoice.issueDate := "2025-03-02"; Invoice.billFrom := Sample.customer "God Favor";
     Invoice.billTo := Sample.customer "B"; Invoice.lineItems := [];
     Invoice.notes := "Thank you"; Invoice.createdAt := "2025-03-02";
     Invoice.templateId := "modern"; Invoice.createdById := "u1" |}.

Definition editing : Workspace.t :=
  {| Workspace.invoices := [firstOf "A"; second];
     Workspace.view := FormView; Workspace.selectedInvoice := Some (firstOf "A");
     Workspace.invoiceToEdit := Some (firstOf "A"); Workspace.printOnLoad := false |}.

End SampleForm.

(** ** Invariants of the splash screen and of the requests *)

(** Code that never writes [isAuthLoading]. *)
Fixpoint neverSetsLoading (p : Ctl unit) : Prop :=
  match p with
  | Ret _ => True
  | Await c k => forall r, neverSetsLoading (k r)
  | AwaitProfile u k => forall r, neverSetsLoading (k r)
  | Do upd k => (forall b, upd <> SetIsAuthLoading b) /\ neverSetsLoading k
  end.

(** Code whose only write of [isAuthLoading] is [false], as its last
    step on every path. *)
Fixpoint clearsLoadingAtEnd (p : Ctl unit) : Prop :=
  match p with
  | Ret _ => False
  | Await c k => forall r, clearsLoadingAtEnd (k r)
  | AwaitProfile u k => forall r, clearsLoadingAtEnd (k r)
  | Do upd k =>
      match upd with
      | SetIsAuthLoading b => b = false /\ exists a, k = Ret a
      | _ => clearsLoadingAtEnd k
      end
  end.

Definition loadingTask (st : AppState) (t : Task) : Prop :=
  match t with
  | Waiting c k => isAuthLoading st = true /\ forall r, clearsLoadingAtEnd (k r)
  | WaitingInProfile c k ret =>
      isAuthLoading st = true /\ forall r, clearsLoadingAtEnd (ret r)
  | Finished => isAuthLoading st = false
  end.

Definition quietTask (t : Task) : Prop :=
  match t with
  | Waiting c k => forall r, neverSetsLoading (k r)
  | WaitingInProfile c k ret => forall r, neverSetsLoading (ret r)
  | Finished => True
  end.

Definition splashInvariant (cfg : Config) : Prop :=
  match tasks cfg with
  | [] => False
  | t0 :: rest => loadingTask (app cfg) t0 /\ Forall quietTask rest
  end
  /\ (forall cb, listener cfg = Some cb -> forall s, neverSetsLoading (cb s)).

(** The requests of a kind [f]: code that makes none inside
    [getOrCreateUserProfile], and at most [n] of its own. *)
Fixpoint procNever {A : Type} (f : Remote -> bool) (q : Proc A) : Prop :=
  match q with
  | PRet _ => True
  | PAwait c k => f c = false /\ forall r, procNever f (k r)
  end.

Fixpoint requestsAtMost (f : Remote -> bool) (n : nat) (p : Ctl unit) : Prop :=
  match p with
  | Ret _ => True
  | Await c k =>
      if f c
      then match n with
           | O => False
           | S n' => forall r, requestsAtMost f n' (k r)
           end
      else forall r, requestsAtMost f n (k r)
  | AwaitProfile u k =>
      procNever f (getOrCreateUserProfile u) /\ forall r, requestsAtMost f n (k r)
  | Do _ k => requestsAtMost f n k
  end.

Definition taskAtMost (f : Remote -> bool) (n : nat) (t : Task) : Prop :=
  match t with
  | Waiting c k => forall r, requestsAtMost f n (k r)
  | WaitingInProfile c k ret =>
      (forall r, procNever f (k r)) /\ forall r, requestsAtMost f n (ret r)
  | Finished => True
  end.

Definition isRequestOf (f : Remote -> bool) (e : Event) : bool :=
  match e with
  | Requested c => f c
  | _ => false
  end.

(** The requests of kind [f] made so far and those the first task can
    still make are at most [total]; no other task makes any. *)
Definition requestBudget (f : Remote -> bool) (total : nat) (cfg : Config) : Prop :=
  match tasks cfg with
  | [] => False
  | t0 :: rest =>
      (exists n, taskAtMost f n t0
                 /\ (countEvents (isRequestOf f) (trace cfg) + n <= total)%nat)
      /\ Forall (taskAtMost f 0) rest
  end
  /\ (forall cb, listener cfg = Some cb -> forall s, requestsAtMost f 0 (cb s)).

Definition isProbe (c : Remote) : bool :=
  match c with
  | ProbeProfiles => true
  | _ => false
  end.

Definition isGetSession (c : Remote) : bool :=
  match c with
  | GetSession => true
  | _ => false
  end.

Definition isSignOut (c : Remote) : bool :=
  match c with
  | SignOut => true
  | _ => false
  end.

(** ** What the component does only after a cause *)

Section Causes.

Variables cause effect : Event -> bool.

(** Every effect in [tr] comes after a cause; [seen] tells whether a
    cause came before [tr]. *)
Fixpoint follows (seen : bool) (tr : list Event) : bool :=
  match tr with
  | [] => true
  | e :: tr' => implb (effect e) seen && follows (seen || cause e) tr'
  end.

(** Code that produces an effect only when it has seen a cause. *)
Fixpoint onlyAfter (seen : bool) (p : Ctl unit) : Prop :=
  match p with
  | Ret _ => True
  | Await c k =>
      implb (effect (Requested c)) seen = true
      /\ forall r, onlyAfter (seen || cause (Replied c (toResponse c r))) (k r)
  | AwaitProfile u k =>
      procNever (fun c => effect (Requested c)) (getOrCreateUserProfile u)
      /\ forall r, onlyAfter (seen || cause (Resolved r)) (k r)
  | Do upd k => implb (effect (StateSet upd)) seen = true /\ onlyAfter seen k
  end.

Definition taskOnlyAfter (seen : bool) (t : Task) : Prop :=
  match t with
  | Waiting c k =>
      forall r, onlyAfter (seen || cause (Replied c (toResponse c r))) (k r)
  | WaitingInProfile c k ret =>
      (forall r, procNever (fun c => effect (Requested c)) (k r))
      /\ forall r, onlyAfter (seen || cause (Resolved r)) (ret r)
  | Finished => True
  end.

Definition causal (cfg : Config) : Prop :=
  follows false (trace cfg) = true
  /\ Forall (taskOnlyAfter (existsb cause (trace cfg))) (tasks cfg)
  /\ (forall cb, listener cfg = Some cb -> forall s, onlyAfter false (cb s)).

End Causes.

(** The effects are steps of the component itself. *)
Definition ownStep (e : Event) : bool :=
  match e with
  | Requested _ | StateSet _ => true
  | _ => false
  end.

Definition isFailedResolution (e : Event) : bool :=
  match e with
  | Resolved None => true
  | _ => false
  end.

Definition isSignOutOrAdvisory (e : Event) : bool :=
  match e with
  | Requested SignOut => true
  | StateSet (SetLoginMessage (Some _)) => true
  | _ => false
  end.

Definition isMissingRelationReply (e : Event) : bool :=
  match e with
  | Replied ProbeProfiles (ProbeResponse err) => isMissingRelation err
  | _ => false
  end.

Definition isSetupUpdate (e : Event) : bool :=
  match e with
  | StateSet (SetNeedsDbSetup _) => true
  | _ => false
  end.

(** [x = true -> y = true] for disjunctions [x] and [y] of booleans. *)
Ltac orb_incl :=
  let H := fresh in
  let E := fresh in
  intros H;
  match type of H with
  | ?x = true =>
      match goal with
      | |- ?y = true =>
          assert (E : orb x y = y) by btauto;
          rewrite <- E, H; reflexivity
      end
  end.

(** Sample runs of the mounted component. *)
Module SampleRun.

(** The probe and the session arrive; the read of Ann's profile times
    out. *)
Definition failureInputs : list Input :=
  [Deliver 0 (ProbeResponse None);
   Deliver 0 (SessionResponse (Some Sample.annSession));
   Deliver 0 (RowResponse (Backend.failed Sample.timeout))].

End SampleRun.

(** A second account, and a run in which it takes over: Ann is logged
    in, then the provider reports Bob's session. *)
Module SampleSwitch.

Definition bob : SupabaseUser.t :=
  {| SupabaseUser.id := "u7"; SupabaseUser.email := Some "bob@example.com"%string |}.

Definition bobSession : Session.t :=
  {| Session.access_token := "tok-7"; Session.user := bob |}.

Definition bobRow : User.t :=
  {| User.id := "u7"; User.name := "Bob"; User.email := "bob@example.com";
     User.role := staff |}.

Definition switchInputs : list Input :=
  Sample.loginInputs ++ [Notify (Some bobSession)].

(** Bob's session is reported while [initializeApp] still waits for the
    probe; Ann's start-up completes; then Bob's profile arrives. *)
Definition crossedInputs : list Input :=
  [Notify (Some bobSession);
   Deliver 0 (ProbeResponse None);
   Deliver 0 (SessionResponse (Some Sample.annSession));
   Deliver 0 (RowResponse (Backend.found Sample.annRow));
   Deliver 1 (RowResponse (Backend.found bobRow))].

End SampleSwitch.

(** * Properties *)

(** ** getOrCreateUserProfile and the bootstrap, run to completion *)

Section RunFacts.

Context {W : Type}.
Variable respond : W -> forall c : Remote, Reply c * W.

Lemma runProc_getOrCreateUserProfile (u : SupabaseUser.t) (w : W) :
  runProc respond (getOrCreateUserProfile u) w =
  let (res, w1) := respond w (SelectProfile (SupabaseUser.id u)) in
  let sel := [Requested (SelectProfile (SupabaseUser.id u));
              Replied (SelectProfile (SupabaseUser.id u)) (RowResponse res)] in
  match data res with
  | Some p => (Some p, w1, sel)
  | None =>
      if isRealError (error res) then (None, w1, sel)
      else
        let (ins, w2) := respond w1 (InsertProfile (fallbackProfile u)) in
        (match error ins with Some _ => None | None => data ins end, w2,
         sel ++ [Requested (InsertProfile (fallbackProfile u));
                 Replied (InsertProfile (fallbackProfile u)) (RowResponse ins)])
  end.
Proof.
  unfold getOrCreateUserProfile; cbn [runProc].
  destruct (respond w (SelectProfile (SupabaseUser.id u))) as [res w1]; cbn.
  destruct (data res) as [p|]; [reflexivity|].
  destruct (isRealError (error res)); [reflexivity|].
  cbn [runProc].
  destruct (respond w1 (InsertProfile (fallbackProfile u))) as [ins w2]; cbn.
  destruct (error ins); reflexivity.
Qed.

(** Inside [getOrCreateUserProfile] nothing but profile reads and inserts
    is requested. *)
Lemma runProc_getOrCreateUserProfile_events (u : SupabaseUser.t) (w : W) :
  forall e, In e (snd (runProc respond (getOrCreateUserProfile u) w)) ->
    isSignOutRequest e = false /\ isSessionRequest e = false
    /\ isLoginMessageUpdate e = false /\ isResolveCall e = false
    /\ (forall r, e <> Resolved r).
Proof.
  rewrite runProc_getOrCreateUserProfile.
  destruct (respond w (SelectProfile (SupabaseUser.id u))) as [res w1].
  destruct (data res) as [p|].
  - cbn; intros e [<-|[<-|[]]]; repeat split; discriminate.
  - destruct (isRealError (error res)).
    + cbn; intros e [<-|[<-|[]]]; repeat split; discriminate.
    + destruct (respond w1 (InsertProfile (fallbackProfile u))) as [ins w2].
      cbn; intros e [<-|[<-|[<-|[<-|[]]]]]; repeat split; discriminate.
Qed.

End RunFacts.

(** C4. When the schema probe fails with an undefined-table error (code
    42P01, or a message containing 'does not exist'), [initializeApp]
    sets [needsDbSetup], clears [isAuthLoading] and returns: the setup
    screen is rendered, the session is never fetched, no profile is
    resolved and no other state is written, against any backend. *)
Theorem initializeApp_missing_schema_stops :
  forall (W : Type) (respond : W -> forall c : Remote, Reply c * W)
         (w : W) (st : AppState) (e : PgError.t),
    fst (respond w ProbeProfiles) = Some e ->
    PgError.code e = "42P01"%string \/ includes "does not exist" (PgError.message e) = true ->
    let out := run respond initializeApp st w in
    traceOf out =
      [Requested ProbeProfiles; Replied ProbeProfiles (ProbeResponse (Some e));
       StateSet (SetNeedsDbSetup true); StateSet (SetIsAuthLoading false)]
    /\ finalState out =
         applyUpdate (SetIsAuthLoading false) (applyUpdate (SetNeedsDbSetup true) st)
    /\ finalWorld out = snd (respond w ProbeProfiles)
    /\ render false (finalState out) = DatabaseSetup
    /\ countEvents isSessionRequest (traceOf out) = 0%nat
    /\ countEvents isResolveCall (traceOf out) = 0%nat.
Proof.
  intros W respond w st e Hprobe Hclass.
  assert (Hmiss : isMissingRelation (Some e) = true).
  { cbn. destruct Hclass as [-> | ->]; [reflexivity | apply orb_true_r]. }
  cbn -[isMissingRelation includes].
  destruct (respond w ProbeProfiles) as [r w1]; cbn [fst snd] in *; subst r.
  rewrite Hmiss. cbn -[includes]. repeat split; reflexivity.
Qed.

Lemma initializeApp_missing_schema_stops_witness :
  let out := run Backend.respond initializeApp initialState Sample.noSchema in
  render false (finalState out) = DatabaseSetup
  /\ countEvents isSessionRequest (traceOf out) = 0%nat.
Proof.
  pose proof (initializeApp_missing_schema_stops Backend.World Backend.respond
                Sample.noSchema initialState Sample.undefinedTable
                eq_refl (or_introl eq_refl)) as H.
  cbv zeta in H. destruct H as (_ & _ & _ & Hr & Hs & _).
  split; [exact Hr | exact Hs].
Defined.


Section RunInitializeApp.

Context {W : Type}.
Variable respond : W -> forall c : Remote, Reply c * W.

(** The run of [initializeApp], case by case. *)
Lemma run_initializeApp (st : AppState) (w : W) :
  run respond initializeApp st w =
  let (e, w1) := respond w ProbeProfiles in
  let probe := [Requested ProbeProfiles; Replied ProbeProfiles (ProbeResponse e)] in
  if isMissingRelation e then
    (tt, applyUpdate (SetIsAuthLoading false) (applyUpdate (SetNeedsDbSetup true) st),
     w1, probe ++ [StateSet (SetNeedsDbSetup true); StateSet (SetIsAuthLoading false)])
  else
    let (sess, w2) := respond w1 GetSession in
    let fetch := probe ++ [Requested GetSession;
                           Replied GetSession (SessionResponse sess)] in
    match sess with
    | None =>
        (tt, applyUpdate (SetIsAuthLoading false)
               (applyUpdate (SetCurrentUser None) (applyUpdate (SetSession None) st)),
         w2, fetch ++ [StateSet (SetSession None); StateSet (SetCurrentUser None);
                       StateSet (SetIsAuthLoading false)])
    | Some s =>
        let '(r, w3, tr) := runProc respond (getOrCreateUserProfile (Session.user s)) w2 in
        match r with
        | Some p =>
            (tt, applyUpdate (SetIsAuthLoading false)
                   (applyUpdate (SetCurrentUser (Some p))
                      (applyUpdate (SetSession (Some s)) st)),
             w3, fetch ++ ResolveCalled (Session.user s) :: tr
                  ++ [Resolved (Some p); StateSet (SetSession (Some s));
                      StateSet (SetCurrentUser (Some p));
                      StateSet (SetIsAuthLoading false)])
        | None =>
            (tt, applyUpdate (SetIsAuthLoading false)
                   (applyUpdate (SetCurrentUser None)
                      (applyUpdate (SetSession None)
                         (applyUpdate (SetLoginMessage (Some profileFailureMessage)) st))),
             snd (respond w3 SignOut),
             fetch ++ ResolveCalled (Session.user s) :: tr
               ++ [Resolved None;
                   StateSet (SetLoginMessage (Some profileFailureMessage));
                   Requested SignOut; Replied SignOut SignOutResponse;
                   StateSet (SetSession None); StateSet (SetCurrentUser None);
                   StateSet (SetIsAuthLoading false)])
        end
    end.
Proof.
  unfold initializeApp, await, set. cbn [bind run].
  destruct (respond w ProbeProfiles) as [e w1].
  destruct (isMissingRelation e).
  - reflexivity.
  - cbn [bind run].
    destruct (respond w1 GetSession) as [[s|] w2].
    + cbn [bind run].
      destruct (runProc respond (getOrCreateUserProfile (Session.user s)) w2) as [[r w3] tr].
      destruct r as [p|].
      * reflexivity.
      * cbn [bind run]. destruct (respond w3 SignOut) as [[] w4]. reflexivity.
    + reflexivity.
Qed.

Lemma run_onAuthStateChange (sess : option Session.t) (st : AppState) (w : W) :
  run respond (onAuthStateChange sess) st w =
  match sess with
  | Some s =>
      let '(r, w1, tr) := runProc respond (getOrCreateUserProfile (Session.user s)) w in
      (tt, applyUpdate (SetCurrentUser r) (applyUpdate (SetSession sess) st), w1,
       StateSet (SetSession sess) :: ResolveCalled (Session.user s) :: tr
         ++ [Resolved r; StateSet (SetCurrentUser r)])
  | None =>
      (tt, applyUpdate (SetCurrentUser None) (applyUpdate (SetSession None) st), w,
       [StateSet (SetSession None); StateSet (SetCurrentUser None)])
  end.
Proof.
  unfold onAuthStateChange, set. cbn [bind run].
  destruct sess as [s|].
  - cbn [bind run].
    destruct (runProc respond (getOrCreateUserProfile (Session.user s)) w) as [[r w1] tr].
    reflexivity.
  - reflexivity.
Qed.

End RunInitializeApp.



(** C10. An auth notification with a session whose profile cannot be
    resolved: the listener stores the session, sets [currentUser] to null
    (so the login page is rendered once loading is over), and, unlike the
    start-up path, neither requests [signOut] nor touches [loginMessage]. *)
Theorem onAuthStateChange_failure_is_silent :
  forall (W : Type) (respond : W -> forall c : Remote, Reply c * W)
         (w : W) (st : AppState) (s : Session.t),
    let out := run respond (onAuthStateChange (Some s)) st w in
    In (Resolved None) (traceOf out) ->
    currentUser (finalState out) = None
    /\ session (finalState out) = Some s
    /\ loginMessage (finalState out) = loginMessage st
    /\ countEvents isSignOutRequest (traceOf out) = 0%nat
    /\ countEvents isLoginMessageUpdate (traceOf out) = 0%nat
    /\ (isAuthLoading st = false -> needsDbSetup st = false ->
        render false (finalState out) = LoginPage (loginMessage st)).
Proof.
  intros W respond w st s out Hnone. subst out. revert Hnone.
  rewrite run_onAuthStateChange.
  pose proof (runProc_getOrCreateUserProfile_events respond (Session.user s) w) as Hev.
  destruct (runProc respond (getOrCreateUserProfile (Session.user s)) w) as [[r w1] tr].
  cbn [snd] in Hev. unfold traceOf, finalState. cbn [fst snd].
  intros Hnone.
  assert (r = None) as ->.
  { destruct Hnone as [H|[H|H]]; try discriminate H.
    apply in_app_or in H. destruct H as [H|H].
    - destruct (Hev _ H) as (_ & _ & _ & _ & Hn). exfalso. exact (Hn None eq_refl).
    - destruct H as [H|[H|[]]]; [injection H as <-; reflexivity | discriminate H]. }
  assert (Hcount : forall f, (forall e, In e tr -> f e = false) ->
                             filter f tr = []).
  { intros f Hf. clear - Hf. induction tr as [|e tr IH]; [reflexivity|].
    cbn. rewrite (Hf e) by (left; reflexivity).
    apply IH. intros e' He'. apply Hf. right. exact He'. }
  unfold countEvents. cbn [filter isSignOutRequest isLoginMessageUpdate].
  rewrite !filter_app.
  rewrite (Hcount isSignOutRequest) by (intros e He; apply (Hev e He)).
  rewrite (Hcount isLoginMessageUpdate) by (intros e He; apply (Hev e He)).
  cbn. repeat split; try reflexivity.
  intros Hl Hn. unfold render. cbn. rewrite Hl, Hn. reflexivity.
Qed.

Lemma onAuthStateChange_failure_is_silent_witness :
  let out := run Backend.respond (onAuthStateChange (Some Sample.annSession))
               (applyUpdate (SetIsAuthLoading false) initialState)
               {| Backend.profiles := []; Backend.stored := Some Sample.annSession;
                  Backend.faults := [None; Some Sample.timeout] |} in
  currentUser (finalState out) = None
  /\ countEvents isSignOutRequest (traceOf out) = 0%nat
  /\ render false (finalState out) = LoginPage None.
Proof.
  pose proof (onAuthStateChange_failure_is_silent Backend.World Backend.respond
                {| Backend.profiles := []; Backend.stored := Some Sample.annSession;
                   Backend.faults := [None; Some Sample.timeout] |}
                (applyUpdate (SetIsAuthLoading false) initialState)
                Sample.annSession) as H.
  cbv zeta in H.
  destruct H as (Hc & _ & _ & Hs & _ & Hr).
  - vm_compute. do 6 right. left. reflexivity.
  - split; [exact Hc | split; [exact Hs | exact (Hr eq_refl eq_refl)]].
Defined.

(** A read that the store answers with the one row of the subject. *)
Lemma getOrCreateUserProfile_found (w : Backend.World) (u : SupabaseUser.t) (row : User.t) :
  Backend.rowsOf (SupabaseUser.id u) w = [row] ->
  Backend.nextFault w = None ->
  runProc Backend.respond (getOrCreateUserProfile u) w =
  (Some row, Backend.consume w,
   [Requested (SelectProfile (SupabaseUser.id u));
    Replied (SelectProfile (SupabaseUser.id u)) (RowResponse (Backend.found row))]).
Proof.
  intros Hrow Hfault.
  rewrite runProc_getOrCreateUserProfile.
  unfold Backend.respond. rewrite Hfault.
  unfold Backend.selectSingle.
  change (Backend.rowsOf (SupabaseUser.id u) (Backend.consume w))
    with (Backend.rowsOf (SupabaseUser.id u) w).
  rewrite Hrow. reflexivity.
Qed.

(** C7. For a subject whose profile row is in the table, two calls of
    [getOrCreateUserProfile] in succession, both reads answered by the
    store, return that same row, request no insert and leave the table
    as it was. *)
Theorem getOrCreateUserProfile_idempotent :
  forall (w : Backend.World) (u : SupabaseUser.t) (row : User.t),
    Backend.rowsOf (SupabaseUser.id u) w = [row] ->
    Backend.nextFault w = None ->
    Backend.nextFault (Backend.consume w) = None ->
    let first := runProc Backend.respond (getOrCreateUserProfile u) w in
    let second :=
      runProc Backend.respond (getOrCreateUserProfile u) (snd (fst first)) in
    fst (fst first) = Some row
    /\ fst (fst second) = Some row
    /\ countEvents isInsertRequest (snd first) = 0%nat
    /\ countEvents isInsertRequest (snd second) = 0%nat
    /\ Backend.profiles (snd (fst second)) = Backend.profiles w.
Proof.
  intros w u row Hrow Hf1 Hf2 first second. subst first second.
  rewrite (getOrCreateUserProfile_found w u row Hrow Hf1). cbn [fst snd].
  rewrite (getOrCreateUserProfile_found (Backend.consume w) u row Hrow Hf2).
  repeat split; reflexivity.
Qed.

Lemma getOrCreateUserProfile_idempotent_witness :
  let first := runProc Backend.respond (getOrCreateUserProfile Sample.ann)
                 Sample.withAnn in
  let second := runProc Backend.respond (getOrCreateUserProfile Sample.ann)
                  (snd (fst first)) in
  fst (fst first) = Some Sample.annRow /\ fst (fst second) = Some Sample.annRow
  /\ countEvents isInsertRequest (snd second) = 0%nat.
Proof.
  pose proof (getOrCreateUserProfile_idempotent Sample.withAnn Sample.ann
                Sample.annRow eq_refl eq_refl eq_refl) as H.
  cbv zeta in H. destruct H as (H1 & H2 & _ & H4 & _).
  split; [exact H1 | split; [exact H2 | exact H4]].
Defined.

(** [beforeAt] is the part of a string before its first ['@'], the whole
    string when there is none. *)
Lemma beforeAt_spec (s : string) :
  (exists rest, s = (beforeAt s ++ String "@"%char rest)%string)
  \/ beforeAt s = s.
Proof.
  induction s as [|c s IH]; [right; reflexivity|].
  cbn. destruct (Ascii.eqb_spec c "@"%char) as [->|Hc].
  - left. exists s. reflexivity.
  - destruct IH as [[rest IH]|IH].
    + left. exists rest. cbn. rewrite <- IH. reflexivity.
    + right. rewrite IH. reflexivity.
Qed.

(** C6, as stated, fails for an email that is present but starts with
    ['@']: the read finds no row, the row created has the default name
    although the local part of the email is the empty string. *)
Lemma fallback_name_for_empty_local_part :
  let out := runProc Backend.respond (getOrCreateUserProfile Sample.noLocalPart)
               Sample.fresh in
  noMatchingRow (fst (Backend.respond Sample.fresh
                        (SelectProfile (SupabaseUser.id Sample.noLocalPart))))
  /\ SupabaseUser.email Sample.noLocalPart = Some "@example.com"%string
  /\ beforeAt "@example.com" = EmptyString
  /\ exists row, fst (fst out) = Some row
       /\ User.name row = "New User"%string
       /\ User.name row <> beforeAt "@example.com".
Proof.
  cbv zeta. split.
  { split; [reflexivity|]. eexists; split; reflexivity. }
  split; [reflexivity|]. split; [reflexivity|].
  eexists. split; [vm_compute; reflexivity|].
  split; [reflexivity|]. cbn. discriminate.
Qed.

(** C6, amended. When the profile read fails with the no-matching-row
    error, [getOrCreateUserProfile] requests exactly one insert, of a row
    with role staff whose name is the local part of the email, or
    'New User' when the email is absent or its local part is empty; a row
    it returns is that row, so never one with role admin. *)
Theorem getOrCreateUserProfile_fallback_row :
  forall (w : Backend.World) (u : SupabaseUser.t),
    noMatchingRow (fst (Backend.respond w (SelectProfile (SupabaseUser.id u)))) ->
    let out := runProc Backend.respond (getOrCreateUserProfile u) w in
    let inserted := fallbackProfile u in
    insertedRows (snd out) = [inserted]
    /\ countEvents isInsertRequest (snd out) = 1%nat
    /\ NewProfile.role inserted = staff
    /\ (SupabaseUser.email u = None -> NewProfile.name inserted = "New User"%string)
    /\ (forall e, SupabaseUser.email u = Some e -> beforeAt e = EmptyString ->
                  NewProfile.name inserted = "New User"%string)
    /\ (forall e, SupabaseUser.email u = Some e -> beforeAt e <> EmptyString ->
                  NewProfile.name inserted = beforeAt e)
    /\ (forall row, fst (fst out) = Some row ->
          User.id row = SupabaseUser.id u
          /\ User.name row = NewProfile.name inserted
          /\ SupabaseUser.email u = Some (User.email row)
          /\ User.role row = staff
          /\ User.role row <> admin).
Proof.
  intros w u [Hd (err & Herr & Hcode)] out inserted. subst out inserted.
  rewrite runProc_getOrCreateUserProfile.
  destruct (Backend.respond w (SelectProfile (SupabaseUser.id u))) as [res w1].
  cbn [fst] in Hd, Herr. rewrite Hd.
  unfold isRealError. rewrite Herr, Hcode.
  replace (negb ("PGRST116" =? "PGRST116")%string) with false by reflexivity.
  destruct (Backend.respond w1 (InsertProfile (fallbackProfile u)))
    as [ins w2] eqn:Hins.
  cbn [fst snd app insertedRows countEvents filter isInsertRequest List.length].
  split; [reflexivity|]. split; [reflexivity|]. split; [reflexivity|].
  split; [|split; [|split]].
  - intros He. cbn. unfold fallbackName. rewrite He. reflexivity.
  - intros e He Hempty. cbn. unfold fallbackName. rewrite He, Hempty. reflexivity.
  - intros e He Hne. cbn. unfold fallbackName. rewrite He.
    destruct (String.eqb_spec (beforeAt e) EmptyString);
      [contradiction | reflexivity].
  - intros row Hrow.
    unfold Backend.respond in Hins.
    destruct (Backend.nextFault w1) as [f|].
    + injection Hins as <- _. cbn in Hrow. discriminate.
    + unfold Backend.insertRow in Hins.
      destruct (Backend.rowsOf (NewProfile.id (fallbackProfile u)) (Backend.consume w1)).
      * destruct (NewProfile.email (fallbackProfile u)) as [e|] eqn:He.
        -- injection Hins as <- _. cbn in Hrow. injection Hrow as <-.
           cbn in He |- *. repeat split; try (exact He); discriminate.
        -- injection Hins as <- _. cbn in Hrow. discriminate.
      * injection Hins as <- _. cbn in Hrow. discriminate.
Qed.

Lemma getOrCreateUserProfile_fallback_row_witness :
  let out := runProc Backend.respond (getOrCreateUserProfile Sample.ann)
               Sample.fresh in
  insertedRows (snd out) = [fallbackProfile Sample.ann]
  /\ exists row, fst (fst out) = Some row
       /\ User.name row = "ann"%string /\ User.role row = staff.
Proof.
  assert (Hnone : noMatchingRow (fst (Backend.respond Sample.fresh
                                        (SelectProfile (SupabaseUser.id Sample.ann))))).
  { split; [reflexivity|]. eexists; split; reflexivity. }
  pose proof (getOrCreateUserProfile_fallback_row Sample.fresh Sample.ann Hnone)
    as H.
  cbv zeta in H. destruct H as (H1 & _ & _ & _ & _ & _ & Hrow).
  split; [exact H1|].
  eexists. split; [vm_compute; reflexivity|].
  destruct (Hrow _ eq_refl) as (_ & Hn & _ & Hr & _).
  split; [exact Hn | exact Hr].
Defined.

(** ** The component under the event loop *)

Lemma steps_Reachable (inputs : list Input) :
  forall cfg cfg', Reachable cfg -> steps cfg inputs = Some cfg' -> Reachable cfg'.
Proof.
  induction inputs as [|i rest IH]; intros cfg cfg' Hr Hs; cbn in Hs.
  - injection Hs as <-. exact Hr.
  - destruct (step cfg i) as [c|] eqn:Hstep; [|discriminate].
    apply (IH c cfg'); [|exact Hs]. exact (reach_step cfg i c Hr Hstep).
Qed.

(** Every step appends to the trace. *)
Lemma step_trace_extends (cfg cfg' : Config) (i : Input) :
  step cfg i = Some cfg' -> exists tr, trace cfg' = trace cfg ++ tr.
Proof.
  destruct i as [n r|s]; cbn.
  - destruct (nth_error (tasks cfg) n) as [t|]; [|discriminate].
    destruct (resume t r (app cfg)) as [[[st tr] t']|]; [|discriminate].
    intros H; injection H as <-. eexists; reflexivity.
  - destruct (listener cfg) as [cb|]; [|discriminate].
    destruct (advance (cb s) (app cfg)) as [[st tr] t].
    intros H; injection H as <-. eexists; reflexivity.
Qed.

Lemma Reachable_subscribedAtMount (cfg : Config) :
  Reachable cfg -> subscribedAtMount cfg.
Proof.
  induction 1 as [|cfg i cfg' _ [rest IH] Hstep].
  - exists []. reflexivity.
  - destruct (step_trace_extends _ _ _ Hstep) as [tr Htr].
    exists (rest ++ tr). rewrite Htr, IH. reflexivity.
Qed.

(** Inside [initializeApp] the order holds: the session is requested only
    after the probe has resolved. *)
Lemma initializeApp_probe_before_session
    (W : Type) (respond : W -> forall c : Remote, Reply c * W)
    (st : AppState) (w : W) (pre post : list Event) :
  traceOf (run respond initializeApp st w) = pre ++ Requested GetSession :: post ->
  exists e, In (Replied ProbeProfiles (ProbeResponse e)) pre.
Proof.
  rewrite run_initializeApp.
  destruct (respond w ProbeProfiles) as [e w1].
  assert (Hstart : forall rest,
            Requested ProbeProfiles :: Replied ProbeProfiles (ProbeResponse e) :: rest
            = pre ++ Requested GetSession :: post ->
            exists e', In (Replied ProbeProfiles (ProbeResponse e')) pre).
  { intros rest H. destruct pre as [|a [|b pre]]; cbn in H.
    - discriminate H.
    - injection H as _ H. discriminate H.
    - injection H as _ <- _. exists e. right. left. reflexivity. }
  destruct (isMissingRelation e); [exact (Hstart _)|].
  destruct (respond w1 GetSession) as [[s|] w2]; [|exact (Hstart _)].
  destruct (runProc respond (getOrCreateUserProfile (Session.user s)) w2) as [[r w3] tr].
  destruct r; exact (Hstart _).
Qed.

(** C1 fails on the code: the effect calls [initializeApp] without
    awaiting it and installs the auth listener in the same turn, so in
    every run the subscription comes before the schema probe resolves and
    before the session is fetched. *)
Theorem subscription_precedes_probe_resolution :
  forall cfg, Reachable cfg ->
    forall pre e post, trace cfg = pre ++ e :: post ->
      (exists r, e = Replied ProbeProfiles r)
      \/ e = Requested GetSession
      \/ (exists r, e = Replied GetSession r) ->
      In Subscribed pre.
Proof.
  intros cfg Hr pre e post Htr He.
  destruct (Reachable_subscribedAtMount cfg Hr) as [rest Hm].
  rewrite Hm in Htr.
  destruct pre as [|a [|b pre]].
  - cbn in Htr. injection Htr as <- _.
    destruct He as [[r He]|[He|[r He]]]; discriminate He.
  - cbn in Htr. injection Htr as _ <- _.
    destruct He as [[r He]|[He|[r He]]]; discriminate He.
  - cbn in Htr. injection Htr as _ <- _. right. left. reflexivity.
Qed.

Lemma subscription_precedes_probe_resolution_witness :
  trace (Sample.after Sample.probeInputs) =
    [Requested ProbeProfiles; Subscribed]
      ++ Replied ProbeProfiles (ProbeResponse None) :: [Requested GetSession]
  /\ In Subscribed [Requested ProbeProfiles; Subscribed].
Proof.
  split; [reflexivity|].
  apply (subscription_precedes_probe_resolution (Sample.after Sample.probeInputs)
           (steps_Reachable Sample.probeInputs mount _ reach_mount eq_refl)
           [Requested ProbeProfiles; Subscribed]
           (Replied ProbeProfiles (ProbeResponse None))
           [Requested GetSession] eq_refl).
  left. exists (ProbeResponse None). reflexivity.
Defined.

Lemma writesResolved_mono (p : Ctl unit) :
  forall (P Q : User.t -> Prop),
    (forall x, P x -> Q x) -> writesResolved P p -> writesResolved Q p.
Proof.
  induction p as [a|c k IH|u k IH|upd k IH]; intros P Q HPQ Hp; cbn in *.
  - exact I.
  - intros r. exact (IH r P Q HPQ (Hp r)).
  - intros r. apply (IH r (fun x => P x \/ r = Some x)); [|exact (Hp r)].
    intros x [Hx|Hx]; [left; exact (HPQ x Hx) | right; exact Hx].
  - destruct Hp as [Hupd Hk]. split.
    + intros x Hx. exact (HPQ x (Hupd x Hx)).
    + exact (IH P Q HPQ Hk).
Qed.

Lemma resolvedIn_app_l (tr tr' : list Event) (x : User.t) :
  resolvedIn tr x -> resolvedIn (tr ++ tr') x.
Proof. unfold resolvedIn. intros H. apply in_or_app. left. exact H. Qed.

Lemma taskWritesResolved_mono (tr tr' : list Event) (t : Task) :
  taskWritesResolved tr t -> taskWritesResolved (tr ++ tr') t.
Proof.
  destruct t as [c k|c k ret|]; cbn; intros H; [| |exact I]; intros r.
  - apply (writesResolved_mono _ (resolvedIn tr)); [|exact (H r)].
    intros x. apply resolvedIn_app_l.
  - apply (writesResolved_mono _ (fun x => resolvedIn tr x \/ r = Some x));
      [|exact (H r)].
    intros x [Hx|Hx]; [left; apply resolvedIn_app_l; exact Hx | right; exact Hx].
Qed.

(** Running code that writes only resolved identities keeps [currentUser]
    resolved, and leaves a task that does the same. *)
Lemma advance_writesResolved (p : Ctl unit) :
  forall (P : User.t -> Prop) (st : AppState) (tr0 : list Event),
    writesResolved P p ->
    (forall x, P x -> resolvedIn tr0 x) ->
    (forall x, currentUser st = Some x -> resolvedIn tr0 x) ->
    (forall x, currentUser (fst (fst (advance p st))) = Some x ->
               resolvedIn (tr0 ++ snd (fst (advance p st))) x)
    /\ taskWritesResolved (tr0 ++ snd (fst (advance p st))) (snd (advance p st)).
Proof.
  induction p as [a|c k IH|u k IH|upd k IH]; intros P st tr0 Hp HP Hst.
  - cbn. rewrite app_nil_r. split; [exact Hst | exact I].
  - cbn. split.
    + intros x Hx. apply resolvedIn_app_l. exact (Hst x Hx).
    + intros r. apply (writesResolved_mono _ P); [|exact (Hp r)].
      intros x Hx. apply resolvedIn_app_l. exact (HP x Hx).
  - cbn. split.
    + intros x Hx. apply resolvedIn_app_l. exact (Hst x Hx).
    + intros r.
      apply (writesResolved_mono _ (fun x => P x \/ r = Some x)); [|exact (Hp r)].
      intros x [Hx|Hx]; [left; apply resolvedIn_app_l; exact (HP x Hx) | right; exact Hx].
  - cbn in Hp. destruct Hp as [Hupd Hk].
    cbn [advance].
    specialize (IH P (applyUpdate upd st) (tr0 ++ [StateSet upd]) Hk).
    destruct (advance k (applyUpdate upd st)) as [[st' tr] t].
    cbn [fst snd] in *.
    replace (tr0 ++ StateSet upd :: tr) with ((tr0 ++ [StateSet upd]) ++ tr)
      by (rewrite <- app_assoc; reflexivity).
    apply IH.
    + intros x Hx. apply resolvedIn_app_l. exact (HP x Hx).
    + intros x Hx. apply resolvedIn_app_l.
      destruct upd as [s|[y|]|b|b|m]; cbn in Hx; try exact (Hst x Hx).
      * injection Hx as ->. exact (HP x (Hupd x eq_refl)).
      * discriminate.
Qed.

Lemma advanceProfile_writesResolved (q : Proc (option User.t))
    (ret : option User.t -> Ctl unit) (st : AppState) (tr0 : list Event) :
  (forall r, writesResolved (fun x => resolvedIn tr0 x \/ r = Some x) (ret r)) ->
  (forall x, currentUser st = Some x -> resolvedIn tr0 x) ->
  (forall x, currentUser (fst (fst (advanceProfile q ret st))) = Some x ->
             resolvedIn (tr0 ++ snd (fst (advanceProfile q ret st))) x)
  /\ taskWritesResolved (tr0 ++ snd (fst (advanceProfile q ret st)))
       (snd (advanceProfile q ret st)).
Proof.
  intros Hret Hst. destruct q as [r|c k]; cbn [advanceProfile].
  - pose proof (advance_writesResolved (ret r)
                  (fun x => resolvedIn tr0 x \/ r = Some x) st
                  (tr0 ++ [Resolved r]) (Hret r)) as H.
    destruct (advance (ret r) st) as [[st' tr] t]. cbn [fst snd] in *.
    replace (tr0 ++ Resolved r :: tr) with ((tr0 ++ [Resolved r]) ++ tr)
      by (rewrite <- app_assoc; reflexivity).
    apply H.
    + intros x [Hx|Hx].
      * apply resolvedIn_app_l. exact Hx.
      * subst r. unfold resolvedIn. apply in_or_app. right. left. reflexivity.
    + intros x Hx. apply resolvedIn_app_l. exact (Hst x Hx).
  - cbn. split.
    + intros x Hx. apply resolvedIn_app_l. exact (Hst x Hx).
    + intros r.
      apply (writesResolved_mono _ (fun x => resolvedIn tr0 x \/ r = Some x));
        [|exact (Hret r)].
      intros x [Hx|Hx]; [left; apply resolvedIn_app_l; exact Hx | right; exact Hx].
Qed.

Lemma Forall_replaceNth {A : Type} (P : A -> Prop) (x : A) (l : list A) :
  forall n, Forall P l -> P x -> Forall P (replaceNth n x l).
Proof.
  induction l as [|y l IH]; intros n Hl Hx; [destruct n; constructor|].
  inversion Hl as [|? ? Hy Hl']; subst.
  destruct n as [|n]; cbn; constructor; auto.
Qed.

Lemma initializeApp_writesResolved : writesResolved (fun _ => False) initializeApp.
Proof.
  unfold initializeApp, await, set. cbn [bind writesResolved].
  intros e. destruct (isMissingRelation e); cbn [bind writesResolved].
  - repeat split; discriminate.
  - intros [s|]; cbn [bind writesResolved].
    + intros [p|]; cbn [bind writesResolved].
      * repeat split; try discriminate.
        intros x Hx. injection Hx as ->. right. reflexivity.
      * repeat split; discriminate.
    + repeat split; discriminate.
Qed.

Lemma onAuthStateChange_writesResolved (s : option Session.t) :
  writesResolved (fun _ => False) (onAuthStateChange s).
Proof.
  unfold onAuthStateChange, set. cbn [bind writesResolved].
  split; [discriminate|].
  destruct s as [s|]; cbn [bind writesResolved].
  - intros r. split; [|exact I].
    intros x Hx. injection Hx as ->. right. reflexivity.
  - split; [discriminate | exact I].
Qed.

Lemma mount_identityResolved : identityResolved mount.
Proof.
  unfold mount, effectBody. cbn [fold_left].
  pose proof (advance_writesResolved initializeApp (fun _ => False) initialState []
                initializeApp_writesResolved
                (fun x (H : False) => match H with end)) as H.
  unfold execStmt at 2. cbn [app tasks listener trace].
  destruct (advance initializeApp initialState) as [[st tr] t].
  cbn [fst snd] in H. cbn [execStmt app tasks listener trace].
  destruct H as [Hst Ht]; [intros x Hx; discriminate Hx|].
  repeat split.
  - intros x Hx. apply resolvedIn_app_l. exact (Hst x Hx).
  - cbn [List.app]. constructor; [|constructor].
    apply taskWritesResolved_mono. exact Ht.
  - intros cb Hcb s. injection Hcb as <-. apply onAuthStateChange_writesResolved.
Qed.

Lemma step_identityResolved (cfg cfg' : Config) (i : Input) :
  identityResolved cfg -> step cfg i = Some cfg' -> identityResolved cfg'.
Proof.
  intros (Hst & Htasks & Hcb) Hstep.
  destruct i as [n r|s]; cbn in Hstep.
  - destruct (nth_error (tasks cfg) n) as [t|] eqn:Hn; [|discriminate].
    assert (Ht : taskWritesResolved (trace cfg) t).
    { rewrite Forall_forall in Htasks. apply Htasks.
      exact (nth_error_In _ _ Hn). }
    assert (Hres : forall st tr t',
      resume t r (app cfg) = Some (st, tr, t') ->
      (forall x, currentUser st = Some x -> resolvedIn (trace cfg ++ tr) x)
      /\ taskWritesResolved (trace cfg ++ tr) t').
    { intros st tr t' Hr. destruct t as [c k|c k ret|]; cbn in Hr, Ht.
      - destruct (fromResponse c r) as [x|]; [|discriminate].
        pose proof (advance_writesResolved (k x) (resolvedIn (trace cfg)) (app cfg)
                      (trace cfg ++ [Replied c r]) (Ht x)) as H.
        destruct (advance (k x) (app cfg)) as [[st1 tr1] t1].
        injection Hr as <- <- <-. cbn [fst snd] in H.
        replace (trace cfg ++ Replied c r :: tr1)
          with ((trace cfg ++ [Replied c r]) ++ tr1)
          by (rewrite <- app_assoc; reflexivity).
        apply H.
        + intros y. apply resolvedIn_app_l.
        + intros y Hy. apply resolvedIn_app_l. exact (Hst y Hy).
      - destruct (fromResponse c r) as [x|]; [|discriminate].
        pose proof (advanceProfile_writesResolved (k x) ret (app cfg)
                      (trace cfg ++ [Replied c r])) as H.
        destruct (advanceProfile (k x) ret (app cfg)) as [[st1 tr1] t1].
        injection Hr as <- <- <-. cbn [fst snd] in H.
        replace (trace cfg ++ Replied c r :: tr1)
          with ((trace cfg ++ [Replied c r]) ++ tr1)
          by (rewrite <- app_assoc; reflexivity).
        apply H.
        + intros r0.
          apply (writesResolved_mono _
                   (fun y => resolvedIn (trace cfg) y \/ r0 = Some y));
            [|exact (Ht r0)].
          intros y [Hy|Hy]; [left; apply resolvedIn_app_l; exact Hy | right; exact Hy].
        + intros y Hy. apply resolvedIn_app_l. exact (Hst y Hy).
      - discriminate. }
    destruct (resume t r (app cfg)) as [[[st tr] t']|]; [|discriminate].
    injection Hstep as <-. destruct (Hres st tr t' eq_refl) as [Hst' Ht'].
    repeat split; cbn [app tasks listener trace].
    + exact Hst'.
    + apply Forall_replaceNth; [|exact Ht'].
      eapply Forall_impl; [|exact Htasks].
      intros a Ha. apply taskWritesResolved_mono. exact Ha.
    + exact Hcb.
  - destruct (listener cfg) as [cb|] eqn:Hl; [|discriminate].
    pose proof (advance_writesResolved (cb s) (fun _ => False) (app cfg)
                  (trace cfg ++ [Notified s]) (Hcb cb eq_refl s)
                  (fun x (H : False) => match H with end)) as H.
    destruct (advance (cb s) (app cfg)) as [[st tr] t].
    injection Hstep as <-. cbn [fst snd] in H.
    destruct H as [Hst' Ht'].
    { intros y Hy. apply resolvedIn_app_l. exact (Hst y Hy). }
    replace (trace cfg ++ Notified s :: tr)
      with ((trace cfg ++ [Notified s]) ++ tr)
      by (rewrite <- app_assoc; reflexivity).
    repeat split; cbn [app tasks listener trace].
    + exact Hst'.
    + apply Forall_app. split.
      * eapply Forall_impl; [|exact Htasks].
        intros a Ha. rewrite <- app_assoc. apply taskWritesResolved_mono. exact Ha.
      * constructor; [exact Ht' | constructor].
    + exact Hcb.
Qed.

Lemma Reachable_identityResolved (cfg : Config) :
  Reachable cfg -> identityResolved cfg.
Proof.
  induction 1 as [|cfg i cfg' _ IH Hstep].
  - exact mount_identityResolved.
  - exact (step_identityResolved cfg cfg' i IH Hstep).
Qed.

(** What does hold in every configuration the mounted component can
    reach: the main application is rendered only with a non-null session
    and a [currentUser] that some call of [getOrCreateUserProfile] has
    returned.  The call need not be the one for the session shown. *)
Theorem logged_in_only_with_session_and_identity :
  forall (cfg : Config) (isLocalDataLoading : bool) (s : Session.t) (u : User.t),
    Reachable cfg ->
    render isLocalDataLoading (app cfg) = MainApp s u ->
    session (app cfg) = Some s
    /\ currentUser (app cfg) = Some u
    /\ In (Resolved (Some u)) (trace cfg).
Proof.
  intros cfg l s u Hr Hrender.
  destruct (Reachable_identityResolved cfg Hr) as (Hst & _ & _).
  unfold render in Hrender.
  destruct (isAuthLoading (app cfg) || l); [discriminate|].
  destruct (needsDbSetup (app cfg)); [discriminate|].
  destruct (session (app cfg)) as [s'|]; [|discriminate].
  destruct (currentUser (app cfg)) as [u'|] eqn:Hu; [|discriminate].
  injection Hrender as -> ->.
  repeat split. exact (Hst u eq_refl).
Qed.

Lemma logged_in_only_with_session_and_identity_witness :
  render false (app (Sample.after Sample.loginInputs))
    = MainApp Sample.annSession Sample.annRow
  /\ In (Resolved (Some Sample.annRow)) (trace (Sample.after Sample.loginInputs)).
Proof.
  split; [reflexivity|].
  apply (logged_in_only_with_session_and_identity
           (Sample.after Sample.loginInputs) false Sample.annSession Sample.annRow
           (steps_Reachable Sample.loginInputs mount _ reach_mount eq_refl)
           eq_refl).
Defined.

Lemma Reachable_listener (cfg : Config) :
  Reachable cfg -> listener cfg = Some onAuthStateChange.
Proof.
  induction 1 as [|cfg i cfg' _ IH Hstep]; [reflexivity|].
  destruct i as [n r|s]; cbn [step] in Hstep.
  - destruct (nth_error (tasks cfg) n) as [t|]; [|discriminate].
    destruct (resume t r (app cfg)) as [[[st tr] t']|]; [|discriminate].
    injection Hstep as <-. exact IH.
  - rewrite IH in Hstep.
    destruct (advance (onAuthStateChange s) (app cfg)) as [[st tr] t].
    injection Hstep as <-. reflexivity.
Qed.

(** C3 fails on the code.  The auth listener stores the session it is
    given before the identity of that session is resolved, and leaves
    [currentUser] as it was.  So from every configuration that shows the
    main application, a notification with any session [s'] leads to a
    configuration that shows the main application for [s'] with the
    identity of the previous session: [getOrCreateUserProfile] has been
    called for the user of [s'] and has not returned. *)
Theorem notification_shows_unresolved_session :
  forall (cfg : Config) (s s' : Session.t) (u : User.t),
    Reachable cfg ->
    render false (app cfg) = MainApp s u ->
    exists cfg',
      step cfg (Notify (Some s')) = Some cfg'
      /\ Reachable cfg'
      /\ render false (app cfg') = MainApp s' u
      /\ trace cfg'
         = trace cfg
           ++ [Notified (Some s'); StateSet (SetSession (Some s'));
               ResolveCalled (Session.user s');
               Requested (SelectProfile (SupabaseUser.id (Session.user s')))].
Proof.
  intros cfg s s' u Hr Hrender.
  pose proof (Reachable_listener cfg Hr) as Hl.
  assert (Hstep : step cfg (Notify (Some s'))
                  = Some {| app := applyUpdate (SetSession (Some s')) (app cfg);
                            tasks := tasks cfg
                                     ++ [snd (advance (onAuthStateChange (Some s'))
                                                (app cfg))];
                            listener := listener cfg;
                            trace := trace cfg
                                     ++ [Notified (Some s');
                                         StateSet (SetSession (Some s'));
                                         ResolveCalled (Session.user s');
                                         Requested
                                           (SelectProfile
                                              (SupabaseUser.id (Session.user s')))] |}).
  { cbn [step]. rewrite Hl. reflexivity. }
  eexists. split; [exact Hstep|]. split; [exact (reach_step _ _ _ Hr Hstep)|].
  split; [|reflexivity].
  cbn [app]. unfold render in *. cbn [applyUpdate isAuthLoading needsDbSetup session
                                       currentUser loginMessage].
  destruct (isAuthLoading (app cfg) || false); [discriminate|].
  destruct (needsDbSetup (app cfg)); [discriminate|].
  destruct (session (app cfg)); [|discriminate].
  destruct (currentUser (app cfg)); [|discriminate].
  injection Hrender as _ ->. reflexivity.
Qed.

Lemma notification_shows_unresolved_session_witness :
  render false (app (Sample.after Sample.loginInputs))
    = MainApp Sample.annSession Sample.annRow
  /\ render false (app (Sample.after SampleSwitch.switchInputs))
     = MainApp SampleSwitch.bobSession Sample.annRow
  /\ User.id Sample.annRow <> SupabaseUser.id (Session.user SampleSwitch.bobSession)
  /\ ~ In (Resolved (Some SampleSwitch.bobRow))
         (trace (Sample.after SampleSwitch.switchInputs)).
Proof.
  split; [reflexivity|].
  destruct (notification_shows_unresolved_session
              (Sample.after Sample.loginInputs) Sample.annSession
              SampleSwitch.bobSession Sample.annRow
              (steps_Reachable Sample.loginInputs mount _ reach_mount eq_refl)
              eq_refl) as (cfg' & Hstep & _ & Hrender & _).
  assert (E : Sample.after SampleSwitch.switchInputs = cfg').
  { vm_compute in Hstep. injection Hstep as <-. reflexivity. }
  split; [rewrite E; exact Hrender|].
  split; [discriminate|].
  vm_compute. intuition discriminate.
Defined.

(** The two writes of a notification can also fall on either side of the
    writes of [initializeApp]: here every task has finished, and the main
    application is shown with Ann's session and Bob's identity. *)
Example session_and_identity_of_two_users :
  let cfg := Sample.after SampleSwitch.crossedInputs in
  tasks cfg = [Finished; Finished]
  /\ render false (app cfg) = MainApp Sample.annSession SampleSwitch.bobRow.
Proof. split; reflexivity. Qed.

(** ** Calendar arithmetic *)

Lemma DayFromYear_succ (y : Z) : DayFromYear (y + 1) = DayFromYear y + DaysInYear y.
Proof.
  unfold DayFromYear, DaysInYear, isLeapYear.
  destruct (Z.eqb_spec (y mod 4) 0) as [H4|H4];
  destruct (Z.eqb_spec (y mod 100) 0) as [H100|H100];
  destruct (Z.eqb_spec (y mod 400) 0) as [H400|H400]; cbn [andb orb negb];
  Z.div_mod_to_equations; lia.
Qed.

Lemma DayFromYear_lt (y1 y2 : Z) : y1 < y2 -> DayFromYear y1 < DayFromYear y2.
Proof. unfold DayFromYear. intros H. Z.div_mod_to_equations. lia. Qed.

Lemma DayFromYear_le (y1 y2 : Z) : y1 <= y2 -> DayFromYear y1 <= DayFromYear y2.
Proof.
  intros H. destruct (Z.eq_dec y1 y2) as [->|Hne]; [lia|].
  apply Z.lt_le_incl, DayFromYear_lt. lia.
Qed.

(** [YearFromDay d] is the year whose days include [d]. *)
Lemma YearFromDay_spec (d : Z) :
  DayFromYear (YearFromDay d) <= d < DayFromYear (YearFromDay d + 1).
Proof.
  unfold YearFromDay.
  set (g := 1970 + 400 * d / 146097).
  assert (Hg : 146097 * (g - 1970) <= 400 * d < 146097 * (g - 1970) + 146097).
  { subst g. Z.div_mod_to_equations. lia. }
  clearbody g.
  destruct (Z.ltb_spec d (DayFromYear g)) as [H1|H1].
  - replace (g - 1 + 1) with g by lia. split; [|exact H1].
    clear H1. unfold DayFromYear. Z.div_mod_to_equations. lia.
  - destruct (Z.leb_spec (DayFromYear (g + 1)) d) as [H2|H2].
    + split; [exact H2|]. clear H1 H2. unfold DayFromYear.
      Z.div_mod_to_equations. lia.
    + split; [exact H1 | exact H2].
Qed.

Lemma YearFromDay_unique (y d : Z) :
  DayFromYear y <= d < DayFromYear (y + 1) -> YearFromDay d = y.
Proof.
  intros Hy. pose proof (YearFromDay_spec d) as Hs.
  destruct (Z.lt_trichotomy (YearFromDay d) y) as [H|[H|H]]; [|exact H|].
  - pose proof (DayFromYear_le (YearFromDay d + 1) y ltac:(lia)). lia.
  - pose proof (DayFromYear_le (y + 1) (YearFromDay d) ltac:(lia)). lia.
Qed.

Lemma validDate_bounds (y m d : Z) :
  validDate y m d = true ->
  0 <= y <= 9999 /\ 1 <= m <= 12 /\ 1 <= d <= DaysInMonth y m.
Proof.
  unfold validDate. rewrite !andb_true_iff, !Z.leb_le. lia.
Qed.

(** The day of a valid date within its year. *)
Lemma dayWithinYear_bounds (y m d : Z) :
  validDate y m d = true ->
  0 <= daysBeforeMonth (isLeapYear y) m + d - 1 < DaysInYear y.
Proof.
  intros H. apply validDate_bounds in H. destruct H as (_ & Hm & Hd).
  unfold DaysInMonth, DaysInYear in *.
  destruct (isLeapYear y); month_cases m; eval_days; lia.
Qed.

Lemma YearFromDay_MakeDay (y m d : Z) :
  validDate y m d = true -> YearFromDay (MakeDay y m d) = y.
Proof.
  intros H. apply YearFromDay_unique. rewrite DayFromYear_succ.
  pose proof (dayWithinYear_bounds y m d H). unfold MakeDay. lia.
Qed.

Lemma MonthFromDay_MakeDay (y m d : Z) :
  validDate y m d = true -> MonthFromDay (MakeDay y m d) = m - 1.
Proof.
  intros H. unfold MonthFromDay. rewrite (YearFromDay_MakeDay y m d H).
  apply validDate_bounds in H. destruct H as (_ & Hm & Hd).
  unfold MakeDay, DaysInMonth in *.
  destruct (isLeapYear y); month_cases m; eval_days;
    repeat match goal with
           | |- context [?a <? ?b] => destruct (Z.ltb_spec a b); try lia
           end.
Qed.

(** Later calendar dates have later day numbers. *)
Lemma MakeDay_lt (y1 m1 d1 y2 m2 d2 : Z) :
  validDate y1 m1 d1 = true -> validDate y2 m2 d2 = true ->
  y1 < y2 \/ (y1 = y2 /\ (m1 < m2 \/ (m1 = m2 /\ d1 < d2))) ->
  MakeDay y1 m1 d1 < MakeDay y2 m2 d2.
Proof.
  intros H1 H2 Hlt.
  pose proof (dayWithinYear_bounds _ _ _ H1) as B1.
  pose proof (dayWithinYear_bounds _ _ _ H2) as B2.
  unfold MakeDay. destruct Hlt as [Hy|[-> Hm]].
  - pose proof (DayFromYear_le (y1 + 1) y2 ltac:(lia)) as Hle.
    rewrite DayFromYear_succ in Hle. lia.
  - destruct Hm as [Hm|[-> Hd]]; [|lia].
    apply validDate_bounds in H1, H2.
    destruct H1 as (_ & Hm1 & Hd1), H2 as (_ & Hm2 & Hd2).
    unfold DaysInMonth in *.
    destruct (isLeapYear y2); month_cases m1; month_cases m2;
      try lia; eval_days; lia.
Qed.

Lemma Day_of_midnight (n : Z) : Day (n * msPerDay) = n.
Proof. unfold Day, msPerDay. apply Z.div_mul. discriminate. Qed.

(** ** Date strings *)

Lemma digit_bounds (c : ascii) (v : Z) : digit c = Some v -> 0 <= v <= 9.
Proof.
  unfold digit.
  destruct ((48 <=? Z.of_N (N_of_ascii c)) && (Z.of_N (N_of_ascii c) <=? 57)) eqn:H;
    [|discriminate].
  apply andb_true_iff in H. rewrite !Z.leb_le in H.
  intros E; injection E as <-. lia.
Qed.

Lemma digit_inj (c1 c2 : ascii) (v : Z) :
  digit c1 = Some v -> digit c2 = Some v -> c1 = c2.
Proof.
  unfold digit.
  destruct ((48 <=? Z.of_N (N_of_ascii c1)) && _); [|discriminate].
  destruct ((48 <=? Z.of_N (N_of_ascii c2)) && _); [|discriminate].
  intros E1 E2. injection E1 as E1. injection E2 as E2.
  assert (E : N_of_ascii c1 = N_of_ascii c2) by lia.
  rewrite <- (ascii_N_embedding c1), <- (ascii_N_embedding c2), E. reflexivity.
Qed.

Lemma digits2_inv (a b : ascii) (v : Z) :
  digits2 a b = Some v ->
  exists x y, digit a = Some x /\ digit b = Some y /\ v = 10 * x + y
              /\ 0 <= x <= 9 /\ 0 <= y <= 9.
Proof.
  unfold digits2.
  destruct (digit a) as [x|] eqn:Ha; [|discriminate].
  destruct (digit b) as [y|] eqn:Hb; [|discriminate].
  intros E; injection E as <-. exists x, y.
  pose proof (digit_bounds _ _ Ha). pose proof (digit_bounds _ _ Hb). auto.
Qed.

Lemma digits2_inj (a b a' b' : ascii) (v : Z) :
  digits2 a b = Some v -> digits2 a' b' = Some v -> a = a' /\ b = b'.
Proof.
  intros H H'.
  destruct (digits2_inv _ _ _ H) as (x & y & Ha & Hb & -> & Hx & Hy).
  destruct (digits2_inv _ _ _ H') as (x' & y' & Ha' & Hb' & E & Hx' & Hy').
  assert (x = x') by lia. assert (y = y') by lia. subst x' y'.
  split; [exact (digit_inj _ _ _ Ha Ha') | exact (digit_inj _ _ _ Hb Hb')].
Qed.

Lemma digits4_inj (a b c d a' b' c' d' : ascii) (v : Z) :
  digits4 a b c d = Some v -> digits4 a' b' c' d' = Some v ->
  a = a' /\ b = b' /\ c = c' /\ d = d'.
Proof.
  unfold digits4.
  destruct (digits2 a b) as [x|] eqn:H1; [|discriminate].
  destruct (digits2 c d) as [y|] eqn:H2; [|discriminate].
  destruct (digits2 a' b') as [x'|] eqn:H1'; [|discriminate].
  destruct (digits2 c' d') as [y'|] eqn:H2'; [|discriminate].
  intros E E'.
  assert (E2 : 100 * x' + y' = 100 * x + y) by congruence.
  clear E E'.
  assert (Rx : 0 <= x <= 99)
    by (destruct (digits2_inv _ _ _ H1) as (? & ? & _ & _ & -> & ? & ?); lia).
  assert (Ry : 0 <= y <= 99)
    by (destruct (digits2_inv _ _ _ H2) as (? & ? & _ & _ & -> & ? & ?); lia).
  assert (Rx' : 0 <= x' <= 99)
    by (destruct (digits2_inv _ _ _ H1') as (? & ? & _ & _ & -> & ? & ?); lia).
  assert (Ry' : 0 <= y' <= 99)
    by (destruct (digits2_inv _ _ _ H2') as (? & ? & _ & _ & -> & ? & ?); lia).
  assert (x' = x) by lia. assert (y' = y) by lia. subst x' y'.
  destruct (digits2_inj _ _ _ _ _ H1 H1') as [-> ->].
  destruct (digits2_inj _ _ _ _ _ H2 H2') as [-> ->].
  auto.
Qed.

Lemma isDash_eq (c : ascii) : isDash c = true -> c = "-"%char.
Proof. unfold isDash. intros H. apply Ascii.eqb_eq. exact H. Qed.

(** A string that parses as a date is ten characters, [YYYY-MM-DD]. *)
Lemma parseISODate_shape (s : string) (y m d : Z) :
  parseISODate s = Some (y, m, d) ->
  exists y1 y2 y3 y4 m1 m2 d1 d2,
    s = String y1 (String y2 (String y3 (String y4 (String "-"
          (String m1 (String m2 (String "-"
             (String d1 (String d2 EmptyString)))))))))
    /\ digits4 y1 y2 y3 y4 = Some y /\ digits2 m1 m2 = Some m
    /\ digits2 d1 d2 = Some d /\ validDate y m d = true.
Proof.
  unfold parseISODate.
  destruct s as [|y1 s]; [discriminate|]. destruct s as [|y2 s]; [discriminate|].
  destruct s as [|y3 s]; [discriminate|]. destruct s as [|y4 s]; [discriminate|].
  destruct s as [|s1 s]; [discriminate|]. destruct s as [|m1 s]; [discriminate|].
  destruct s as [|m2 s]; [discriminate|]. destruct s as [|s2 s]; [discriminate|].
  destruct s as [|d1 s]; [discriminate|]. destruct s as [|d2 s]; [discriminate|].
  destruct s as [|extra s]; [|discriminate].
  cbn [list_ascii_of_string].
  destruct (digits4 y1 y2 y3 y4) as [y'|] eqn:Ey; [|discriminate].
  destruct (digits2 m1 m2) as [m'|] eqn:Em; [|discriminate].
  destruct (digits2 d1 d2) as [d'|] eqn:Ed; [|discriminate].
  destruct (isDash s1) eqn:E1; [|discriminate].
  destruct (isDash s2) eqn:E2; [|discriminate].
  destruct (validDate y' m' d') eqn:Ev; [|discriminate].
  cbn [andb]. intros E. injection E as -> -> ->.
  apply isDash_eq in E1, E2. subst s1 s2.
  exists y1, y2, y3, y4, m1, m2, d1, d2. repeat split; assumption.
Qed.

Lemma parseISODate_valid (s : string) (y m d : Z) :
  parseISODate s = Some (y, m, d) -> validDate y m d = true.
Proof.
  intros H.
  destruct (parseISODate_shape _ _ _ _ H)
    as (? & ? & ? & ? & ? & ? & ? & ? & _ & _ & _ & _ & Hv).
  exact Hv.
Qed.

Lemma parseISODate_inj (s s' : string) (v : Z * Z * Z) :
  parseISODate s = Some v -> parseISODate s' = Some v -> s = s'.
Proof.
  destruct v as [[y m] d]. intros H H'.
  destruct (parseISODate_shape _ _ _ _ H)
    as (y1 & y2 & y3 & y4 & m1 & m2 & d1 & d2 & -> & Hy & Hm & Hd & _).
  destruct (parseISODate_shape _ _ _ _ H')
    as (y1' & y2' & y3' & y4' & m1' & m2' & d1' & d2' & -> & Hy' & Hm' & Hd' & _).
  destruct (digits4_inj _ _ _ _ _ _ _ _ _ Hy Hy') as (-> & -> & -> & ->).
  destruct (digits2_inj _ _ _ _ _ Hm Hm') as (-> & ->).
  destruct (digits2_inj _ _ _ _ _ Hd Hd') as (-> & ->).
  reflexivity.
Qed.

Lemma keyReadsBack_all :
  forallb (fun y => forallb (keyReadsBack y) monthNumbers) fourDigitYears = true.
Proof. vm_compute. reflexivity. Qed.

Lemma keyReadsBack_true (y m : Z) :
  1000 <= y <= 9999 -> 1 <= m <= 12 -> keyReadsBack y m = true.
Proof.
  intros Hy Hm. pose proof keyReadsBack_all as H.
  rewrite forallb_forall in H.
  assert (Iy : In y fourDigitYears).
  { unfold fourDigitYears. rewrite <- (Z2Nat.id y) by lia.
    apply in_map, in_seq. lia. }
  specialize (H y Iy). rewrite forallb_forall in H. apply H.
  unfold monthNumbers. rewrite <- (Z2Nat.id m) by lia.
  apply in_map, in_seq. lia.
Qed.

Lemma monthKeyOf_reads_back (y m : Z) :
  1000 <= y <= 9999 -> 1 <= m <= 12 ->
  parseYearMonth (monthKeyOf y m) = Some (y, m)
  /\ parseISODate (monthKeyOf y m ++ "-01") = Some (y, m, 1)
  /\ String.length (monthKeyOf y m ++ "-01") = 10%nat.
Proof.
  intros Hy Hm. pose proof (keyReadsBack_true y m Hy Hm) as H.
  unfold keyReadsBack in H.
  destruct (parseYearMonth (monthKeyOf y m)) as [[y1 m1]|]; [|discriminate].
  destruct (parseISODate (monthKeyOf y m ++ "-01")) as [[[y2 m2] d2]|];
    [|discriminate].
  rewrite !andb_true_iff, !Z.eqb_eq, Nat.eqb_eq in H.
  destruct H as (((((-> & ->) & ->) & ->) & ->) & Hl). auto.
Qed.

(** ** Maps and sorting *)

Section MapFacts.

Context {V : Type}.
Implicit Types (m : StringMap.t V) (k : string).

Lemma has_In k m : StringMap.has k m = true <-> In k (map fst m).
Proof.
  induction m as [|[k' v] m IH]; cbn.
  - split; [discriminate | contradiction].
  - rewrite orb_true_iff, IH, String.eqb_eq. split; intros [H|H]; auto.
Qed.

Lemma keys_update k (f : V -> V) m :
  map fst (StringMap.update k f m) = map fst m.
Proof.
  induction m as [|[k' v] m IH]; [reflexivity|]. cbn.
  destruct (String.eqb k k'); cbn; [reflexivity | rewrite IH; reflexivity].
Qed.

Lemma set_absent k (v : V) m :
  StringMap.has k m = false -> StringMap.set k v m = m ++ [(k, v)].
Proof.
  induction m as [|[k' v'] m IH]; [reflexivity|]. cbn.
  destruct (String.eqb k k'); cbn; [discriminate|].
  intros H. rewrite (IH H). reflexivity.
Qed.

End MapFacts.

Lemma entryCount_app (m1 m2 : StringMap.t Reports.ReportItem) :
  entryCount (m1 ++ m2) = entryCount m1 + entryCount m2.
Proof.
  unfold entryCount.
  induction m1 as [|e m1 IH]; cbn [List.app fold_right]; [reflexivity|].
  rewrite IH. lia.
Qed.

Lemma entryCount_update (k : string) (inv : Invoice.t) (m : StringMap.t Reports.ReportItem) :
  StringMap.has k m = true ->
  entryCount (StringMap.update k (Reports.record inv) m) = entryCount m + 1.
Proof.
  unfold entryCount.
  induction m as [|[k' v] m IH]; [discriminate|].
  cbn [StringMap.has StringMap.update].
  destruct (String.eqb k k'); cbn [orb fold_right snd Reports.record Reports.invoiceCount].
  - intros _. lia.
  - intros H. rewrite (IH H). lia.
Qed.

(** Each invoice adds one to the counts of a map. *)
Lemma entryCount_accumulate (k : string) (inv : Invoice.t)
    (m : StringMap.t Reports.ReportItem) :
  entryCount (Reports.accumulate k inv m) = entryCount m + 1.
Proof.
  unfold Reports.accumulate.
  destruct (StringMap.has k m) eqn:H; cbn [negb].
  - apply entryCount_update. exact H.
  - rewrite (set_absent k _ m H), entryCount_update.
    + rewrite entryCount_app. unfold entryCount. cbn. lia.
    + apply has_In. rewrite map_app. apply in_or_app. right. left. reflexivity.
Qed.

Lemma keys_accumulate (k : string) (inv : Invoice.t) (m : StringMap.t Reports.ReportItem) :
  map fst (Reports.accumulate k inv m) =
  if StringMap.has k m then map fst m else map fst m ++ [k].
Proof.
  unfold Reports.accumulate. rewrite keys_update.
  destruct (StringMap.has k m) eqn:H; cbn [negb]; [reflexivity|].
  rewrite (set_absent k _ m H), map_app. reflexivity.
Qed.

(** The two maps of [step] evolve independently. *)
Lemma fold_step (tza : TimeZone) (invoices : list Invoice.t) :
  forall d m,
    fold_left (Reports.step tza) invoices (d, m) =
    (fold_left (fun acc inv => Reports.accumulate (Invoice.issueDate inv) inv acc) invoices d,
     fold_left (fun acc inv => Reports.accumulate (Reports.monthKey tza inv) inv acc)
       invoices m).
Proof.
  induction invoices as [|inv l IH]; intros d m; [reflexivity|].
  cbn [fold_left]. unfold Reports.step at 2. cbn [fst snd]. apply IH.
Qed.

Section Accumulate.

Variable key : Invoice.t -> string.


Lemma entryCount_fold (invoices : list Invoice.t) :
  forall m, entryCount (fold_left (fun acc inv => Reports.accumulate (key inv) inv acc) invoices m)
            = entryCount m + Z.of_nat (List.length invoices).
Proof.
  induction invoices as [|inv l IH]; intros m; [cbn [fold_left List.length]; lia|].
  cbn [fold_left List.length].
  rewrite IH, entryCount_accumulate. lia.
Qed.

Lemma keys_fold_NoDup (invoices : list Invoice.t) :
  forall m, NoDup (map fst m) ->
    NoDup (map fst (fold_left (fun acc inv => Reports.accumulate (key inv) inv acc)
                      invoices m)).
Proof.
  induction invoices as [|inv l IH]; intros m Hm; [exact Hm|].
  cbn [fold_left]. apply IH.
  rewrite keys_accumulate.
  destruct (StringMap.has (key inv) m) eqn:H; [exact Hm|].
  apply NoDup_app; [exact Hm | repeat constructor; intros [] | ].
  intros x Hx [<-|[]]. apply has_In in Hx. congruence.
Qed.

Lemma keys_fold_In (invoices : list Invoice.t) :
  forall m k,
    In k (map fst (fold_left (fun acc inv => Reports.accumulate (key inv) inv acc)
                     invoices m)) ->
    In k (map fst m) \/ In k (map key invoices).
Proof.
  induction invoices as [|inv l IH]; intros m k Hk; [left; exact Hk|].
  cbn [fold_left] in Hk.
  destruct (IH _ _ Hk) as [H|H].
  - rewrite keys_accumulate in H.
    destruct (StringMap.has (key inv) m); [left; exact H|].
    apply in_app_or in H. destruct H as [H|[<-|[]]]; [left; exact H|].
    right. left. reflexivity.
  - right. right. exact H.
Qed.

End Accumulate.

Section SortFacts.

Context {A : Type} (compare : A -> A -> option Z).

Lemma insert_Permutation (x : A) (l : list A) :
  Permutation (JsArray.insert compare x l) (x :: l).
Proof.
  induction l as [|y l IH]; cbn; [reflexivity|].
  destruct (JsArray.compareValue compare x y <? 0); [reflexivity|].
  rewrite IH. apply perm_swap.
Qed.

Lemma sort_Permutation (l : list A) : Permutation (JsArray.sort compare l) l.
Proof.
  unfold JsArray.sort.
  assert (H : forall acc, Permutation (fold_left (fun acc x => JsArray.insert compare x acc) l acc)
                            (acc ++ l)).
  { induction l as [|x l IH]; intros acc; cbn.
    - rewrite app_nil_r. reflexivity.
    - rewrite IH, insert_Permutation. apply Permutation_middle. }
  exact (H []).
Qed.

(** With a comparator that is the difference of a numeric key, the
    result is in descending order of that key. *)
Variable f : A -> Z.

Lemma insert_descending (x : A) (l : list A) :
  (forall y, In y l -> compare x y = Some (f y - f x)) ->
  StronglySorted (fun a b => f b <= f a) l ->
  StronglySorted (fun a b => f b <= f a) (JsArray.insert compare x l).
Proof.
  induction l as [|y l IH]; intros Hc Hs; cbn.
  - repeat constructor.
  - inversion Hs as [|? ? Hl Hy]; subst.
    unfold JsArray.compareValue. rewrite (Hc y) by (left; reflexivity).
    destruct (Z.ltb_spec (f y - f x) 0) as [Hlt|Hge].
    + constructor; [exact Hs|].
      constructor; [lia|]. rewrite Forall_forall in Hy |- *.
      intros z Hz. specialize (Hy z Hz). cbn in Hy. lia.
    + constructor.
      * apply IH; [|exact Hl]. intros z Hz. apply Hc. right. exact Hz.
      * rewrite Forall_forall in Hy |- *. intros z Hz.
        apply (Permutation_in _ (insert_Permutation x l)) in Hz.
        destruct Hz as [<-|Hz]; [lia | exact (Hy z Hz)].
Qed.

Lemma sort_descending (l : list A) :
  (forall a b, In a l -> In b l -> compare a b = Some (f b - f a)) ->
  StronglySorted (fun a b => f b <= f a) (JsArray.sort compare l).
Proof.
  unfold JsArray.sort. intros Hc.
  assert (H : forall acc,
    (forall a b, In a (acc ++ l) -> In b (acc ++ l) -> compare a b = Some (f b - f a)) ->
    StronglySorted (fun a b => f b <= f a) acc ->
    StronglySorted (fun a b => f b <= f a)
      (fold_left (fun acc x => JsArray.insert compare x acc) l acc)).
  { clear Hc. induction l as [|x l IH]; intros acc Hc Hs; cbn; [exact Hs|].
    apply IH.
    - intros a b Ha Hb. apply Hc.
      + apply in_app_or in Ha. destruct Ha as [Ha|Ha].
        * apply (Permutation_in _ (insert_Permutation x acc)) in Ha.
          apply in_or_app. destruct Ha as [<-|Ha]; [right; left; reflexivity | left; exact Ha].
        * apply in_or_app. right. right. exact Ha.
      + apply in_app_or in Hb. destruct Hb as [Hb|Hb].
        * apply (Permutation_in _ (insert_Permutation x acc)) in Hb.
          apply in_or_app. destruct Hb as [<-|Hb]; [right; left; reflexivity | left; exact Hb].
        * apply in_or_app. right. right. exact Hb.
    - apply insert_descending; [|exact Hs].
      intros y Hy. apply Hc; apply in_or_app; [right; left; reflexivity | left; exact Hy]. }
  apply H; [exact Hc | constructor].
Qed.

End SortFacts.

(** A list in descending order of a key, its elements told apart by a
    label that determines the key, is in the strict order. *)
Lemma StronglySorted_strict {A L : Type} (f : A -> Z) (g : A -> L)
    (R : A -> A -> Prop) (l : list A) :
  StronglySorted (fun a b => f b <= f a) l ->
  NoDup (map g l) ->
  (forall a b, In a l -> In b l -> f b <= f a -> g a <> g b -> R a b) ->
  StronglySorted R l.
Proof.
  induction l as [|x l IH]; intros Hs Hn HR; [constructor|].
  inversion Hs as [|? ? Hl Hx]; subst. cbn in Hn.
  inversion Hn as [|? ? Hnx Hnl]; subst.
  constructor.
  - apply IH; [exact Hl | exact Hnl|].
    intros a b Ha Hb. apply HR; right; assumption.
  - rewrite Forall_forall in Hx |- *. intros y Hy.
    apply HR; [left; reflexivity | right; exact Hy | exact (Hx y Hy) |].
    intros E. apply Hnx. rewrite E. apply in_map. exact Hy.
Qed.

Lemma totalCount_Permutation (l l' : list Reports.ReportRow) :
  Permutation l l' -> totalCount l = totalCount l'.
Proof.
  unfold totalCount.
  induction 1 as [|x l l' _ IH|x y l|l l' l'' _ IH1 _ IH2]; cbn [fold_right].
  - reflexivity.
  - rewrite IH. reflexivity.
  - lia.
  - congruence.
Qed.

Lemma totalCount_rows (m : StringMap.t Reports.ReportItem) :
  totalCount (map Reports.toRow (StringMap.entries m)) = entryCount m.
Proof.
  unfold StringMap.entries, totalCount, entryCount.
  induction m as [|e m IH]; cbn [map fold_right]; [reflexivity|].
  rewrite IH. reflexivity.
Qed.

(** C8. The invoice counts of the daily rows add up to the number of
    invoices, whatever the invoices and the time zone. *)
Theorem daily_counts_sum_to_total :
  forall (tza : TimeZone) (invoices : list Invoice.t),
    totalCount (Reports.dailyReports
                  (Reports.computeDailyAndMonthlyReports tza invoices))
    = Z.of_nat (List.length invoices).
Proof.
  intros tza invoices. unfold Reports.computeDailyAndMonthlyReports.
  cbn [Reports.dailyReports].
  rewrite (totalCount_Permutation _ _ (sort_Permutation _ _)).
  rewrite totalCount_rows, fold_step. cbn [fst].
  rewrite entryCount_fold. reflexivity.
Qed.

(** ** Keys and timestamps of well-formed dates *)

Lemma Date_parse_date (tza : TimeZone) (s : string) (y m d : Z) :
  parseISODate s = Some (y, m, d) ->
  Date_parse tza s = Some (MakeDay y m d * msPerDay).
Proof.
  intros H. unfold Date_parse.
  destruct (parseISODate_shape _ _ _ _ H)
    as (y1 & y2 & y3 & y4 & m1 & m2 & d1 & d2 & E & _).
  replace ((String.length s =? 10)%nat) with true by (rewrite E; reflexivity).
  rewrite H. reflexivity.
Qed.

(** Parsed as local midnight and read back with the local getters, an
    issue date gives its own year and month, in every time zone. *)
Lemma monthKey_of_date (tza : TimeZone) (inv : Invoice.t) (y m d : Z) :
  parseISODate (Invoice.issueDate inv) = Some (y, m, d) ->
  Reports.monthKey tza inv = monthKeyOf y m.
Proof.
  intros H. unfold Reports.monthKey, monthKeyOf.
  destruct (parseISODate_shape _ _ _ _ H)
    as (y1 & y2 & y3 & y4 & m1 & m2 & d1 & d2 & E & _ & _ & _ & Hv).
  assert (Hp : Date_parse tza (Invoice.issueDate inv ++ "T00:00:00")
               = Some (UTC tza (MakeDay y m d * msPerDay + 0))).
  { unfold Date_parse.
    replace ((String.length (Invoice.issueDate inv ++ "T00:00:00") =? 10)%nat) with false
      by (rewrite E; reflexivity).
    replace (substring 0 10 (Invoice.issueDate inv ++ "T00:00:00")) with (Invoice.issueDate inv)
      by (rewrite E; reflexivity).
    replace (substring 10 (String.length (Invoice.issueDate inv ++ "T00:00:00") - 10)
               (Invoice.issueDate inv ++ "T00:00:00")) with "T00:00:00"%string
      by (rewrite E; reflexivity).
    rewrite H. reflexivity. }
  rewrite Hp. unfold getFullYear, getMonth, option_map.
  unfold YearFromTime, MonthFromTime, LocalTime, UTC.
  replace (MakeDay y m d * msPerDay + 0 - tza + tza) with (MakeDay y m d * msPerDay)
    by lia.
  rewrite Day_of_midnight, (YearFromDay_MakeDay _ _ _ Hv),
    (MonthFromDay_MakeDay _ _ _ Hv).
  replace (1 + (m - 1)) with m by lia. reflexivity.
Qed.

Lemma validDate_first (y m d : Z) : validDate y m d = true -> validDate y m 1 = true.
Proof.
  intros H. apply validDate_bounds in H. unfold validDate.
  rewrite !andb_true_iff, !Z.leb_le. lia.
Qed.

(** C9. For invoices whose issue dates are well formed, the daily rows
    are in strictly descending order of calendar date and the monthly
    rows in strictly descending order of (year, month), in every time
    zone. *)
Theorem report_rows_strictly_descending :
  forall (tza : TimeZone) (invoices : list Invoice.t),
    Forall (fun inv => wellFormedDate (Invoice.issueDate inv)) invoices ->
    let reports := Reports.computeDailyAndMonthlyReports tza invoices in
    StronglySorted (fun a b => dateAfter (Reports.date a) (Reports.date b))
      (Reports.dailyReports reports)
    /\ StronglySorted (fun a b => monthAfter (Reports.date a) (Reports.date b))
         (Reports.monthlyReports reports).
Proof.
  intros tza invoices Hwf reports. subst reports.
  unfold Reports.computeDailyAndMonthlyReports.
  cbn [Reports.dailyReports Reports.monthlyReports].
  rewrite fold_step. cbn [fst snd]. unfold StringMap.entries.
  rewrite Forall_forall in Hwf.
  split.
  - set (m := fold_left (fun acc inv => Reports.accumulate (Invoice.issueDate inv) inv acc)
                invoices []).
    assert (Hkeys : forall r, In r (map Reports.toRow m) ->
              exists y mo d, parseISODate (Reports.date r) = Some (y, mo, d)).
    { intros r Hr. apply in_map_iff in Hr. destruct Hr as (e & <- & He).
      assert (Hk : In (fst e) (map fst m)) by (apply in_map; exact He).
      apply (keys_fold_In Invoice.issueDate) in Hk. destruct Hk as [[]|Hk].
      apply in_map_iff in Hk. destruct Hk as (inv & Hd & Hinv).
      destruct (Hwf inv Hinv) as (y & mo & d & Hp & _).
      exists y, mo, d. cbn. rewrite <- Hd. exact Hp. }
    assert (Hnd : NoDup (map Reports.date (map Reports.toRow m))).
    { rewrite map_map. cbn.
      apply (keys_fold_NoDup Invoice.issueDate invoices []). constructor. }
    set (f := fun r : Reports.ReportRow =>
                match parseISODate (Reports.date r) with
                | Some (y, mo, d) => MakeDay y mo d * msPerDay
                | None => 0
                end).
    apply (StronglySorted_strict f Reports.date).
    + apply sort_descending. intros a b Ha Hb.
      destruct (Hkeys a Ha) as (ya & ma & da & Pa).
      destruct (Hkeys b Hb) as (yb & mb & db & Pb).
      unfold Reports.compareDaily, f.
      rewrite (Date_parse_date tza _ _ _ _ Pa), (Date_parse_date tza _ _ _ _ Pb), Pa, Pb.
      reflexivity.
    + apply (Permutation_NoDup (l := map Reports.date (map Reports.toRow m)));
        [|exact Hnd].
      apply Permutation_map, Permutation_sym, sort_Permutation.
    + intros a b Ha Hb Hle Hne.
      apply (Permutation_in _ (sort_Permutation _ _)) in Ha, Hb.
      destruct (Hkeys a Ha) as (ya & ma & da & Pa).
      destruct (Hkeys b Hb) as (yb & mb & db & Pb).
      unfold dateAfter, f in *. rewrite Pa, Pb in *.
      pose proof (parseISODate_valid _ _ _ _ Pa) as Va.
      pose proof (parseISODate_valid _ _ _ _ Pb) as Vb.
      assert (Hcases : (yb < ya \/ (yb = ya /\ (mb < ma \/ (mb = ma /\ db < da))))
                       \/ (ya < yb \/ (ya = yb /\ (ma < mb \/ (ma = mb /\ da < db))))
                       \/ (ya = yb /\ ma = mb /\ da = db)) by lia.
      destruct Hcases as [H|[H|(-> & -> & ->)]]; [exact H| |].
      * pose proof (MakeDay_lt _ _ _ _ _ _ Va Vb H). unfold msPerDay in Hle. lia.
      * exfalso. apply Hne. exact (parseISODate_inj _ _ _ Pa Pb).
  - set (m := fold_left
                (fun acc inv => Reports.accumulate (Reports.monthKey tza inv) inv acc)
                invoices []).
    assert (Hkeys : forall r, In r (map Reports.toRow m) ->
              exists y mo, Reports.date r = monthKeyOf y mo
                           /\ 1000 <= y <= 9999 /\ 1 <= mo <= 12
                           /\ validDate y mo 1 = true).
    { intros r Hr. apply in_map_iff in Hr. destruct Hr as (e & <- & He).
      assert (Hk : In (fst e) (map fst m)) by (apply in_map; exact He).
      apply (keys_fold_In (Reports.monthKey tza)) in Hk. destruct Hk as [[]|Hk].
      apply in_map_iff in Hk. destruct Hk as (inv & Hd & Hinv).
      destruct (Hwf inv Hinv) as (y & mo & d & Hp & Hy).
      pose proof (parseISODate_valid _ _ _ _ Hp) as Hv.
      pose proof (validDate_bounds _ _ _ Hv) as (B1 & B2 & _).
      exists y, mo. cbn. rewrite <- Hd, (monthKey_of_date tza inv y mo d Hp).
      repeat split; try lia. exact (validDate_first _ _ _ Hv). }
    assert (Hnd : NoDup (map Reports.date (map Reports.toRow m))).
    { rewrite map_map. cbn.
      apply (keys_fold_NoDup (Reports.monthKey tza) invoices []). constructor. }
    set (f := fun r : Reports.ReportRow =>
                match parseYearMonth (Reports.date r) with
                | Some (y, mo) => MakeDay y mo 1 * msPerDay
                | None => 0
                end).
    apply (StronglySorted_strict f Reports.date).
    + apply sort_descending. intros a b Ha Hb.
      destruct (Hkeys a Ha) as (ya & ma & Ea & Ya & Ma & _).
      destruct (Hkeys b Hb) as (yb & mb & Eb & Yb & Mb & _).
      destruct (monthKeyOf_reads_back ya ma Ya Ma) as (Ka & Da & _).
      destruct (monthKeyOf_reads_back yb mb Yb Mb) as (Kb & Db & _).
      unfold Reports.compareMonthly, f. rewrite Ea, Eb, Ka, Kb.
      rewrite (Date_parse_date tza _ _ _ _ Da), (Date_parse_date tza _ _ _ _ Db).
      reflexivity.
    + apply (Permutation_NoDup (l := map Reports.date (map Reports.toRow m)));
        [|exact Hnd].
      apply Permutation_map, Permutation_sym, sort_Permutation.
    + intros a b Ha Hb Hle Hne.
      apply (Permutation_in _ (sort_Permutation _ _)) in Ha, Hb.
      destruct (Hkeys a Ha) as (ya & ma & Ea & Ya & Ma & Va).
      destruct (Hkeys b Hb) as (yb & mb & Eb & Yb & Mb & Vb).
      destruct (monthKeyOf_reads_back ya ma Ya Ma) as (Ka & _ & _).
      destruct (monthKeyOf_reads_back yb mb Yb Mb) as (Kb & _ & _).
      unfold monthAfter, f in *. rewrite Ea, Eb in *. rewrite Ka, Kb in *.
      assert (Hcases : (yb < ya \/ (yb = ya /\ mb < ma))
                       \/ (ya < yb \/ (ya = yb /\ ma < mb))
                       \/ (ya = yb /\ ma = mb)) by lia.
      destruct Hcases as [H|[H|(-> & ->)]]; [exact H| |].
      * assert (H' : ya < yb \/ (ya = yb /\ (ma < mb \/ (ma = mb /\ 1 < 1)))) by lia.
        pose proof (MakeDay_lt _ _ _ _ _ _ Va Vb H'). unfold msPerDay in Hle. lia.
      * exfalso. apply Hne. reflexivity.
Qed.

Lemma report_rows_strictly_descending_witness :
  Forall (fun inv => wellFormedDate (Invoice.issueDate inv)) Sample.invoices
  /\ map Reports.date
       (Reports.dailyReports
          (Reports.computeDailyAndMonthlyReports Sample.utcMinus5 Sample.invoices))
     = ["2025-04-02"; "2025-03-01"; "2024-12-31"]%string
  /\ StronglySorted (fun a b => monthAfter (Reports.date a) (Reports.date b))
       (Reports.monthlyReports
          (Reports.computeDailyAndMonthlyReports Sample.utcMinus5 Sample.invoices)).
Proof.
  assert (Hwf : Forall (fun inv => wellFormedDate (Invoice.issueDate inv)) Sample.invoices).
  { unfold Sample.invoices.
    repeat (apply Forall_cons;
            [unfold wellFormedDate; do 3 eexists;
             split; [vm_compute; reflexivity | lia] | ]).
    apply Forall_nil. }
  split; [exact Hwf|]. split; [reflexivity|].
  exact (proj2 (report_rows_strictly_descending Sample.utcMinus5 Sample.invoices Hwf)).
Defined.

(** The worked example: three invoices on two days of two months. *)
Example reports_of_three_invoices :
  let reports := Reports.computeDailyAndMonthlyReports Sample.utcMinus5
                   (firstn 3 Sample.invoices) in
  map (fun r => (Reports.date r, Reports.invoiceCount (Reports.item r),
                 Reports.uniqueCustomers r))
      (Reports.dailyReports reports)
    = [("2025-04-02"%string, 1, 1); ("2025-03-01"%string, 2, 2)]
  /\ map (fun r => (Reports.date r, Reports.invoiceCount (Reports.item r),
                    Reports.uniqueCustomers r))
        (Reports.monthlyReports reports)
      = [("2025-04"%string, 1, 1); ("2025-03"%string, 2, 2)].
Proof. split; reflexivity. Qed.

(** C2 fails on the code: [CustomerStatsDashboard] parses the date-only
    string with [new Date(Invoice.issueDate)], which is UTC midnight, and reads it
    back with the local getters.  Five hours behind UTC the invoice of
    1 March is counted in February and the invoice of 1 January in the
    previous year, while at UTC both are counted in their own month and
    year; [ReportsDashboard] appends ['T00:00:00'] and keeps 1 March in
    March. *)
Theorem customer_counts_depend_on_time_zone :
  CustomerStats.computeCustomerCounts Sample.utcMinus5 Sample.midMarch
    [Sample.marchFirst; Sample.newYearsDay]
  = {| CustomerStats.today := 0; CustomerStats.thisMonth := 0;
       CustomerStats.thisYear := 1 |}
  /\ CustomerStats.computeCustomerCounts 0 Sample.midMarch
       [Sample.marchFirst; Sample.newYearsDay]
     = {| CustomerStats.today := 0; CustomerStats.thisMonth := 1;
          CustomerStats.thisYear := 2 |}
  /\ Reports.monthKey Sample.utcMinus5 Sample.marchFirst = "2025-03"%string.
Proof. repeat split; vm_compute; reflexivity. Qed.

(** ** More on the report rows *)

Section MapGet.

Context {V : Type}.
Implicit Types (m : StringMap.t V) (k : string).

Lemma get_update k k' (f : V -> V) m :
  StringMap.get k (StringMap.update k' f m) =
  if String.eqb k k' then option_map f (StringMap.get k m) else StringMap.get k m.
Proof.
  induction m as [|[k0 v] m IH]; cbn.
  - destruct (String.eqb k k'); reflexivity.
  - destruct (String.eqb_spec k' k0) as [->|Hne]; cbn.
    + destruct (String.eqb_spec k k0) as [->|Hk]; cbn; reflexivity.
    + destruct (String.eqb_spec k k0) as [->|Hk]; cbn.
      * destruct (String.eqb_spec k0 k') as [E|_]; [congruence | reflexivity].
      * exact IH.
Qed.

Lemma get_app_absent k k' (v : V) m :
  StringMap.has k' m = false ->
  StringMap.get k (m ++ [(k', v)]) =
  if String.eqb k k' then Some v else StringMap.get k m.
Proof.
  induction m as [|[k0 v0] m IH]; cbn; [reflexivity|].
  destruct (String.eqb_spec k' k0) as [->|Hne]; cbn; [discriminate|].
  intros H. destruct (String.eqb_spec k k0) as [->|Hk].
  - destruct (String.eqb_spec k0 k') as [E|_]; [congruence | reflexivity].
  - exact (IH H).
Qed.

Lemma get_absent k m : StringMap.has k m = false -> StringMap.get k m = None.
Proof.
  induction m as [|[k0 v0] m IH]; cbn; [reflexivity|].
  destruct (String.eqb k k0); cbn; [discriminate | exact IH].
Qed.

Lemma get_In k (v : V) m :
  NoDup (map fst m) -> In (k, v) m -> StringMap.get k m = Some v.
Proof.
  induction m as [|[k0 v0] m IH]; cbn; [contradiction|].
  intros Hn [E|Hin].
  - injection E as -> ->. rewrite String.eqb_refl. reflexivity.
  - inversion Hn as [|? ? Hk0 Hm]; subst.
    destruct (String.eqb_spec k k0) as [->|_].
    + exfalso. apply Hk0. apply (in_map fst) in Hin. exact Hin.
    + exact (IH Hm Hin).
Qed.

End MapGet.

(** One invoice changes the item of its own period only. *)
Lemma itemOf_accumulate (k k' : string) (inv : Invoice.t)
    (m : StringMap.t Reports.ReportItem) :
  itemOf k (Reports.accumulate k' inv m) =
  if String.eqb k k' then Reports.record inv (itemOf k m) else itemOf k m.
Proof.
  unfold itemOf, Reports.accumulate.
  destruct (StringMap.has k' m) eqn:H; cbn [negb].
  - rewrite get_update. destruct (String.eqb_spec k k') as [->|_]; [|reflexivity].
    destruct (StringMap.get k' m) eqn:G; [reflexivity|].
    apply has_In in H. exfalso.
    clear - H G. induction m as [|[k0 v0] m IH]; cbn in *; [contradiction|].
    destruct (String.eqb_spec k' k0) as [->|Hne]; [discriminate|].
    destruct H as [E|H]; [congruence | exact (IH H G)].
  - rewrite (set_absent k' _ m H), get_update, (get_app_absent k k' _ m H).
    destruct (String.eqb_spec k k') as [->|_]; [|reflexivity].
    rewrite (get_absent k' m H). reflexivity.
Qed.

Section Grouping.

Variable key : Invoice.t -> string.

Lemma itemOf_fold (invoices : list Invoice.t) :
  forall (m : StringMap.t Reports.ReportItem) (k : string),
    itemOf k (fold_left (fun acc inv => Reports.accumulate (key inv) inv acc)
                invoices m)
    = fold_left (fun r inv => Reports.record inv r) (invoicesOf key k invoices)
        (itemOf k m).
Proof.
  induction invoices as [|inv l IH]; intros m k; [reflexivity|].
  cbn [fold_left]. rewrite IH, itemOf_accumulate.
  unfold invoicesOf. cbn [filter].
  rewrite (String.eqb_sym (key inv) k).
  destruct (String.eqb k (key inv)); reflexivity.
Qed.

End Grouping.

Lemma invoiceCount_records (l : list Invoice.t) :
  forall r, Reports.invoiceCount (fold_left (fun r inv => Reports.record inv r) l r)
            = Reports.invoiceCount r + Z.of_nat (List.length l).
Proof.
  induction l as [|inv l IH]; intros r; cbn [fold_left List.length]; [lia|].
  rewrite IH. cbn [Reports.record Reports.invoiceCount]. lia.
Qed.

Lemma customers_records (l : list Invoice.t) :
  forall r, Reports.customers (fold_left (fun r inv => Reports.record inv r) l r)
            = fold_left (fun s n => StringSet.add n s) (billedNames l)
                (Reports.customers r).
Proof.
  induction l as [|inv l IH]; intros r; cbn [fold_left billedNames map]; [reflexivity|].
  rewrite IH. reflexivity.
Qed.

Lemma StringSet_has_In (x : string) (s : StringSet.t) :
  StringSet.has x s = true <-> In x s.
Proof.
  unfold StringSet.has. rewrite existsb_exists. split.
  - intros (y & Hy & E). apply String.eqb_eq in E. subst y. exact Hy.
  - intros H. exists x. split; [exact H | apply String.eqb_refl].
Qed.

(** Adding to a set keeps it free of duplicates, and adds at most one. *)
Lemma StringSet_adds (names : list string) :
  forall s, NoDup s ->
    let s' := fold_left (fun s n => StringSet.add n s) names s in
    NoDup s'
    /\ (forall x, In x s' <-> In x s \/ In x names)
    /\ (List.length s' <= List.length s + List.length names)%nat
    /\ (NoDup names -> (forall x, In x names -> ~ In x s) ->
        List.length s' = (List.length s + List.length names)%nat).
Proof.
  induction names as [|n names IH]; intros s Hs; cbn [fold_left List.length].
  - repeat split; auto; try lia. intros [H|[]]; exact H.
  - assert (Hadd : NoDup (StringSet.add n s)
                   /\ (forall x, In x (StringSet.add n s) <-> In x s \/ x = n)
                   /\ (List.length (StringSet.add n s) <= S (List.length s))%nat
                   /\ (~ In n s -> List.length (StringSet.add n s) = S (List.length s))).
    { unfold StringSet.add. destruct (StringSet.has n s) eqn:Hn.
      - apply StringSet_has_In in Hn. repeat split; auto; try lia.
        + intros [H| ->]; assumption.
        + intros H. contradiction.
      - assert (Hnot : ~ In n s).
        { intros H. apply StringSet_has_In in H. congruence. }
        repeat split.
        + apply NoDup_app; [exact Hs | repeat constructor; intros [] |].
          intros x Hx [<-|[]]. exact (Hnot Hx).
        + intros H. apply in_app_or in H. destruct H as [H|[<-|[]]]; auto.
        + intros [H| ->]; apply in_or_app; [left; exact H | right; left; reflexivity].
        + rewrite length_app. cbn. lia.
        + intros _. rewrite length_app. cbn. lia. }
    destruct Hadd as (A1 & A2 & A3 & A4).
    destruct (IH (StringSet.add n s) A1) as (I1 & I2 & I3 & I4).
    cbv zeta in *. repeat split.
    + exact I1.
    + intros H. apply I2 in H. destruct H as [H|H]; [|right; right; exact H].
      apply A2 in H. destruct H as [H| ->]; [left; exact H | right; left; reflexivity].
    + intros [H|[<-|H]]; apply I2.
      * left. apply A2. left. exact H.
      * left. apply A2. right. reflexivity.
      * right. exact H.
    + lia.
    + intros Hnd Hfresh. inversion Hnd as [|? ? Hn Hnames]; subst.
      rewrite I4.
      * rewrite A4; [lia|]. apply Hfresh. left. reflexivity.
      * exact Hnames.
      * intros x Hx Hin. apply A2 in Hin. destruct Hin as [Hin| ->].
        -- exact (Hfresh x (or_intror Hx) Hin).
        -- exact (Hn Hx).
Qed.

Section Rows.

Variable key : Invoice.t -> string.
Variable compare : Reports.ReportRow -> Reports.ReportRow -> option Z.

(** A row of a grouping holds the fold of [record] over the invoices of
    its period, which are not none. *)
Lemma row_of_grouping (invoices : list Invoice.t) (r : Reports.ReportRow) :
  In r (JsArray.sort compare
          (map Reports.toRow
             (StringMap.entries
                (fold_left (fun acc inv => Reports.accumulate (key inv) inv acc)
                   invoices [])))) ->
  Reports.item r
    = fold_left (fun it inv => Reports.record inv it)
        (invoicesOf key (Reports.date r) invoices) Reports.newItem
  /\ Reports.uniqueCustomers r = StringSet.size (Reports.customers (Reports.item r))
  /\ invoicesOf key (Reports.date r) invoices <> [].
Proof.
  intros Hr. apply (Permutation_in _ (sort_Permutation _ _)) in Hr.
  unfold StringMap.entries in Hr. apply in_map_iff in Hr.
  destruct Hr as ([k v] & <- & He). cbn [Reports.toRow Reports.date Reports.item
                                          Reports.uniqueCustomers fst snd].
  set (m := fold_left (fun acc inv => Reports.accumulate (key inv) inv acc)
              invoices []) in *.
  assert (Hn : NoDup (map fst m)).
  { apply (keys_fold_NoDup key invoices []). constructor. }
  pose proof (get_In k v m Hn He) as Hg.
  pose proof (itemOf_fold key invoices [] k) as Hf.
  fold m in Hf. unfold itemOf at 1 in Hf. rewrite Hg in Hf.
  split; [exact Hf|]. split; [reflexivity|].
  assert (Hk : In k (map fst m)) by (apply (in_map fst) in He; exact He).
  apply (keys_fold_In key) in Hk. destruct Hk as [[]|Hk].
  apply in_map_iff in Hk. destruct Hk as (inv & E & Hin).
  intros Hempty.
  assert (Hin' : In inv (invoicesOf key k invoices)).
  { unfold invoicesOf. apply filter_In. split; [exact Hin|].
    rewrite E. apply String.eqb_refl. }
  rewrite Hempty in Hin'. exact Hin'.
Qed.

(** Every invoice is in the row of its period, and no period has two rows. *)
Lemma rows_cover (invoices : list Invoice.t) :
  let rows := JsArray.sort compare
                (map Reports.toRow
                   (StringMap.entries
                      (fold_left
                         (fun acc inv => Reports.accumulate (key inv) inv acc)
                         invoices []))) in
  NoDup (map Reports.date rows)
  /\ (forall inv, In inv invoices -> In (key inv) (map Reports.date rows)).
Proof.
  cbv zeta. unfold StringMap.entries.
  set (m := fold_left (fun acc inv => Reports.accumulate (key inv) inv acc)
              invoices []).
  assert (Hperm : Permutation (map Reports.date (map Reports.toRow m))
                    (map Reports.date (JsArray.sort compare (map Reports.toRow m)))).
  { apply Permutation_map, Permutation_sym, sort_Permutation. }
  assert (Hkeys : map Reports.date (map Reports.toRow m) = map fst m).
  { rewrite map_map. reflexivity. }
  split.
  - apply (Permutation_NoDup Hperm). rewrite Hkeys.
    apply (keys_fold_NoDup key invoices []). constructor.
  - intros inv Hin. apply (Permutation_in _ Hperm). rewrite Hkeys.
    apply has_In.
    pose proof (itemOf_fold key invoices [] (key inv)) as Hf. fold m in Hf.
    destruct (StringMap.has (key inv) m) eqn:Hh; [reflexivity|].
    unfold itemOf in Hf at 1. rewrite (get_absent _ _ Hh) in Hf.
    apply (f_equal Reports.invoiceCount) in Hf.
    rewrite invoiceCount_records in Hf. cbn in Hf.
    assert (Hin' : In inv (invoicesOf key (key inv) invoices)).
    { unfold invoicesOf. apply filter_In. split; [exact Hin | apply String.eqb_refl]. }
    destruct (invoicesOf key (key inv) invoices); [contradiction|].
    cbn [List.length] in Hf. lia.
Qed.

End Rows.

(** X1. The invoice counts of the monthly rows add up to the number of
    invoices as well, whatever the dates and the time zone. *)
Theorem monthly_counts_sum_to_total :
  forall (tza : TimeZone) (invoices : list Invoice.t),
    totalCount (Reports.monthlyReports
                  (Reports.computeDailyAndMonthlyReports tza invoices))
    = Z.of_nat (List.length invoices).
Proof.
  intros tza invoices. unfold Reports.computeDailyAndMonthlyReports.
  cbn [Reports.monthlyReports].
  rewrite (totalCount_Permutation _ _ (sort_Permutation _ _)).
  rewrite totalCount_rows, fold_step. cbn [snd].
  rewrite entryCount_fold. reflexivity.
Qed.

Lemma sample_dates_wellFormed :
  Forall (fun inv => wellFormedDate (Invoice.issueDate inv)) Sample.invoices.
Proof.
  unfold Sample.invoices.
  repeat (apply Forall_cons;
          [unfold wellFormedDate; do 3 eexists;
           split; [vm_compute; reflexivity | lia] | ]).
  apply Forall_nil.
Defined.

(** X2. The daily rows are the groups by issue date: every invoice has a
    row with its issue date, no date has two rows, and the count of a row
    is the number of invoices issued on its date (at least one).  The
    monthly rows are the groups by month key in the same way. *)
Theorem report_rows_group_the_invoices :
  forall (tza : TimeZone) (invoices : list Invoice.t),
    let reports := Reports.computeDailyAndMonthlyReports tza invoices in
    let daily := Reports.dailyReports reports in
    let monthly := Reports.monthlyReports reports in
    NoDup (map Reports.date daily)
    /\ NoDup (map Reports.date monthly)
    /\ (forall inv, In inv invoices ->
          In (Invoice.issueDate inv) (map Reports.date daily)
          /\ In (Reports.monthKey tza inv) (map Reports.date monthly))
    /\ (forall r, In r daily ->
          1 <= Reports.invoiceCount (Reports.item r)
          /\ Reports.invoiceCount (Reports.item r)
             = Z.of_nat (List.length
                           (invoicesOf Invoice.issueDate (Reports.date r) invoices)))
    /\ (forall r, In r monthly ->
          1 <= Reports.invoiceCount (Reports.item r)
          /\ Reports.invoiceCount (Reports.item r)
             = Z.of_nat (List.length
                           (invoicesOf (Reports.monthKey tza) (Reports.date r)
                              invoices))).
Proof.
  intros tza invoices. cbv zeta.
  unfold Reports.computeDailyAndMonthlyReports.
  cbn [Reports.dailyReports Reports.monthlyReports].
  rewrite fold_step. cbn [fst snd].
  destruct (rows_cover Invoice.issueDate (Reports.compareDaily tza) invoices)
    as [Dn Dc].
  destruct (rows_cover (Reports.monthKey tza) (Reports.compareMonthly tza) invoices)
    as [Mn Mc].
  assert (Hcount : forall key compare r,
    In r (JsArray.sort compare
            (map Reports.toRow
               (StringMap.entries
                  (fold_left (fun acc inv => Reports.accumulate (key inv) inv acc)
                     invoices [])))) ->
    1 <= Reports.invoiceCount (Reports.item r)
    /\ Reports.invoiceCount (Reports.item r)
       = Z.of_nat (List.length (invoicesOf key (Reports.date r) invoices))).
  { intros key compare r Hr.
    destruct (row_of_grouping key compare invoices r Hr) as (Hi & _ & Hne).
    rewrite Hi, invoiceCount_records. cbn [Reports.newItem Reports.invoiceCount].
    destruct (invoicesOf key (Reports.date r) invoices); [contradiction|].
    cbn [List.length]. lia. }
  repeat split.
  - exact Dn.
  - exact Mn.
  - exact (Dc inv H).
  - exact (Mc inv H).
  - exact (proj1 (Hcount _ _ r H)).
  - exact (proj2 (Hcount _ _ r H)).
  - exact (proj1 (Hcount _ _ r H)).
  - exact (proj2 (Hcount _ _ r H)).
Qed.

Lemma report_rows_group_the_invoices_witness :
  In (Sample.invoice "2024-12-31" "C" []) Sample.invoices
  /\ In "2024-12-31"%string
       (map Reports.date
          (Reports.dailyReports
             (Reports.computeDailyAndMonthlyReports 0 Sample.invoices)))
  /\ In SampleReport.marchRow
       (Reports.dailyReports
          (Reports.computeDailyAndMonthlyReports 0 Sample.invoices))
  /\ Reports.invoiceCount (Reports.item SampleReport.marchRow) = 2.
Proof.
  assert (Hin : In (Sample.invoice "2024-12-31" "C" []) Sample.invoices)
    by (vm_compute; tauto).
  assert (Hrow : In SampleReport.marchRow
                   (Reports.dailyReports
                      (Reports.computeDailyAndMonthlyReports 0 Sample.invoices)))
    by (vm_compute; tauto).
  destruct (report_rows_group_the_invoices 0 Sample.invoices)
    as (_ & _ & Hcover & Hdaily & _).
  split; [exact Hin|]. split; [exact (proj1 (Hcover _ Hin))|].
  split; [exact Hrow|].
  rewrite (proj2 (Hdaily _ Hrow)). reflexivity.
Defined.

(** X3. The unique-customer figure of a row, daily or monthly, is the
    number of different [billTo.name] strings among the invoices of its
    period: between one and the invoice count, and equal to the count when
    no two invoices of the period share a name. *)
Theorem unique_customers_count_distinct_names :
  forall (tza : TimeZone) (invoices : list Invoice.t) (r : Reports.ReportRow),
    let reports := Reports.computeDailyAndMonthlyReports tza invoices in
    forall period : list Invoice.t,
      (In r (Reports.dailyReports reports)
       /\ period = invoicesOf Invoice.issueDate (Reports.date r) invoices)
      \/ (In r (Reports.monthlyReports reports)
          /\ period = invoicesOf (Reports.monthKey tza) (Reports.date r) invoices) ->
      let names := Reports.customers (Reports.item r) in
      NoDup names
      /\ (forall n, In n names <-> In n (billedNames period))
      /\ Reports.uniqueCustomers r = Z.of_nat (List.length names)
      /\ 1 <= Reports.uniqueCustomers r <= Reports.invoiceCount (Reports.item r)
      /\ (NoDup (billedNames period) ->
          Reports.uniqueCustomers r = Reports.invoiceCount (Reports.item r)).
Proof.
  intros tza invoices r reports period Hr names. subst reports names.
  unfold Reports.computeDailyAndMonthlyReports in Hr.
  cbn [Reports.dailyReports Reports.monthlyReports] in Hr.
  rewrite fold_step in Hr. cbn [fst snd] in Hr.
  assert (H : Reports.item r
              = fold_left (fun it inv => Reports.record inv it) period Reports.newItem
              /\ Reports.uniqueCustomers r
                 = StringSet.size (Reports.customers (Reports.item r))
              /\ period <> []).
  { destruct Hr as [[Hr ->]|[Hr ->]].
    - exact (row_of_grouping _ _ invoices r Hr).
    - exact (row_of_grouping _ _ invoices r Hr). }
  clear Hr. destruct H as (Hi & Hu & Hne).
  rewrite Hu, Hi, customers_records, invoiceCount_records.
  cbn [Reports.newItem Reports.customers Reports.invoiceCount].
  destruct (StringSet_adds (billedNames period) StringSet.empty (NoDup_nil _))
    as (S1 & S2 & S3 & S4).
  cbv zeta in *. unfold StringSet.size, StringSet.empty in *.
  assert (Hlen : List.length (billedNames period) = List.length period)
    by (unfold billedNames; apply length_map).
  repeat split.
  - exact S1.
  - intros H. apply S2 in H. destruct H as [[]|H]. exact H.
  - intros H. apply S2. right. exact H.
  - destruct period as [|inv period]; [contradiction|].
    assert (Hin : In (Customer.name (Invoice.billTo inv))
                    (fold_left (fun s n => StringSet.add n s)
                       (billedNames (inv :: period)) [])).
    { apply S2. right. left. reflexivity. }
    revert Hin.
    generalize (fold_left (fun s n => StringSet.add n s)
                  (billedNames (inv :: period)) []).
    intros [|x l] Hin; [contradiction|]. cbn [List.length]. lia.
  - cbn [List.length] in S3. lia.
  - intros Hnd. rewrite S4; [cbn [List.length]; lia | exact Hnd |].
    intros x _ [].
Qed.

Lemma unique_customers_count_distinct_names_witness :
  In SampleReport.marchRow
    (Reports.dailyReports
       (Reports.computeDailyAndMonthlyReports 0 Sample.invoices))
  /\ NoDup (billedNames
              (invoicesOf Invoice.issueDate "2025-03-01" Sample.invoices))
  /\ Reports.uniqueCustomers SampleReport.marchRow
     = Reports.invoiceCount (Reports.item SampleReport.marchRow).
Proof.
  assert (Hrow : In SampleReport.marchRow
                   (Reports.dailyReports
                      (Reports.computeDailyAndMonthlyReports 0 Sample.invoices)))
    by (vm_compute; tauto).
  assert (Hnd : NoDup (billedNames
                         (invoicesOf Invoice.issueDate "2025-03-01"
                            Sample.invoices))).
  { vm_compute. repeat constructor; cbn; intuition discriminate. }
  split; [exact Hrow|]. split; [exact Hnd|].
  destruct (unique_customers_count_distinct_names 0 Sample.invoices
              SampleReport.marchRow
              (invoicesOf Invoice.issueDate "2025-03-01" Sample.invoices)
              (or_introl (conj Hrow eq_refl)))
    as (_ & _ & _ & _ & H).
  exact (H Hnd).
Defined.

(** ** Independence of the time zone *)

Lemma parseYearMonth_shape (s : string) (y m : Z) :
  parseYearMonth s = Some (y, m) ->
  exists y1 y2 y3 y4 m1 m2,
    s = String y1 (String y2 (String y3 (String y4 (String "-"
          (String m1 (String m2 EmptyString))))))
    /\ digits4 y1 y2 y3 y4 = Some y /\ digits2 m1 m2 = Some m.
Proof.
  unfold parseYearMonth.
  destruct s as [|y1 s]; [discriminate|]. destruct s as [|y2 s]; [discriminate|].
  destruct s as [|y3 s]; [discriminate|]. destruct s as [|y4 s]; [discriminate|].
  destruct s as [|s1 s]; [discriminate|]. destruct s as [|m1 s]; [discriminate|].
  destruct s as [|m2 s]; [discriminate|]. destruct s as [|extra s]; [|discriminate].
  cbn [list_ascii_of_string].
  destruct (digits4 y1 y2 y3 y4) as [y'|] eqn:Ey; [|discriminate].
  destruct (digits2 m1 m2) as [m'|] eqn:Em; [|discriminate].
  destruct (isDash s1) eqn:E1; [|discriminate].
  destruct ((1 <=? m') && (m' <=? 12)) eqn:Er;
    [|rewrite <- andb_assoc, Er in *; discriminate].
  rewrite <- andb_assoc, Er. cbn [andb]. intros E. injection E as -> ->.
  apply isDash_eq in E1. subst s1.
  exists y1, y2, y3, y4, m1, m2. repeat split; assumption.
Qed.

Lemma parseYearMonth_inj (s s' : string) (v : Z * Z) :
  parseYearMonth s = Some v -> parseYearMonth s' = Some v -> s = s'.
Proof.
  destruct v as [y m]. intros H H'.
  destruct (parseYearMonth_shape _ _ _ H)
    as (y1 & y2 & y3 & y4 & m1 & m2 & -> & Hy & Hm).
  destruct (parseYearMonth_shape _ _ _ H')
    as (y1' & y2' & y3' & y4' & m1' & m2' & -> & Hy' & Hm').
  destruct (digits4_inj _ _ _ _ _ _ _ _ _ Hy Hy') as (-> & -> & -> & ->).
  destruct (digits2_inj _ _ _ _ _ Hm Hm') as (-> & ->).
  reflexivity.
Qed.

Lemma monthKey_prefix (tza : TimeZone) (inv : Invoice.t) :
  wellFormedDate (Invoice.issueDate inv) ->
  Reports.monthKey tza inv = substring 0 7 (Invoice.issueDate inv).
Proof.
  intros (y & m & d & Hp & Hy).
  rewrite (monthKey_of_date tza inv y m d Hp).
  pose proof (parseISODate_valid _ _ _ _ Hp) as Hv.
  pose proof (validDate_bounds _ _ _ Hv) as (By & Bm & _).
  destruct (monthKeyOf_reads_back y m ltac:(lia) Bm) as (Hk & _ & _).
  apply (parseYearMonth_inj _ _ (y, m) Hk).
  destruct (parseISODate_shape _ _ _ _ Hp)
    as (y1 & y2 & y3 & y4 & m1 & m2 & d1 & d2 & E & Dy & Dm & _ & _).
  rewrite E. cbn [substring]. unfold parseYearMonth. cbn [list_ascii_of_string].
  rewrite Dy, Dm.
  replace (isDash "-") with true by reflexivity.
  replace (1 <=? m) with true by (symmetry; apply Z.leb_le; lia).
  replace (m <=? 12) with true by (symmetry; apply Z.leb_le; lia).
  reflexivity.
Qed.

(** X4. For a well-formed issue date the month key is its first seven
    characters, [YYYY-MM], in every time zone. *)
Theorem monthKey_is_the_date_prefix :
  forall (tza : TimeZone) (inv : Invoice.t),
    wellFormedDate (Invoice.issueDate inv) ->
    Reports.monthKey tza inv = substring 0 7 (Invoice.issueDate inv).
Proof. intros tza inv H. exact (monthKey_prefix tza inv H). Qed.

Lemma monthKey_is_the_date_prefix_witness :
  wellFormedDate (Invoice.issueDate Sample.marchFirst)
  /\ Reports.monthKey Sample.utcMinus5 Sample.marchFirst = "2025-03"%string.
Proof.
  assert (Hwf : wellFormedDate (Invoice.issueDate Sample.marchFirst)).
  { exists 2025, 3, 1. split; [reflexivity | lia]. }
  split; [exact Hwf|].
  rewrite (monthKey_is_the_date_prefix Sample.utcMinus5 Sample.marchFirst Hwf).
  reflexivity.
Defined.

Section SortExt.

Context {A : Type} (c1 c2 : A -> A -> option Z).

Lemma insert_ext (x : A) (l : list A) :
  (forall y, In y l -> c1 x y = c2 x y) ->
  JsArray.insert c1 x l = JsArray.insert c2 x l.
Proof.
  induction l as [|y l IH]; intros H; cbn; [reflexivity|].
  unfold JsArray.compareValue. rewrite (H y) by (left; reflexivity).
  rewrite IH by (intros z Hz; apply H; right; exact Hz). reflexivity.
Qed.

(** Comparators that agree on the elements of a list sort it alike. *)
Lemma sort_ext (l : list A) :
  (forall x y, In x l -> In y l -> c1 x y = c2 x y) ->
  JsArray.sort c1 l = JsArray.sort c2 l.
Proof.
  unfold JsArray.sort. intros H.
  assert (G : forall acc,
    (forall x, In x acc -> In x l) -> forall l',
    (forall x, In x l' -> In x l) ->
    fold_left (fun acc x => JsArray.insert c1 x acc) l' acc
    = fold_left (fun acc x => JsArray.insert c2 x acc) l' acc).
  { intros acc Hacc l'. revert acc Hacc.
    induction l' as [|x l' IH]; intros acc Hacc Hl'; cbn; [reflexivity|].
    rewrite (insert_ext x acc)
      by (intros y Hy; apply H; [apply Hl'; left; reflexivity | exact (Hacc y Hy)]).
    apply IH.
    - intros z Hz. apply (Permutation_in _ (insert_Permutation c2 x acc)) in Hz.
      destruct Hz as [<-|Hz]; [apply Hl'; left; reflexivity | exact (Hacc z Hz)].
    - intros z Hz. apply Hl'. right. exact Hz. }
  apply G; [intros x [] | auto].
Qed.

End SortExt.

Lemma fold_accumulate_ext (key key' : Invoice.t -> string) (invoices : list Invoice.t) :
  (forall inv, In inv invoices -> key inv = key' inv) ->
  forall m,
    fold_left (fun acc inv => Reports.accumulate (key inv) inv acc) invoices m
    = fold_left (fun acc inv => Reports.accumulate (key' inv) inv acc) invoices m.
Proof.
  induction invoices as [|inv l IH]; intros H m; [reflexivity|].
  cbn [fold_left]. rewrite (H inv) by (left; reflexivity).
  apply IH. intros x Hx. apply H. right. exact Hx.
Qed.

(** X5. For invoices with well-formed issue dates the whole report, rows,
    figures and order, is the same in every time zone. *)
Theorem reports_do_not_depend_on_time_zone :
  forall (tza tza' : TimeZone) (invoices : list Invoice.t),
    Forall (fun inv => wellFormedDate (Invoice.issueDate inv)) invoices ->
    Reports.computeDailyAndMonthlyReports tza invoices
    = Reports.computeDailyAndMonthlyReports tza' invoices.
Proof.
  intros tza tza' invoices Hwf. rewrite Forall_forall in Hwf.
  unfold Reports.computeDailyAndMonthlyReports. rewrite !fold_step. cbn [fst snd].
  assert (Hkey : forall inv, In inv invoices ->
                   Reports.monthKey tza inv = Reports.monthKey tza' inv).
  { intros inv Hin.
    rewrite !monthKey_prefix by (apply Hwf; exact Hin). reflexivity. }
  rewrite (fold_accumulate_ext _ _ invoices Hkey []).
  unfold StringMap.entries. f_equal.
  - apply sort_ext. intros a b Ha Hb.
    assert (Hrow : forall r,
      In r (map Reports.toRow
              (fold_left
                 (fun acc inv => Reports.accumulate (Invoice.issueDate inv) inv acc)
                 invoices [])) ->
      Date_parse tza (Reports.date r) = Date_parse tza' (Reports.date r)).
    { intros r Hr. apply in_map_iff in Hr. destruct Hr as (e & <- & He).
      assert (Hk : In (fst e) (map fst (fold_left
                 (fun acc inv => Reports.accumulate (Invoice.issueDate inv) inv acc)
                 invoices []))) by (apply in_map; exact He).
      apply (keys_fold_In Invoice.issueDate) in Hk. destruct Hk as [[]|Hk].
      apply in_map_iff in Hk. destruct Hk as (inv & Hd & Hinv).
      destruct (Hwf inv Hinv) as (y & mo & d & Hp & _).
      cbn [Reports.toRow Reports.date]. rewrite <- Hd.
      rewrite !(Date_parse_date _ _ _ _ _ Hp). reflexivity. }
    unfold Reports.compareDaily. rewrite (Hrow a Ha), (Hrow b Hb). reflexivity.
  - apply sort_ext. intros a b Ha Hb.
    assert (Hrow : forall r,
      In r (map Reports.toRow
              (fold_left
                 (fun acc inv => Reports.accumulate (Reports.monthKey tza' inv) inv acc)
                 invoices [])) ->
      Date_parse tza (Reports.date r ++ "-01")
      = Date_parse tza' (Reports.date r ++ "-01")).
    { intros r Hr. apply in_map_iff in Hr. destruct Hr as (e & <- & He).
      assert (Hk : In (fst e) (map fst (fold_left
                 (fun acc inv => Reports.accumulate (Reports.monthKey tza' inv) inv acc)
                 invoices []))) by (apply in_map; exact He).
      apply (keys_fold_In (Reports.monthKey tza')) in Hk. destruct Hk as [[]|Hk].
      apply in_map_iff in Hk. destruct Hk as (inv & Hd & Hinv).
      destruct (Hwf inv Hinv) as (y & mo & d & Hp & Hy).
      pose proof (validDate_bounds _ _ _ (parseISODate_valid _ _ _ _ Hp))
        as (By & Bm & _).
      destruct (monthKeyOf_reads_back y mo ltac:(lia) Bm) as (_ & Hd1 & _).
      cbn [Reports.toRow Reports.date]. rewrite <- Hd.
      rewrite (monthKey_of_date tza' inv y mo d Hp).
      rewrite !(Date_parse_date _ _ _ _ _ Hd1). reflexivity. }
    unfold Reports.compareMonthly. rewrite (Hrow a Ha), (Hrow b Hb). reflexivity.
Qed.

Lemma reports_do_not_depend_on_time_zone_witness :
  Forall (fun inv => wellFormedDate (Invoice.issueDate inv)) Sample.invoices
  /\ Reports.computeDailyAndMonthlyReports Sample.utcMinus5 Sample.invoices
     = Reports.computeDailyAndMonthlyReports SampleReport.utcPlus1 Sample.invoices.
Proof.
  split; [exact sample_dates_wellFormed|].
  exact (reports_do_not_depend_on_time_zone Sample.utcMinus5 SampleReport.utcPlus1
           Sample.invoices sample_dates_wellFormed).
Defined.

(** ** More on the customer counts *)

(** The three sets after the loop, each the distinct names of the
    invoices that pass its test. *)
Lemma customerSets_fold (tza : TimeZone) (now : Z) (invoices : list Invoice.t) :
  forall acc,
    let out := fold_left (CustomerStats.step tza now) invoices acc in
    CustomerStats.dailyCustomers out
    = fold_left (fun s n => StringSet.add n s)
        (billedNames
           (filter (fun inv => String.eqb (Invoice.issueDate inv) (toISODateString now))
              invoices))
        (CustomerStats.dailyCustomers acc)
    /\ CustomerStats.monthlyCustomers out
       = fold_left (fun s n => StringSet.add n s)
           (billedNames
              (filter
                 (fun inv =>
                    CustomerStats.number_eq
                      (getFullYear tza (Date_parse tza (Invoice.issueDate inv)))
                      (getFullYear tza (Some now))
                    && CustomerStats.number_eq
                         (getMonth tza (Date_parse tza (Invoice.issueDate inv)))
                         (getMonth tza (Some now)))
                 invoices))
           (CustomerStats.monthlyCustomers acc)
    /\ CustomerStats.yearlyCustomers out
       = fold_left (fun s n => StringSet.add n s)
           (billedNames
              (filter
                 (fun inv =>
                    CustomerStats.number_eq
                      (getFullYear tza (Date_parse tza (Invoice.issueDate inv)))
                      (getFullYear tza (Some now)))
                 invoices))
           (CustomerStats.yearlyCustomers acc).
Proof.
  induction invoices as [|inv l IH]; intros acc; [repeat split|].
  cbn [fold_left filter]. cbv zeta in IH.
  destruct (IH (CustomerStats.step tza now acc inv)) as (Hd & Hm & Hy).
  cbv zeta. rewrite Hd, Hm, Hy. clear IH Hd Hm Hy.
  unfold CustomerStats.step.
  cbn [CustomerStats.dailyCustomers CustomerStats.monthlyCustomers
       CustomerStats.yearlyCustomers].
  repeat split.
  - destruct (String.eqb (Invoice.issueDate inv) (toISODateString now)); reflexivity.
  - destruct (CustomerStats.number_eq _ _ && CustomerStats.number_eq _ _); reflexivity.
  - destruct (CustomerStats.number_eq _ _); reflexivity.
Qed.

Lemma filter_length_le {A : Type} (f : A -> bool) (l : list A) :
  (List.length (filter f l) <= List.length l)%nat.
Proof.
  induction l as [|x l IH]; cbn; [lia|]. destruct (f x); cbn; lia.
Qed.

(** X6. Whatever the invoices, the instant and the time zone: each of the
    three figures is at most the number of invoices, and this month's
    customers are among this year's, so [thisMonth <= thisYear]. *)
Theorem customer_counts_are_bounded :
  forall (tza : TimeZone) (now : Z) (invoices : list Invoice.t),
    let stats := CustomerStats.computeCustomerCounts tza now invoices in
    0 <= CustomerStats.today stats <= Z.of_nat (List.length invoices)
    /\ 0 <= CustomerStats.thisMonth stats <= CustomerStats.thisYear stats
    /\ CustomerStats.thisYear stats <= Z.of_nat (List.length invoices).
Proof.
  intros tza now invoices. cbv zeta.
  unfold CustomerStats.computeCustomerCounts.
  cbn [CustomerStats.today CustomerStats.thisMonth CustomerStats.thisYear].
  destruct (customerSets_fold tza now invoices
              {| CustomerStats.dailyCustomers := StringSet.empty;
                 CustomerStats.monthlyCustomers := StringSet.empty;
                 CustomerStats.yearlyCustomers := StringSet.empty |})
    as (Hd & Hm & Hy).
  cbv zeta in Hd, Hm, Hy. rewrite Hd, Hm, Hy. clear Hd Hm Hy.
  cbn [CustomerStats.dailyCustomers CustomerStats.monthlyCustomers
       CustomerStats.yearlyCustomers].
  set (fd := fun inv => String.eqb (Invoice.issueDate inv) (toISODateString now)).
  set (fm := fun inv =>
               CustomerStats.number_eq
                 (getFullYear tza (Date_parse tza (Invoice.issueDate inv)))
                 (getFullYear tza (Some now))
               && CustomerStats.number_eq
                    (getMonth tza (Date_parse tza (Invoice.issueDate inv)))
                    (getMonth tza (Some now))).
  set (fy := fun inv =>
               CustomerStats.number_eq
                 (getFullYear tza (Date_parse tza (Invoice.issueDate inv)))
                 (getFullYear tza (Some now))).
  destruct (StringSet_adds (billedNames (filter fd invoices)) StringSet.empty
              (NoDup_nil _)) as (_ & _ & D3 & _).
  destruct (StringSet_adds (billedNames (filter fm invoices)) StringSet.empty
              (NoDup_nil _)) as (M1 & M2 & _ & _).
  destruct (StringSet_adds (billedNames (filter fy invoices)) StringSet.empty
              (NoDup_nil _)) as (Y1 & Y2 & Y3 & _).
  cbv zeta in *. unfold StringSet.size, StringSet.empty in *.
  cbn [List.length] in *.
  assert (Ld : List.length (billedNames (filter fd invoices))
               = List.length (filter fd invoices)) by apply length_map.
  assert (Ly : List.length (billedNames (filter fy invoices))
               = List.length (filter fy invoices)) by apply length_map.
  pose proof (filter_length_le fd invoices).
  pose proof (filter_length_le fy invoices).
  assert (Hsub : (List.length
                    (fold_left (fun s n => StringSet.add n s)
                       (billedNames (filter fm invoices)) [])
                  <= List.length
                       (fold_left (fun s n => StringSet.add n s)
                          (billedNames (filter fy invoices)) []))%nat).
  { apply NoDup_incl_length; [exact M1|].
    intros x Hx. apply M2 in Hx. destruct Hx as [[]|Hx]. apply Y2. right.
    unfold billedNames in Hx |- *. apply in_map_iff in Hx.
    destruct Hx as (inv & <- & Hin).
    apply (in_map (fun inv => Customer.name (Invoice.billTo inv))).
    apply filter_In in Hin. destruct Hin as [Hin Hf].
    apply filter_In. split; [exact Hin|].
    unfold fm in Hf. apply andb_true_iff in Hf. exact (proj1 Hf). }
  lia.
Qed.

Lemma Day_east (n tza : Z) : 0 <= tza < msPerDay -> Day (n * msPerDay + tza) = n.
Proof. unfold Day, msPerDay. intros H. Z.div_mod_to_equations. lia. Qed.

Lemma Day_west (n tza : Z) :
  - msPerDay <= tza < 0 -> Day (n * msPerDay + tza) = n - 1.
Proof. unfold Day, msPerDay. intros H. Z.div_mod_to_equations. lia. Qed.

Lemma validDate_intro (y m d : Z) :
  0 <= y <= 9999 -> 1 <= m <= 12 -> 1 <= d <= DaysInMonth y m ->
  validDate y m d = true.
Proof. intros. unfold validDate. rewrite !andb_true_iff, !Z.leb_le. lia. Qed.

(** The calendar day before a date. *)
Lemma MakeDay_pred (y m d : Z) :
  validDate y m d = true -> 1 <= y ->
  exists y' m' d',
    validDate y' m' d' = true /\ MakeDay y' m' d' = MakeDay y m d - 1
    /\ (2 <= d -> y' = y /\ m' = m)
    /\ (d = 1 -> 2 <= m -> y' = y /\ m' = m - 1)
    /\ (d = 1 -> m = 1 -> y' = y - 1 /\ m' = 12).
Proof.
  intros Hv Hy. pose proof (validDate_bounds _ _ _ Hv) as (By & Bm & Bd).
  destruct (Z.eq_dec d 1) as [->|Hd].
  - destruct (Z.eq_dec m 1) as [->|Hm].
    + exists (y - 1), 12, 31. split; [|split; [|repeat split; lia]].
      * apply validDate_intro; try lia. unfold DaysInMonth.
        destruct (isLeapYear (y - 1)); eval_days; lia.
      * unfold MakeDay.
        pose proof (DayFromYear_succ (y - 1)) as Hs.
        replace (y - 1 + 1) with y in Hs by lia. unfold DaysInYear in Hs.
        destruct (isLeapYear (y - 1)); destruct (isLeapYear y); eval_days; lia.
    + exists y, (m - 1), (DaysInMonth y (m - 1)).
      split; [|split; [|repeat split; lia]].
      * apply validDate_intro; try lia. unfold DaysInMonth.
        destruct (isLeapYear y); month_cases m; try lia; eval_days; lia.
      * unfold MakeDay, DaysInMonth.
        replace (m - 1 + 1) with m by lia. lia.
  - exists y, m, (d - 1). split; [|split; [|repeat split; lia]].
    + apply validDate_intro; lia.
    + unfold MakeDay. lia.
Qed.

(** What the dashboard reads from a well-formed issue date: the date's
    own year and month at or east of UTC; the year and month of the day
    before, west of it. *)
Lemma issue_month_read (tza : TimeZone) (s : string) (y m d : Z) :
  parseISODate s = Some (y, m, d) -> 1 <= y ->
  (0 <= tza < msPerDay ->
   getFullYear tza (Date_parse tza s) = Some y
   /\ getMonth tza (Date_parse tza s) = Some (m - 1))
  /\ (- msPerDay <= tza < 0 ->
      exists y' m' d',
        validDate y' m' d' = true /\ MakeDay y' m' d' = MakeDay y m d - 1
        /\ getFullYear tza (Date_parse tza s) = Some y'
        /\ getMonth tza (Date_parse tza s) = Some (m' - 1)
        /\ (2 <= d -> y' = y /\ m' = m)
        /\ (d = 1 -> 2 <= m -> y' = y /\ m' = m - 1)
        /\ (d = 1 -> m = 1 -> y' = y - 1 /\ m' = 12)).
Proof.
  intros Hp Hy. pose proof (parseISODate_valid _ _ _ _ Hp) as Hv.
  rewrite (Date_parse_date tza _ _ _ _ Hp).
  unfold getFullYear, getMonth, option_map, YearFromTime, MonthFromTime, LocalTime.
  split.
  - intros Hz. rewrite (Day_east _ _ Hz).
    rewrite (YearFromDay_MakeDay _ _ _ Hv), (MonthFromDay_MakeDay _ _ _ Hv). auto.
  - intros Hz. rewrite (Day_west _ _ Hz).
    destruct (MakeDay_pred y m d Hv Hy) as (y' & m' & d' & Hv' & E & H1 & H2 & H3).
    exists y', m', d'. rewrite <- E.
    rewrite (YearFromDay_MakeDay _ _ _ Hv'), (MonthFromDay_MakeDay _ _ _ Hv').
    repeat split; auto; try (apply H1; assumption); try (apply H2; assumption);
      try (apply H3; assumption).
Qed.

(** X7. At or east of UTC (offset from 0 to under 24 hours) the month and
    year figures are right: for invoices with well-formed issue dates,
    [thisMonth] and [thisYear] are the numbers of different names on the
    invoices whose own year and month (resp. year) are those of the
    reference instant in local time. *)
Theorem customer_counts_east_of_utc :
  forall (tza : TimeZone) (now : Z) (invoices : list Invoice.t),
    0 <= tza < msPerDay ->
    Forall (fun inv => wellFormedDate (Invoice.issueDate inv)) invoices ->
    let stats := CustomerStats.computeCustomerCounts tza now invoices in
    let year := YearFromTime (LocalTime tza now) in
    let month := MonthFromTime (LocalTime tza now) + 1 in
    let issuedIn (test : Z -> Z -> bool) :=
      filter (fun inv =>
                match parseISODate (Invoice.issueDate inv) with
                | Some (y, m, _) => test y m
                | None => false
                end) invoices in
    CustomerStats.thisMonth stats
    = StringSet.size
        (fold_left (fun s n => StringSet.add n s)
           (billedNames (issuedIn (fun y m => (y =? year) && (m =? month))))
           StringSet.empty)
    /\ CustomerStats.thisYear stats
       = StringSet.size
           (fold_left (fun s n => StringSet.add n s)
              (billedNames (issuedIn (fun y _ => y =? year)))
              StringSet.empty).
Proof.
  intros tza now invoices Hz Hwf. cbv zeta.
  unfold CustomerStats.computeCustomerCounts.
  cbn [CustomerStats.thisMonth CustomerStats.thisYear].
  destruct (customerSets_fold tza now invoices
              {| CustomerStats.dailyCustomers := StringSet.empty;
                 CustomerStats.monthlyCustomers := StringSet.empty;
                 CustomerStats.yearlyCustomers := StringSet.empty |})
    as (_ & Hm & Hy).
  cbv zeta in Hm, Hy. rewrite Hm, Hy. clear Hm Hy.
  cbn [CustomerStats.monthlyCustomers CustomerStats.yearlyCustomers].
  rewrite Forall_forall in Hwf.
  split; do 3 f_equal; apply filter_ext_in; intros inv Hin;
    destruct (Hwf inv Hin) as (y & m & d & Hp & Hy);
    destruct (issue_month_read tza _ y m d Hp ltac:(lia)) as [He _];
    destruct (He Hz) as [E1 E2]; rewrite ?E1, ?E2, Hp;
    unfold getFullYear, getMonth, option_map, CustomerStats.number_eq.
  - f_equal. destruct (Z.eqb_spec (m - 1) (MonthFromTime (LocalTime tza now)));
      destruct (Z.eqb_spec m (MonthFromTime (LocalTime tza now) + 1)); lia || reflexivity.
  - reflexivity.
Qed.

Lemma customer_counts_east_of_utc_witness :
  0 <= SampleReport.utcPlus1 < msPerDay
  /\ CustomerStats.thisMonth
       (CustomerStats.computeCustomerCounts SampleReport.utcPlus1 Sample.midMarch
          Sample.invoices) = 2
  /\ CustomerStats.thisYear
       (CustomerStats.computeCustomerCounts SampleReport.utcPlus1 Sample.midMarch
          Sample.invoices) = 2.
Proof.
  assert (Hz : 0 <= SampleReport.utcPlus1 < msPerDay) by (unfold SampleReport.utcPlus1, msPerDay; lia).
  split; [exact Hz|].
  destruct (customer_counts_east_of_utc SampleReport.utcPlus1 Sample.midMarch
              Sample.invoices Hz sample_dates_wellFormed) as [Hm Hy].
  split; [rewrite Hm | rewrite Hy]; reflexivity.
Defined.

(** X8. West of UTC (offset of up to 24 hours behind) an invoice dated on
    the first day of a month is read as of the month before, and one dated
    1 January as of the year before: it enters [thisMonth] exactly when
    the reference instant, in local time, lies in that earlier month.
    Invoices dated on any later day are read in their own month. *)
Theorem customer_month_west_of_utc :
  forall (tza : TimeZone) (now : Z) (acc : CustomerStats.Sets) (inv : Invoice.t)
         (y m d : Z),
    - msPerDay <= tza < 0 ->
    parseISODate (Invoice.issueDate inv) = Some (y, m, d) -> 1 <= y ->
    let year := YearFromTime (LocalTime tza now) in
    let month := MonthFromTime (LocalTime tza now) + 1 in
    let readYear := if (d =? 1) && (m =? 1) then y - 1 else y in
    let readMonth := if d =? 1 then (if m =? 1 then 12 else m - 1) else m in
    CustomerStats.monthlyCustomers (CustomerStats.step tza now acc inv)
    = (if (readYear =? year) && (readMonth =? month)
       then StringSet.add (Customer.name (Invoice.billTo inv))
              (CustomerStats.monthlyCustomers acc)
       else CustomerStats.monthlyCustomers acc)
    /\ CustomerStats.yearlyCustomers (CustomerStats.step tza now acc inv)
       = (if readYear =? year
          then StringSet.add (Customer.name (Invoice.billTo inv))
                 (CustomerStats.yearlyCustomers acc)
          else CustomerStats.yearlyCustomers acc).
Proof.
  intros tza now acc inv y m d Hz Hp Hy. cbv zeta.
  destruct (issue_month_read tza _ y m d Hp Hy) as [_ Hw].
  destruct (Hw Hz) as (y' & m' & d' & _ & _ & E1 & E2 & H1 & H2 & H3).
  pose proof (validDate_bounds _ _ _ (parseISODate_valid _ _ _ _ Hp))
    as (_ & Bm & Bd).
  unfold CustomerStats.step.
  cbn [CustomerStats.monthlyCustomers CustomerStats.yearlyCustomers].
  rewrite E1, E2.
  unfold getFullYear, getMonth, option_map, CustomerStats.number_eq.
  assert (Ey : y' = if (d =? 1) && (m =? 1) then y - 1 else y).
  { destruct (Z.eqb_spec d 1) as [Hd|Hd]; cbn [andb].
    - destruct (Z.eqb_spec m 1) as [Hm|Hm].
      + exact (proj1 (H3 Hd Hm)).
      + exact (proj1 (H2 Hd ltac:(lia))).
    - exact (proj1 (H1 ltac:(lia))). }
  assert (Em : m' = if d =? 1 then (if m =? 1 then 12 else m - 1) else m).
  { destruct (Z.eqb_spec d 1) as [Hd|Hd].
    - destruct (Z.eqb_spec m 1) as [Hm|Hm].
      + exact (proj2 (H3 Hd Hm)).
      + exact (proj2 (H2 Hd ltac:(lia))).
    - exact (proj2 (H1 ltac:(lia))). }
  rewrite <- Ey, <- Em. split; [|reflexivity].
  destruct (Z.eqb_spec (m' - 1) (MonthFromTime (LocalTime tza now)));
    destruct (Z.eqb_spec m' (MonthFromTime (LocalTime tza now) + 1));
    lia || reflexivity.
Qed.

Lemma customer_month_west_of_utc_witness :
  - msPerDay <= Sample.utcMinus5 < 0
  /\ parseISODate (Invoice.issueDate Sample.marchFirst) = Some (2025, 3, 1)
  /\ CustomerStats.monthlyCustomers
       (CustomerStats.step Sample.utcMinus5 SampleReport.midFebruary
          SampleReport.noSets Sample.marchFirst) = ["A"%string]
  /\ CustomerStats.monthlyCustomers
       (CustomerStats.step Sample.utcMinus5 Sample.midMarch
          SampleReport.noSets Sample.marchFirst) = [].
Proof.
  assert (Hz : - msPerDay <= Sample.utcMinus5 < 0)
    by (unfold Sample.utcMinus5, msPerDay; lia).
  split; [exact Hz|]. split; [reflexivity|].
  split.
  - rewrite (proj1 (customer_month_west_of_utc Sample.utcMinus5
                      SampleReport.midFebruary SampleReport.noSets
                      Sample.marchFirst 2025 3 1 Hz eq_refl ltac:(lia))).
    reflexivity.
  - rewrite (proj1 (customer_month_west_of_utc Sample.utcMinus5
                      Sample.midMarch SampleReport.noSets
                      Sample.marchFirst 2025 3 1 Hz eq_refl ltac:(lia))).
    reflexivity.
Defined.

(** ** The date string of an instant *)

Lemma fourDigitsReadBack_all : forallb fourDigitsReadBack yearNumbers = true.
Proof. vm_compute. reflexivity. Qed.

Lemma twoDigitsReadBack_all : forallb twoDigitsReadBack dayNumbers = true.
Proof. vm_compute. reflexivity. Qed.

Lemma padded_year (y : Z) :
  0 <= y <= 9999 ->
  exists a b c d,
    padStart 4 (String_of_number (Some y))
    = String a (String b (String c (String d EmptyString)))
    /\ digits4 a b c d = Some y.
Proof.
  intros Hy. pose proof fourDigitsReadBack_all as H.
  rewrite forallb_forall in H.
  assert (Iy : In y yearNumbers).
  { unfold yearNumbers. rewrite <- (Z2Nat.id y) by lia.
    apply in_map, in_seq. lia. }
  specialize (H y Iy). unfold fourDigitsReadBack in H.
  destruct (padStart 4 (String_of_number (Some y)))
    as [|a [|b [|c [|d [|e s]]]]]; try discriminate.
  destruct (digits4 a b c d) as [v|] eqn:E; [|discriminate].
  apply Z.eqb_eq in H. subst v. exists a, b, c, d. auto.
Qed.

Lemma padded_day (n : Z) :
  1 <= n <= 31 ->
  exists a b,
    padStart 2 (String_of_number (Some n)) = String a (String b EmptyString)
    /\ digits2 a b = Some n.
Proof.
  intros Hn. pose proof twoDigitsReadBack_all as H.
  rewrite forallb_forall in H.
  assert (In' : In n dayNumbers).
  { unfold dayNumbers. rewrite <- (Z2Nat.id n) by lia.
    apply in_map, in_seq. lia. }
  specialize (H n In'). unfold twoDigitsReadBack in H.
  destruct (padStart 2 (String_of_number (Some n))) as [|a [|b [|c s]]];
    try discriminate.
  destruct (digits2 a b) as [v|] eqn:E; [|discriminate].
  apply Z.eqb_eq in H. subst v. exists a, b. auto.
Qed.

(** The year, month and day of a day number form a calendar date, of
    that day number. *)
Lemma civil_of_day (n : Z) :
  0 <= YearFromDay n <= 9999 ->
  validDate (YearFromDay n) (MonthFromDay n + 1) (DateFromDay n) = true
  /\ MakeDay (YearFromDay n) (MonthFromDay n + 1) (DateFromDay n) = n.
Proof.
  intros Hy. pose proof (YearFromDay_spec n) as Hs.
  rewrite DayFromYear_succ in Hs.
  unfold DateFromDay, MakeDay, MonthFromDay.
  set (y := YearFromDay n) in *. clearbody y.
  set (k := n - DayFromYear y).
  assert (Hk : 0 <= k < DaysInYear y) by (subst k; lia).
  assert (En : n = DayFromYear y + k) by (subst k; lia).
  clearbody k. subst n. clear Hs.
  unfold DaysInYear in Hk.
  split.
  - apply validDate_intro; [exact Hy| |]; unfold DaysInMonth;
      destruct (isLeapYear y); eval_month_table;
      repeat match goal with
             | |- context [?a <? ?b] => destruct (Z.ltb_spec a b)
             end; eval_month_table; lia.
  - destruct (isLeapYear y); eval_month_table;
      repeat match goal with
             | |- context [?a <? ?b] => destruct (Z.ltb_spec a b)
             end; eval_month_table; lia.
Qed.

Lemma DateFromDay_bounds (n : Z) :
  0 <= YearFromDay n <= 9999 ->
  1 <= MonthFromDay n + 1 <= 12 /\ 1 <= DateFromDay n <= 31.
Proof.
  intros Hy. destruct (civil_of_day n Hy) as [Hv _].
  apply validDate_bounds in Hv. destruct Hv as (_ & Hm & Hd).
  split; [exact Hm|]. unfold DaysInMonth in Hd.
  revert Hd. generalize (DateFromDay n). generalize (MonthFromDay n + 1) Hm.
  intros m Bm d Hd.
  destruct (isLeapYear (YearFromDay n)); month_cases m; eval_days; lia.
Qed.

Lemma toISODateString_parses (t : Z) :
  0 <= YearFromTime t <= 9999 ->
  parseISODate (toISODateString t)
  = Some (YearFromDay (Day t), MonthFromDay (Day t) + 1, DateFromDay (Day t)).
Proof.
  unfold YearFromTime. intros Hy.
  destruct (civil_of_day _ Hy) as [Hv _].
  destruct (DateFromDay_bounds _ Hy) as [Bm Bd].
  destruct (padded_year _ Hy) as (a & b & c & d & Ey & Dy).
  destruct (padded_day (MonthFromDay (Day t) + 1) ltac:(lia))
    as (m1 & m2 & Em & Dm).
  destruct (padded_day _ Bd) as (d1 & d2 & Ed & Dd).
  unfold toISODateString. rewrite Ey, Em, Ed.
  cbn [String.append]. unfold parseISODate. cbn [list_ascii_of_string].
  rewrite Dy, Dm, Dd, Hv. reflexivity.
Qed.

(** X9. The date part of [toISOString()] of an instant of the years 0 to
    9999 is a date string that [new Date] reads back as the UTC midnight
    of that instant's day, in every time zone; from year 1000 on it is a
    well-formed issue date. *)
Theorem toISODateString_round_trip :
  forall (t : Z),
    0 <= YearFromTime t <= 9999 ->
    (forall tza, Date_parse tza (toISODateString t) = Some (Day t * msPerDay))
    /\ (1000 <= YearFromTime t -> wellFormedDate (toISODateString t)).
Proof.
  intros t Hy. pose proof (toISODateString_parses t Hy) as Hp.
  destruct (civil_of_day (Day t) Hy) as [_ Hm].
  split.
  - intros tza. rewrite (Date_parse_date tza _ _ _ _ Hp), Hm. reflexivity.
  - intros H1000. eexists _, _, _. split; [exact Hp | exact H1000].
Qed.

Lemma toISODateString_round_trip_witness :
  0 <= YearFromTime Sample.midMarch <= 9999
  /\ toISODateString Sample.midMarch = "2025-03-15"%string
  /\ Date_parse Sample.utcMinus5 "2025-03-15" = Some (Day Sample.midMarch * msPerDay)
  /\ wellFormedDate "2025-03-15".
Proof.
  assert (Hy : 0 <= YearFromTime Sample.midMarch <= 9999)
    by (vm_compute; split; discriminate).
  split; [exact Hy|]. split; [reflexivity|].
  destruct (toISODateString_round_trip Sample.midMarch Hy) as [Hp Hwf].
  split.
  - exact (Hp Sample.utcMinus5).
  - apply Hwf. vm_compute. discriminate.
Defined.

(** X10. The "today" set is kept by UTC day, in every time zone: an
    invoice whose issue date is the default of the form at instant
    [created] is added exactly when [created] and the reference instant
    fall on the same UTC day. *)
Theorem today_bucket_is_the_utc_day :
  forall (tza : TimeZone) (now created : Z) (acc : CustomerStats.Sets)
         (inv : Invoice.t),
    0 <= YearFromTime now <= 9999 ->
    0 <= YearFromTime created <= 9999 ->
    Invoice.issueDate inv = toISODateString created ->
    CustomerStats.dailyCustomers (CustomerStats.step tza now acc inv)
    = if Day created =? Day now
      then StringSet.add (Customer.name (Invoice.billTo inv))
             (CustomerStats.dailyCustomers acc)
      else CustomerStats.dailyCustomers acc.
Proof.
  intros tza now created acc inv Hn Hc Hd.
  unfold CustomerStats.step. cbn [CustomerStats.dailyCustomers]. rewrite Hd.
  destruct (Z.eqb_spec (Day created) (Day now)) as [E|E].
  - unfold toISODateString. rewrite E, String.eqb_refl. reflexivity.
  - destruct (String.eqb_spec (toISODateString created) (toISODateString now))
      as [Es|_]; [|reflexivity].
    exfalso. apply E.
    pose proof (toISODateString_parses _ Hc) as Pc.
    pose proof (toISODateString_parses _ Hn) as Pn.
    rewrite Es, Pn in Pc. injection Pc as E1 E2 E3.
    destruct (civil_of_day _ Hc) as [_ Mc]. destruct (civil_of_day _ Hn) as [_ Mn].
    rewrite <- Mc, <- Mn, <- E1, <- E3.
    replace (MonthFromDay (Day created) + 1) with (MonthFromDay (Day now) + 1) by lia.
    reflexivity.
Qed.

Lemma today_bucket_is_the_utc_day_witness :
  0 <= YearFromTime Sample.midMarch <= 9999
  /\ Invoice.issueDate SampleReport.issuedNow = toISODateString Sample.midMarch
  /\ CustomerStats.dailyCustomers
       (CustomerStats.step Sample.utcMinus5 Sample.midMarch SampleReport.noSets
          SampleReport.issuedNow) = ["A"%string].
Proof.
  assert (Hy : 0 <= YearFromTime Sample.midMarch <= 9999)
    by (vm_compute; split; discriminate).
  split; [exact Hy|]. split; [reflexivity|].
  rewrite (today_bucket_is_the_utc_day Sample.utcMinus5 Sample.midMarch
             Sample.midMarch SampleReport.noSets SampleReport.issuedNow
             Hy Hy eq_refl).
  reflexivity.
Defined.

(** ** More on the bootstrap, run to completion *)

Lemma filter_none {A : Type} (f : A -> bool) (l : list A) :
  (forall x, In x l -> f x = false) -> filter f l = [].
Proof.
  induction l as [|x l IH]; intros H; [reflexivity|]. cbn.
  rewrite (H x) by (left; reflexivity).
  apply IH. intros y Hy. apply H. right. exact Hy.
Qed.

Section Outcome.

Context {W : Type}.
Variable respond : W -> forall c : Remote, Reply c * W.

(** The counts of a run of [initializeApp] whose profile resolution
    produced [tr]. *)
Lemma countEvents_profile (f : Event -> bool) (u : SupabaseUser.t) (w : W)
    (pre post : list Event) :
  (forall e, In e (snd (runProc respond (getOrCreateUserProfile u) w)) -> f e = false) ->
  countEvents f (pre ++ snd (runProc respond (getOrCreateUserProfile u) w) ++ post)
  = (countEvents f pre + countEvents f post)%nat.
Proof.
  intros H. unfold countEvents. rewrite !filter_app, (filter_none f _ H).
  cbn [List.app]. apply length_app.
Qed.

Lemma initializeApp_outcome_gen (w : W) :
  let out := run respond initializeApp initialState w in
  let tr := traceOf out in
  isAuthLoading (finalState out) = false
  /\ match render false (finalState out) with
     | SplashScreen => False
     | DatabaseSetup =>
         (exists e, In (Replied ProbeProfiles (ProbeResponse e)) tr
                    /\ isMissingRelation e = true)
         /\ countEvents isSessionRequest tr = 0%nat
         /\ countEvents isResolveCall tr = 0%nat
         /\ countEvents isSignOutRequest tr = 0%nat
     | LoginPage None =>
         In (Replied GetSession (SessionResponse None)) tr
         /\ countEvents isResolveCall tr = 0%nat
         /\ countEvents isSignOutRequest tr = 0%nat
     | LoginPage (Some msg) =>
         msg = profileFailureMessage
         /\ In (Resolved None) tr
         /\ countEvents isSignOutRequest tr = 1%nat
     | MainApp s p =>
         In (Replied GetSession (SessionResponse (Some s))) tr
         /\ In (ResolveCalled (Session.user s)) tr
         /\ In (Resolved (Some p)) tr
         /\ countEvents isSignOutRequest tr = 0%nat
     end.
Proof.
  cbv zeta. rewrite run_initializeApp.
  destruct (respond w ProbeProfiles) as [e w1].
  destruct (isMissingRelation e) eqn:He.
  { cbn. split; [reflexivity|]. repeat split; try reflexivity.
    exists e. split; [right; left; reflexivity | exact He]. }
  destruct (respond w1 GetSession) as [[s|] w2].
  2:{ cbn. split; [reflexivity|]. repeat split; try reflexivity.
      do 3 right. left. reflexivity. }
  pose proof (runProc_getOrCreateUserProfile_events respond (Session.user s) w2) as Hev.
  pose proof (fun f => countEvents_profile f (Session.user s) w2) as Hc.
  destruct (runProc respond (getOrCreateUserProfile (Session.user s)) w2)
    as [[r w3] tr] eqn:Hrun.
  cbn [snd] in Hev, Hc.
  destruct r as [p|]; unfold traceOf, finalState; cbn [fst snd].
  - split; [reflexivity|]. cbn [render applyUpdate initialState session currentUser
                                  isAuthLoading needsDbSetup orb].
    repeat split.
    + do 3 right. left. reflexivity.
    + do 4 right. left. reflexivity.
    + do 5 right. apply in_or_app. right. left. reflexivity.
    + change (countEvents isSignOutRequest
                ([Requested ProbeProfiles; Replied ProbeProfiles (ProbeResponse e);
                  Requested GetSession;
                  Replied GetSession (SessionResponse (Some s));
                  ResolveCalled (Session.user s)] ++ tr ++
                 [Resolved (Some p); StateSet (SetSession (Some s));
                  StateSet (SetCurrentUser (Some p));
                  StateSet (SetIsAuthLoading false)]) = 0%nat).
      rewrite Hc by (intros x Hx; apply (Hev x Hx)). reflexivity.
  - split; [reflexivity|]. cbn [render applyUpdate initialState session currentUser
                                  isAuthLoading needsDbSetup loginMessage orb].
    repeat split.
    + do 5 right. apply in_or_app. right. left. reflexivity.
    + change (countEvents isSignOutRequest
                ([Requested ProbeProfiles; Replied ProbeProfiles (ProbeResponse e);
                  Requested GetSession;
                  Replied GetSession (SessionResponse (Some s));
                  ResolveCalled (Session.user s)] ++ tr ++
                 [Resolved None;
                  StateSet (SetLoginMessage (Some profileFailureMessage));
                  Requested SignOut; Replied SignOut SignOutResponse;
                  StateSet (SetSession None); StateSet (SetCurrentUser None);
                  StateSet (SetIsAuthLoading false)]) = 1%nat).
      rewrite Hc by (intros x Hx; apply (Hev x Hx)). reflexivity.
Qed.

Lemma initializeApp_probe_gen (st : AppState) (w : W) :
  let out := run respond initializeApp st w in
  let e := fst (respond w ProbeProfiles) in
  countEvents isSessionRequest (traceOf out)
  = (if isMissingRelation e then 0%nat else 1%nat)
  /\ needsDbSetup (finalState out) = (isMissingRelation e || needsDbSetup st)
  /\ isAuthLoading (finalState out) = false.
Proof.
  cbv zeta. rewrite run_initializeApp.
  destruct (respond w ProbeProfiles) as [e w1]. cbn [fst].
  destruct (isMissingRelation e) eqn:He.
  { cbn. repeat split. }
  destruct (respond w1 GetSession) as [[s|] w2].
  2:{ cbn. repeat split. }
  pose proof (runProc_getOrCreateUserProfile_events respond (Session.user s) w2) as Hev.
  pose proof (fun f => countEvents_profile f (Session.user s) w2) as Hc.
  destruct (runProc respond (getOrCreateUserProfile (Session.user s)) w2)
    as [[r w3] tr] eqn:Hrun.
  cbn [snd] in Hev, Hc.
  destruct r as [p|]; unfold traceOf, finalState; cbn [fst snd].
  - split; [|split; reflexivity].
    change (countEvents isSessionRequest
              ([Requested ProbeProfiles; Replied ProbeProfiles (ProbeResponse e);
                Requested GetSession;
                Replied GetSession (SessionResponse (Some s));
                ResolveCalled (Session.user s)] ++ tr ++
               [Resolved (Some p); StateSet (SetSession (Some s));
                StateSet (SetCurrentUser (Some p));
                StateSet (SetIsAuthLoading false)]) = 1%nat).
    rewrite Hc by (intros x Hx; apply (Hev x Hx)). reflexivity.
  - split; [|split; reflexivity].
    change (countEvents isSessionRequest
              ([Requested ProbeProfiles; Replied ProbeProfiles (ProbeResponse e);
                Requested GetSession;
                Replied GetSession (SessionResponse (Some s));
                ResolveCalled (Session.user s)] ++ tr ++
               [Resolved None;
                StateSet (SetLoginMessage (Some profileFailureMessage));
                Requested SignOut; Replied SignOut SignOutResponse;
                StateSet (SetSession None); StateSet (SetCurrentUser None);
                StateSet (SetIsAuthLoading false)]) = 1%nat).
    rewrite Hc by (intros x Hx; apply (Hev x Hx)). reflexivity.
Qed.

End Outcome.

(** X11. Whatever the backend answers, [initializeApp] run from the
    initial state ends with the splash screen gone and on one of four
    screens, each for its own reason: the setup screen after a
    missing-relation probe error (nothing else requested); the plain login
    page when there is no session (no profile resolved, no sign-out); the
    login page with the advisory message when the profile could not be
    resolved (one sign-out); the main application with the fetched session
    and the profile resolved for its user (no sign-out). *)
Theorem initializeApp_outcome :
  forall (W : Type) (respond : W -> forall c : Remote, Reply c * W) (w : W),
    let out := run respond initializeApp initialState w in
    let tr := traceOf out in
    isAuthLoading (finalState out) = false
    /\ match render false (finalState out) with
       | SplashScreen => False
       | DatabaseSetup =>
           (exists e, In (Replied ProbeProfiles (ProbeResponse e)) tr
                      /\ isMissingRelation e = true)
           /\ countEvents isSessionRequest tr = 0%nat
           /\ countEvents isResolveCall tr = 0%nat
           /\ countEvents isSignOutRequest tr = 0%nat
       | LoginPage None =>
           In (Replied GetSession (SessionResponse None)) tr
           /\ countEvents isResolveCall tr = 0%nat
           /\ countEvents isSignOutRequest tr = 0%nat
       | LoginPage (Some msg) =>
           msg = profileFailureMessage
           /\ In (Resolved None) tr
           /\ countEvents isSignOutRequest tr = 1%nat
       | MainApp s p =>
           In (Replied GetSession (SessionResponse (Some s))) tr
           /\ In (ResolveCalled (Session.user s)) tr
           /\ In (Resolved (Some p)) tr
           /\ countEvents isSignOutRequest tr = 0%nat
       end.
Proof. intros W respond w. exact (initializeApp_outcome_gen respond w). Qed.

(** X12. Only a missing-relation error stops the bootstrap: after any
    other probe result, error or not, [initializeApp] requests the session
    exactly once and leaves [needsDbSetup] as it was; in every case it
    clears [isAuthLoading]. *)
Theorem initializeApp_probe_decides :
  forall (W : Type) (respond : W -> forall c : Remote, Reply c * W)
         (st : AppState) (w : W),
    let out := run respond initializeApp st w in
    let e := fst (respond w ProbeProfiles) in
    countEvents isSessionRequest (traceOf out)
    = (if isMissingRelation e then 0%nat else 1%nat)
    /\ needsDbSetup (finalState out) = (isMissingRelation e || needsDbSetup st)
    /\ isAuthLoading (finalState out) = false.
Proof. intros W respond st w. exact (initializeApp_probe_gen respond st w). Qed.

(** X13. A profile read that fails with any error other than PGRST116
    makes [getOrCreateUserProfile] return null after that one request:
    nothing is inserted.  A read that returns neither a row nor an error
    is treated like the no-matching-row case: the fallback row is
    inserted. *)
Theorem getOrCreateUserProfile_read_error :
  forall (W : Type) (respond : W -> forall c : Remote, Reply c * W)
         (w : W) (u : SupabaseUser.t),
    let res := fst (respond w (SelectProfile (SupabaseUser.id u))) in
    let out := runProc respond (getOrCreateUserProfile u) w in
    data res = None ->
    (forall e, error res = Some e -> PgError.code e <> "PGRST116"%string ->
       fst (fst out) = None
       /\ snd out = [Requested (SelectProfile (SupabaseUser.id u));
                     Replied (SelectProfile (SupabaseUser.id u)) (RowResponse res)]
       /\ snd (fst out) = snd (respond w (SelectProfile (SupabaseUser.id u))))
    /\ (error res = None -> insertedRows (snd out) = [fallbackProfile u]).
Proof.
  intros W respond w u res out Hd. subst res out.
  rewrite runProc_getOrCreateUserProfile.
  destruct (respond w (SelectProfile (SupabaseUser.id u))) as [res w1].
  cbn [fst snd] in *. rewrite Hd. split.
  - intros e He Hc. unfold isRealError. rewrite He.
    destruct (String.eqb_spec (PgError.code e) "PGRST116") as [E|_];
      [contradiction|].
    cbn. repeat split.
  - intros He. unfold isRealError. rewrite He.
    destruct (respond w1 (InsertProfile (fallbackProfile u))) as [ins w2].
    reflexivity.
Qed.

Lemma getOrCreateUserProfile_read_error_witness :
  let w := {| Backend.profiles := [Sample.annRow];
              Backend.stored := Some Sample.annSession;
              Backend.faults := [Some Sample.timeout] |} in
  let out := runProc Backend.respond (getOrCreateUserProfile Sample.ann) w in
  fst (fst out) = None /\ Backend.profiles (snd (fst out)) = [Sample.annRow].
Proof.
  cbv zeta.
  pose proof (getOrCreateUserProfile_read_error Backend.World Backend.respond
                {| Backend.profiles := [Sample.annRow];
                   Backend.stored := Some Sample.annSession;
                   Backend.faults := [Some Sample.timeout] |}
                Sample.ann eq_refl) as [H _].
  destruct (H Sample.timeout eq_refl ltac:(discriminate)) as (H1 & _ & H3).
  split; [exact H1 | rewrite H3; reflexivity].
Defined.

(** X14. Create, then find: for a subject with an email and no row in
    the table, the backend answering every call, a first call of
    [getOrCreateUserProfile] inserts the fallback row and returns it, and a
    second call returns that same row without inserting; the table has
    gained exactly that row. *)
Theorem getOrCreateUserProfile_creates_once :
  forall (w : Backend.World) (u : SupabaseUser.t) (e : string),
    Backend.rowsOf (SupabaseUser.id u) w = [] ->
    SupabaseUser.email u = Some e ->
    Backend.faults w = [] ->
    let row := {| User.id := SupabaseUser.id u; User.name := fallbackName u;
                  User.email := e; User.role := staff |} in
    let first := runProc Backend.respond (getOrCreateUserProfile u) w in
    let second :=
      runProc Backend.respond (getOrCreateUserProfile u) (snd (fst first)) in
    fst (fst first) = Some row
    /\ insertedRows (snd first) = [fallbackProfile u]
    /\ fst (fst second) = Some row
    /\ insertedRows (snd second) = []
    /\ Backend.profiles (snd (fst second)) = Backend.profiles w ++ [row].
Proof.
  intros w u e Hrows He Hf row first second. subst first second.
  assert (Hfirst : runProc Backend.respond (getOrCreateUserProfile u) w
                   = (Some row,
                      {| Backend.profiles := Backend.profiles w ++ [row];
                         Backend.stored := Backend.stored w;
                         Backend.faults := [] |},
                      [Requested (SelectProfile (SupabaseUser.id u));
                       Replied (SelectProfile (SupabaseUser.id u))
                         (RowResponse (Backend.failed Backend.noRows));
                       Requested (InsertProfile (fallbackProfile u));
                       Replied (InsertProfile (fallbackProfile u))
                         (RowResponse (Backend.found row))])).
  { rewrite runProc_getOrCreateUserProfile.
    unfold Backend.respond, Backend.nextFault, Backend.consume. rewrite Hf.
    cbn [hd tl]. unfold Backend.selectSingle, Backend.rowsOf in *.
    cbn [Backend.profiles]. rewrite Hrows.
    cbn [Backend.failed data error isRealError PgError.code Backend.noRows].
    replace (negb ("PGRST116" =? "PGRST116")%string) with false by reflexivity.
    unfold Backend.insertRow, Backend.rowsOf.
    cbn [Backend.profiles fallbackProfile NewProfile.id NewProfile.email
         NewProfile.name NewProfile.role Backend.faults Backend.stored].
    rewrite Hrows, He. reflexivity. }
  rewrite Hfirst. cbn [fst snd].
  rewrite (getOrCreateUserProfile_found _ u row).
  - repeat split.
  - unfold Backend.rowsOf in *. cbn [Backend.profiles].
    rewrite filter_app, Hrows. cbn. rewrite String.eqb_refl. reflexivity.
  - reflexivity.
Qed.

Lemma getOrCreateUserProfile_creates_once_witness :
  let first := runProc Backend.respond (getOrCreateUserProfile Sample.ann)
                 Sample.fresh in
  let second := runProc Backend.respond (getOrCreateUserProfile Sample.ann)
                  (snd (fst first)) in
  fst (fst second) = fst (fst first)
  /\ insertedRows (snd second) = []
  /\ List.length (Backend.profiles (snd (fst second))) = 1%nat.
Proof.
  cbv zeta.
  pose proof (getOrCreateUserProfile_creates_once Sample.fresh Sample.ann
                "ann@example.com" eq_refl eq_refl eq_refl) as H.
  cbv zeta in H. destruct H as (H1 & _ & H3 & H4 & H5).
  split; [rewrite H1, H3; reflexivity|]. split; [exact H4|].
  rewrite H5. reflexivity.
Defined.

(** X15. A profile that [getOrCreateUserProfile] returns from the
    profiles table carries the id of the subject it was asked for, whether
    it was found or just created. *)
Theorem getOrCreateUserProfile_returns_own_profile :
  forall (w : Backend.World) (u : SupabaseUser.t) (row : User.t),
    Backend.nextFault w = None ->
    fst (fst (runProc Backend.respond (getOrCreateUserProfile u) w)) = Some row ->
    User.id row = SupabaseUser.id u.
Proof.
  intros w u row Hf. rewrite runProc_getOrCreateUserProfile.
  unfold Backend.respond at 1. rewrite Hf.
  unfold Backend.selectSingle.
  destruct (Backend.rowsOf (SupabaseUser.id u) (Backend.consume w))
    as [|r [|r' rest]] eqn:Hrows.
  - cbn [Backend.failed data error isRealError].
    replace (negb (PgError.code Backend.noRows =? "PGRST116")%string) with false
      by reflexivity.
    destruct (Backend.respond (Backend.consume w) (InsertProfile (fallbackProfile u)))
      as [ins w2] eqn:Hins.
    cbn [fst]. intros Hrow.
    unfold Backend.respond in Hins.
    destruct (Backend.nextFault (Backend.consume w)).
    + injection Hins as <- _. cbn in Hrow. discriminate.
    + unfold Backend.insertRow in Hins.
      destruct (Backend.rowsOf (NewProfile.id (fallbackProfile u))
                  (Backend.consume (Backend.consume w))).
      * destruct (NewProfile.email (fallbackProfile u)).
        -- injection Hins as <- _. cbn in Hrow. injection Hrow as <-. reflexivity.
        -- injection Hins as <- _. cbn in Hrow. discriminate.
      * injection Hins as <- _. cbn in Hrow. discriminate.
  - cbn. intros E. injection E as <-.
    assert (Hin : In r (Backend.rowsOf (SupabaseUser.id u) (Backend.consume w)))
      by (rewrite Hrows; left; reflexivity).
    unfold Backend.rowsOf in Hin. apply filter_In in Hin.
    apply String.eqb_eq. exact (proj2 Hin).
  - cbn [Backend.failed data error isRealError].
    replace (negb (PgError.code Backend.noRows =? "PGRST116")%string) with false
      by reflexivity.
    destruct (Backend.respond (Backend.consume w) (InsertProfile (fallbackProfile u)))
      as [ins w2] eqn:Hins.
    cbn [fst]. intros Hrow.
    unfold Backend.respond in Hins.
    destruct (Backend.nextFault (Backend.consume w)).
    + injection Hins as <- _. cbn in Hrow. discriminate.
    + unfold Backend.insertRow in Hins.
      destruct (Backend.rowsOf (NewProfile.id (fallbackProfile u))
                  (Backend.consume (Backend.consume w))).
      * destruct (NewProfile.email (fallbackProfile u)).
        -- injection Hins as <- _. cbn in Hrow. injection Hrow as <-. reflexivity.
        -- injection Hins as <- _. cbn in Hrow. discriminate.
      * injection Hins as <- _. cbn in Hrow. discriminate.
Qed.

Lemma getOrCreateUserProfile_returns_own_profile_witness :
  Backend.nextFault Sample.withAnn = None
  /\ fst (fst (runProc Backend.respond (getOrCreateUserProfile Sample.ann)
                 Sample.withAnn)) = Some Sample.annRow
  /\ User.id Sample.annRow = SupabaseUser.id Sample.ann.
Proof.
  split; [reflexivity|]. split; [reflexivity|].
  exact (getOrCreateUserProfile_returns_own_profile Sample.withAnn Sample.ann
           Sample.annRow eq_refl eq_refl).
Defined.

(** ** The next invoice number *)

Lemma stripNonDigits_uint (d : Decimal.uint) :
  stripNonDigits (NilEmpty.string_of_uint d) = NilEmpty.string_of_uint d.
Proof.
  induction d; cbn [NilEmpty.string_of_uint stripNonDigits]; try reflexivity;
    match goal with
    | |- context [isDigit ?c] => replace (isDigit c) with true by reflexivity
    end; rewrite IHd; reflexivity.
Qed.

Lemma digitsValue_uint_acc (d : Decimal.uint) (a : positive) :
  digitsValue (Z.pos a) (NilEmpty.string_of_uint d) = Z.pos (Pos.of_uint_acc d a).
Proof.
  revert a.
  induction d; intros a; cbn [NilEmpty.string_of_uint digitsValue Pos.of_uint_acc];
    try reflexivity;
    match goal with
    | |- context [digit ?c] =>
        let v := eval vm_compute in (digit c) in change (digit c) with v
    end; cbv iota; rewrite <- IHd; f_equal; lia.
Qed.

Lemma digitsValue_uint (d : Decimal.uint) :
  digitsValue 0 (NilEmpty.string_of_uint d) = Z.of_N (Pos.of_uint d).
Proof.
  induction d; cbn [NilEmpty.string_of_uint digitsValue Pos.of_uint];
    try reflexivity;
    match goal with
    | |- context [digit ?c] =>
        let v := eval vm_compute in (digit c) in change (digit c) with v
    end; cbv iota.
  - exact IHd.
  - exact (digitsValue_uint_acc d 1).
  - exact (digitsValue_uint_acc d 2).
  - exact (digitsValue_uint_acc d 3).
  - exact (digitsValue_uint_acc d 4).
  - exact (digitsValue_uint_acc d 5).
  - exact (digitsValue_uint_acc d 6).
  - exact (digitsValue_uint_acc d 7).
  - exact (digitsValue_uint_acc d 8).
  - exact (digitsValue_uint_acc d 9).
Qed.

(** [String(n)] of a natural number is a non-empty string of digits
    whose value is [n]. *)
Lemma String_of_number_digits (n : Z) :
  0 <= n ->
  let s := String_of_number (Some n) in
  stripNonDigits s = s /\ digitsValue 0 s = n /\ s <> EmptyString.
Proof.
  intros Hn. cbv zeta. unfold String_of_number.
  destruct n as [|p|p]; [repeat split; discriminate | | lia].
  cbn [Z.to_int NilZero.string_of_int]. unfold NilZero.string_of_uint.
  pose proof (Unsigned.to_uint_nonnil p) as Hnil.
  pose proof (DecimalPos.Unsigned.of_to p) as Hof.
  destruct (Pos.to_uint p) eqn:E; [contradiction | ..];
    rewrite <- E in *;
    (split; [apply stripNonDigits_uint|]);
    (split; [rewrite digitsValue_uint, Hof; reflexivity|]);
    rewrite E; discriminate.
Qed.

Lemma stripNonDigits_app (a b : string) :
  stripNonDigits (a ++ b) = (stripNonDigits a ++ stripNonDigits b)%string.
Proof.
  induction a as [|c a IH]; [reflexivity|].
  cbn [append stripNonDigits]. destruct (isDigit c); cbn [append]; rewrite IH;
    reflexivity.
Qed.

Lemma stripNonDigits_zeros (k : nat) :
  stripNonDigits (repeat_char "0" k) = repeat_char "0" k.
Proof.
  induction k as [|k IH]; [reflexivity|].
  cbn [repeat_char stripNonDigits].
  replace (isDigit "0") with true by reflexivity. rewrite IH. reflexivity.
Qed.

Lemma digitsValue_zeros (k : nat) (s : string) :
  digitsValue 0 (repeat_char "0" k ++ s) = digitsValue 0 s.
Proof.
  induction k as [|k IH]; [reflexivity|].
  cbn [repeat_char append digitsValue].
  change (digit "0") with (Some 0). cbv iota. exact IH.
Qed.

Lemma digitsValue_nonneg (s : string) (acc : Z) : 0 <= acc -> acc <= digitsValue acc s.
Proof.
  revert acc. induction s as [|c s IH]; intros acc Ha; cbn [digitsValue]; [lia|].
  destruct (digit c) as [d|] eqn:E; [|lia].
  pose proof (digit_bounds _ _ E).
  specialize (IH (10 * acc + d) ltac:(lia)). lia.
Qed.

(** The numeric part is never NaN. *)
Lemma numberPart_total (s : string) :
  exists v, InvoiceForm.numberPart s = Some v /\ 0 <= v.
Proof.
  unfold InvoiceForm.numberPart. cbv zeta.
  assert (H : forall t, stripNonDigits t = EmptyString
                        \/ exists c r, stripNonDigits t = String c r
                                       /\ isDigit c = true).
  { induction t as [|c t IH]; [left; reflexivity|].
    cbn [stripNonDigits]. destruct (isDigit c) eqn:E; [|exact IH].
    right. eexists _, _. split; [reflexivity | exact E]. }
  destruct (H s) as [->|(c & r & -> & Hc)].
  - exists 0. split; [reflexivity | lia].
  - unfold parseInt. rewrite Hc. eexists. split; [reflexivity|].
    apply (digitsValue_nonneg _ 0). lia.
Qed.

(** The numeric part of a formatted number is the number. *)
Lemma numberPart_formatted (n : Z) :
  1 <= n ->
  InvoiceForm.numberPart ("#" ++ padStart 3 (String_of_number (Some n))) = Some n.
Proof.
  intros Hn.
  destruct (String_of_number_digits n ltac:(lia)) as (Hs & Hv & Hne).
  unfold InvoiceForm.numberPart. cbv zeta.
  change ("#" ++ padStart 3 (String_of_number (Some n)))%string
    with (String "#" (padStart 3 (String_of_number (Some n)))).
  cbn [stripNonDigits]. replace (isDigit "#") with false by reflexivity.
  unfold padStart. rewrite stripNonDigits_app, stripNonDigits_zeros, Hs.
  set (k := (3 - String.length (String_of_number (Some n)))%nat).
  assert (Hval : digitsValue 0 (repeat_char "0" k ++ String_of_number (Some n)) = n)
    by (rewrite digitsValue_zeros; exact Hv).
  destruct (repeat_char "0" k ++ String_of_number (Some n))%string as [|c r] eqn:E.
  - cbn in Hval. lia.
  - unfold parseInt.
    destruct (isDigit c) eqn:Hc; [rewrite Hval; reflexivity|].
    cbn [digitsValue] in Hval. unfold isDigit in Hc.
    destruct (digit c); [discriminate | lia].
Qed.

Lemma Math_max_spec (rest : list (option Z)) (first : Z) :
  Forall (fun x => exists v, x = Some v) rest ->
  exists m, Math_max (Some first) rest = Some m
            /\ first <= m
            /\ (forall v, In (Some v) rest -> v <= m)
            /\ (m = first \/ In (Some m) rest).
Proof.
  unfold Math_max. revert first.
  induction rest as [|x rest IH]; intros first Hall.
  - exists first. repeat split; [lia | intros v [] | left; reflexivity].
  - inversion Hall as [|? ? [v ->] Hrest]; subst.
    cbn [fold_left number_max].
    destruct (IH (Z.max first v) Hrest) as (m & Hm & Hle & Hin & Hor).
    exists m. split; [exact Hm|]. split; [lia|]. split.
    + intros w [E|Hw]; [injection E as <-; lia | exact (Hin w Hw)].
    + destruct Hor as [->|Hor]; [|right; right; exact Hor].
      destruct (Z.max_spec first v) as [[_ ->]|[_ ->]];
        [right; left; reflexivity | left; reflexivity].
Qed.

Lemma nextInvoiceNumber_spec (invoices : list Invoice.t) :
  exists n, InvoiceForm.nextInvoiceNumber invoices = Some n
            /\ 1 <= n
            /\ (forall inv v, In inv invoices ->
                  InvoiceForm.numberPart (Invoice.invoiceNumber inv) = Some v ->
                  v < n)
            /\ (n = 1
                \/ exists inv, In inv invoices
                     /\ InvoiceForm.numberPart (Invoice.invoiceNumber inv)
                        = Some (n - 1)).
Proof.
  destruct invoices as [|i0 rest].
  { exists 1. repeat split; [lia | intros ? ? [] | left; reflexivity]. }
  set (invoices := i0 :: rest).
  change (InvoiceForm.nextInvoiceNumber invoices)
    with (number_succ
            (Math_max (Some 0)
               (map (fun inv => InvoiceForm.numberPart (Invoice.invoiceNumber inv))
                  invoices))).
  destruct (Math_max_spec
              (map (fun inv => InvoiceForm.numberPart (Invoice.invoiceNumber inv))
                 invoices) 0) as (m & Hm & Hle & Hin & Hor).
  { apply Forall_forall. intros x Hx. apply in_map_iff in Hx.
    destruct Hx as (inv & <- & _).
    destruct (numberPart_total (Invoice.invoiceNumber inv)) as (v & Hv & _).
    exists v. exact Hv. }
  rewrite Hm. exists (m + 1). split; [reflexivity|]. split; [lia|]. split.
  - intros inv v Hi Hv.
    assert (v <= m); [|lia]. apply Hin. rewrite <- Hv.
    apply (in_map (fun inv => InvoiceForm.numberPart (Invoice.invoiceNumber inv))).
    exact Hi.
  - destruct Hor as [->|Hor]; [left; reflexivity|]. right.
    apply in_map_iff in Hor. destruct Hor as (inv & Hv & Hi).
    exists inv. split; [exact Hi|]. rewrite Hv. f_equal. lia.
Qed.

Lemma padStart_length (n : nat) (s : string) :
  (n <= String.length (padStart n s))%nat.
Proof.
  unfold padStart.
  assert (H : forall a b, String.length (a ++ b) = (String.length a + String.length b)%nat).
  { induction a as [|c a IH]; intros b; cbn; [reflexivity | rewrite IH; reflexivity]. }
  assert (R : forall k, String.length (repeat_char "0" k) = k).
  { induction k as [|k IH]; cbn; [reflexivity | rewrite IH; reflexivity]. }
  rewrite H, R. lia.
Qed.

(** X16. The number of a new invoice continues the numbering: read back
    by the rule the form itself uses, it is one more than the largest
    numeric part among the existing invoices (1 when there is none), so it
    is greater than the numeric part of every existing invoice and differs
    from every existing invoice number; it has at least three digits after
    the [#].  The numeric parts are taken to be safe integers. *)
Theorem new_invoice_number_is_fresh :
  forall (DEFAULT_TEMPLATE : Template.t) (templates : list Template.t)
         (invoices : list Invoice.t) (businessProfile : BusinessProfile.t)
         (currentUser : User.t) (now issued created : Z),
    Forall (fun inv =>
              forall v, InvoiceForm.numberPart (Invoice.invoiceNumber inv) = Some v ->
                        v < MAX_SAFE_INTEGER) invoices ->
    let new := InvoiceForm.getNewInvoiceTemplate DEFAULT_TEMPLATE templates
                 invoices businessProfile currentUser now issued created in
    exists n,
      InvoiceForm.numberPart (Invoice.invoiceNumber new) = Some n
      /\ 1 <= n <= MAX_SAFE_INTEGER
      /\ (n = 1
          \/ exists inv, In inv invoices
               /\ InvoiceForm.numberPart (Invoice.invoiceNumber inv) = Some (n - 1))
      /\ (forall inv, In inv invoices ->
            exists v, InvoiceForm.numberPart (Invoice.invoiceNumber inv) = Some v
                      /\ 0 <= v < n)
      /\ (forall inv, In inv invoices ->
            Invoice.invoiceNumber inv <> Invoice.invoiceNumber new)
      /\ (4 <= String.length (Invoice.invoiceNumber new))%nat.
Proof.
  intros D templates invoices bp user now issued created Hsafe. cbv zeta.
  rewrite Forall_forall in Hsafe.
  cbn [InvoiceForm.getNewInvoiceTemplate Invoice.invoiceNumber].
  unfold InvoiceForm.formattedInvoiceNumber.
  destruct (nextInvoiceNumber_spec invoices) as (n & Hn & H1 & Hlt & Hor).
  rewrite Hn. exists n.
  assert (Hread := numberPart_formatted n H1).
  split; [exact Hread|]. split.
  { split; [exact H1|]. destruct Hor as [->|(inv & Hi & Hv)].
    - unfold MAX_SAFE_INTEGER. lia.
    - pose proof (Hsafe inv Hi _ Hv). lia. }
  split; [exact Hor|]. split.
  { intros inv Hi.
    destruct (numberPart_total (Invoice.invoiceNumber inv)) as (v & Hv & H0).
    exists v. split; [exact Hv|]. pose proof (Hlt inv v Hi Hv). lia. }
  split.
  { intros inv Hi E.
    destruct (numberPart_total (Invoice.invoiceNumber inv)) as (v & Hv & _).
    pose proof (Hlt inv v Hi Hv) as Hl. rewrite E, Hread in Hv.
    injection Hv as <-. lia. }
  change ("#" ++ padStart 3 (String_of_number (Some n)))%string
    with (String "#" (padStart 3 (String_of_number (Some n)))).
  cbn [String.length]. pose proof (padStart_length 3 (String_of_number (Some n))). lia.
Qed.

Lemma new_invoice_number_is_fresh_witness :
  Forall (fun inv =>
            forall v, InvoiceForm.numberPart (Invoice.invoiceNumber inv) = Some v ->
                      v < MAX_SAFE_INTEGER) Sample.invoices
  /\ Invoice.invoiceNumber
       (InvoiceForm.getNewInvoiceTemplate SampleForm.classicTemplate
          [SampleForm.classicTemplate; SampleForm.modernTemplate] Sample.invoices
          SampleForm.business Sample.annRow 1742058000000 1742058000000
          1742058000000) = "#002"%string
  /\ exists n,
       InvoiceForm.numberPart "#002" = Some n
       /\ forall inv, In inv Sample.invoices ->
            exists v, InvoiceForm.numberPart (Invoice.invoiceNumber inv) = Some v
                      /\ 0 <= v < n.
Proof.
  assert (Hsafe : Forall (fun inv =>
                            forall v,
                              InvoiceForm.numberPart (Invoice.invoiceNumber inv) = Some v ->
                              v < MAX_SAFE_INTEGER) Sample.invoices).
  { unfold Sample.invoices.
    repeat (apply Forall_cons;
            [intros v Hv; vm_compute in Hv; injection Hv as <-; reflexivity|]).
    apply Forall_nil. }
  split; [exact Hsafe|]. split; [reflexivity|].
  destruct (new_invoice_number_is_fresh SampleForm.classicTemplate
              [SampleForm.classicTemplate; SampleForm.modernTemplate] Sample.invoices
              SampleForm.business Sample.annRow 1742058000000 1742058000000
              1742058000000 Hsafe) as (n & Hn & _ & _ & Hlt & _).
  exists n. split; [exact Hn | exact Hlt].
Defined.

(** ** Saving and deleting invoices *)

Lemma filter_all {A : Type} (f : A -> bool) (l : list A) :
  (forall x, In x l -> f x = true) -> filter f l = l.
Proof.
  induction l as [|x l IH]; intros H; [reflexivity|].
  cbn [filter]. rewrite (H x (or_introl eq_refl)), IH; [reflexivity|].
  intros y Hy. apply H. right. exact Hy.
Qed.

(** X17. Create, then delete: saving a new invoice appends it and shows
    it; deleting it from that view removes it again, together with every
    stored invoice that has the same id, and returns to the list.  When
    no stored invoice has the id, the list is as it was. *)
Theorem new_invoice_save_then_delete :
  forall (st : Workspace.t) (invoice : Invoice.t),
    Workspace.invoiceToEdit st = None ->
    let saved := handleSaveInvoice invoice st in
    let deleted := handleDeleteInvoice saved in
    Workspace.invoices saved = Workspace.invoices st ++ [invoice]
    /\ Workspace.view saved = InvoiceView
    /\ Workspace.selectedInvoice saved = Some invoice
    /\ Workspace.printOnLoad saved = true
    /\ Workspace.invoices deleted
       = filter (fun inv => negb (String.eqb (Invoice.id inv) (Invoice.id invoice)))
           (Workspace.invoices st)
    /\ (~ In (Invoice.id invoice) (invoiceIds (Workspace.invoices st)) ->
        Workspace.invoices deleted = Workspace.invoices st)
    /\ Workspace.view deleted = ListView
    /\ Workspace.selectedInvoice deleted = None.
Proof.
  intros st invoice Hedit. cbv zeta.
  unfold handleSaveInvoice, handleDeleteInvoice. rewrite Hedit.
  cbn [isSome Workspace.invoices Workspace.view Workspace.selectedInvoice
       Workspace.printOnLoad].
  assert (Hdel : filter (fun inv => negb (Invoice.id inv =? Invoice.id invoice)%string)
                   (Workspace.invoices st ++ [invoice])
                 = filter (fun inv => negb (Invoice.id inv =? Invoice.id invoice)%string)
                     (Workspace.invoices st)).
  { rewrite filter_app. cbn [filter]. rewrite String.eqb_refl. cbn [negb].
    apply app_nil_r. }
  repeat split.
  - exact Hdel.
  - intros Hfresh. rewrite Hdel. apply filter_all. intros x Hx.
    destruct (String.eqb_spec (Invoice.id x) (Invoice.id invoice)) as [E|_];
      [|reflexivity].
    exfalso. apply Hfresh. rewrite <- E. apply in_map. exact Hx.
Qed.

Lemma new_invoice_save_then_delete_witness :
  Workspace.invoiceToEdit SampleForm.listing = None
  /\ ~ In (Invoice.id SampleForm.draft)
         (invoiceIds (Workspace.invoices SampleForm.listing))
  /\ Workspace.invoices
       (handleDeleteInvoice (handleSaveInvoice SampleForm.draft SampleForm.listing))
     = Workspace.invoices SampleForm.listing.
Proof.
  assert (Hfresh : ~ In (Invoice.id SampleForm.draft)
                       (invoiceIds (Workspace.invoices SampleForm.listing))).
  { cbn. intros [H|[H|[]]]; discriminate. }
  split; [reflexivity|]. split; [exact Hfresh|].
  destruct (new_invoice_save_then_delete SampleForm.listing SampleForm.draft eq_refl)
    as (_ & _ & _ & _ & _ & H & _).
  exact (H Hfresh).
Defined.

Lemma map_replace_ids (invoice : Invoice.t) (l : list Invoice.t) :
  invoiceIds (map (fun inv => if String.eqb (Invoice.id inv) (Invoice.id invoice)
                              then invoice else inv) l)
  = invoiceIds l.
Proof.
  unfold invoiceIds. rewrite map_map. apply map_ext. intros inv.
  destruct (String.eqb_spec (Invoice.id inv) (Invoice.id invoice)) as [E|_];
    [symmetry; exact E | reflexivity].
Qed.

Lemma map_replace_absent (invoice : Invoice.t) (l : list Invoice.t) :
  ~ In (Invoice.id invoice) (invoiceIds l) ->
  map (fun inv => if String.eqb (Invoice.id inv) (Invoice.id invoice)
                  then invoice else inv) l = l.
Proof.
  induction l as [|x l IH]; intros H; [reflexivity|].
  cbn [map]. cbn in H.
  destruct (String.eqb_spec (Invoice.id x) (Invoice.id invoice)) as [E|_].
  - exfalso. apply H. left. exact E.
  - rewrite IH; [reflexivity|]. intros Hin. apply H. right. exact Hin.
Qed.

(** X18. Saving an edit replaces in place: the stored invoices keep their
    number, their order and their ids; when ids are distinct, the one
    invoice with the id of the submitted one gives way to it and every
    other stays.  An edit whose id no stored invoice has changes nothing
    in the list, although the submitted invoice is the one shown. *)
Theorem edited_invoice_replaces_in_place :
  forall (st : Workspace.t) (edited invoice : Invoice.t),
    Workspace.invoiceToEdit st = Some edited ->
    let saved := handleSaveInvoice invoice st in
    invoiceIds (Workspace.invoices saved) = invoiceIds (Workspace.invoices st)
    /\ Workspace.selectedInvoice saved = Some invoice
    /\ Workspace.view saved = InvoiceView
    /\ Workspace.printOnLoad saved = Workspace.printOnLoad st
    /\ (NoDup (invoiceIds (Workspace.invoices st)) ->
        forall old, In old (Workspace.invoices st) ->
          Invoice.id old = Invoice.id invoice ->
          exists before after,
            Workspace.invoices st = before ++ old :: after
            /\ Workspace.invoices saved = before ++ invoice :: after)
    /\ (~ In (Invoice.id invoice) (invoiceIds (Workspace.invoices st)) ->
        Workspace.invoices saved = Workspace.invoices st).
Proof.
  intros st edited invoice Hedit. cbv zeta. unfold handleSaveInvoice.
  rewrite Hedit.
  cbn [isSome Workspace.invoices Workspace.view Workspace.selectedInvoice
       Workspace.printOnLoad].
  split; [apply map_replace_ids|]. repeat split.
  - intros Hnd old Hin Hid.
    apply in_split in Hin. destruct Hin as (before & after & E).
    exists before, after. split; [exact E|].
    rewrite E in *. unfold invoiceIds in Hnd. rewrite map_app in Hnd.
    cbn [map] in Hnd. apply NoDup_remove_2 in Hnd.
    rewrite map_app. cbn [map]. rewrite Hid, String.eqb_refl.
    rewrite !map_replace_absent; [reflexivity | |].
    + intros H. apply Hnd. apply in_or_app. right. rewrite Hid. exact H.
    + intros H. apply Hnd. apply in_or_app. left. rewrite Hid. exact H.
  - apply map_replace_absent.
Qed.

Lemma edited_invoice_replaces_in_place_witness :
  Workspace.invoiceToEdit SampleForm.editing = Some (SampleForm.firstOf "A")
  /\ NoDup (invoiceIds (Workspace.invoices SampleForm.editing))
  /\ invoiceIds (Workspace.invoices
                   (handleSaveInvoice (SampleForm.firstOf "Z") SampleForm.editing))
     = ["INV-A"; "INV-B"]%string
  /\ exists before after,
       Workspace.invoices SampleForm.editing
       = before ++ SampleForm.firstOf "A" :: after
       /\ Workspace.invoices
            (handleSaveInvoice (SampleForm.firstOf "Z") SampleForm.editing)
          = before ++ SampleForm.firstOf "Z" :: after.
Proof.
  assert (Hnd : NoDup (invoiceIds (Workspace.invoices SampleForm.editing))).
  { cbn. repeat constructor; cbn; intuition discriminate. }
  split; [reflexivity|]. split; [exact Hnd|].
  destruct (edited_invoice_replaces_in_place SampleForm.editing
              (SampleForm.firstOf "A") (SampleForm.firstOf "Z") eq_refl)
    as (Hids & _ & _ & _ & Hin & _).
  split; [rewrite Hids; reflexivity|].
  exact (Hin Hnd (SampleForm.firstOf "A") (or_introl eq_refl) eq_refl).
Defined.

(** ** The template editor *)

Lemma load_alloc (o : Template.t) (h : Store.t) (refs : list Ref) :
  Forall (fun r => (r < Store.next h)%nat) refs ->
  Store.load (snd (Store.alloc o h)) refs = Store.load h refs.
Proof.
  intros H. unfold Store.load. apply map_ext_in. intros r Hr.
  rewrite Forall_forall in H. specialize (H r Hr). cbn.
  destruct (Nat.eqb_spec r (Store.next h)); [lia | reflexivity].
Qed.

Lemma mapObjects_spec (f : Template.t -> option Template.t) (refs : list Ref)
    (h : Store.t) :
  Forall (fun r => (r < Store.next h)%nat) refs ->
  let out := mapObjects f refs h in
  Store.load (snd out) (fst out)
  = map (fun t => match f t with Some o => o | None => t end) (Store.load h refs)
  /\ Forall (fun r => (r < Store.next (snd out))%nat) (fst out)
  /\ (Store.next h <= Store.next (snd out))%nat
  /\ (forall r, (r < Store.next h)%nat -> Store.cell (snd out) r = Store.cell h r).
Proof.
  revert h. induction refs as [|r rest IH]; intros h Hall; cbv zeta.
  - cbn. repeat split; [constructor | lia].
  - inversion Hall as [|? ? Hr Hrest]; subst.
    cbn [mapObjects]. unfold Store.get.
    destruct (f (Store.cell h r)) as [o|] eqn:Ef.
    + cbn [Store.alloc].
      set (h1 := {| Store.cell := fun r0 => if Nat.eqb r0 (Store.next h) then o
                                            else Store.cell h r0;
                    Store.next := S (Store.next h) |}).
      assert (Hrest1 : Forall (fun r => (r < Store.next h1)%nat) rest).
      { eapply Forall_impl; [|exact Hrest]. cbn. intros; lia. }
      specialize (IH h1 Hrest1). cbv zeta in IH.
      destruct (mapObjects f rest h1) as [rest' h2] eqn:Em.
      cbn [fst snd] in *. destruct IH as (IH1 & IH2 & IH3 & IH4).
      assert (Hold : forall x, (x < Store.next h)%nat -> Store.cell h1 x = Store.cell h x).
      { intros x Hx. cbn. destruct (Nat.eqb_spec x (Store.next h)); [lia | reflexivity]. }
      split; [|split; [|split]].
      * cbn [Store.load map]. f_equal.
        -- rewrite Ef. rewrite IH4 by (cbn; lia). cbn. rewrite Nat.eqb_refl. reflexivity.
        -- fold (Store.load h2 rest'). rewrite IH1. unfold Store.load.
           rewrite !map_map. apply map_ext_in. intros x Hx.
           rewrite Forall_forall in Hrest. rewrite (Hold x (Hrest x Hx)). reflexivity.
      * constructor; [cbn in IH3; lia | exact IH2].
      * cbn in IH3. lia.
      * intros x Hx. rewrite IH4 by (cbn; lia). apply Hold. exact Hx.
    + specialize (IH h Hrest). cbv zeta in IH.
      destruct (mapObjects f rest h) as [rest' h2] eqn:Em.
      cbn [fst snd] in *. destruct IH as (IH1 & IH2 & IH3 & IH4).
      split; [|split; [|split]].
      * cbn [Store.load map]. f_equal.
        -- rewrite Ef. apply IH4. exact Hr.
        -- exact IH1.
      * constructor; [lia | exact IH2].
      * exact IH3.
      * exact IH4.
Qed.

Lemma find_load (p : Template.t -> bool) (h : Store.t) (refs : list Ref) :
  option_map (Store.get h) (find (fun r => p (Store.get h r)) refs)
  = find p (Store.load h refs).
Proof.
  induction refs as [|r rest IH]; [reflexivity|].
  cbn [find Store.load map]. unfold Store.get in *.
  destruct (p (Store.cell h r)); [reflexivity | exact IH].
Qed.

Lemma filter_load (p : Template.t -> bool) (h : Store.t) (refs : list Ref) :
  Store.load h (filter (fun r => p (Store.get h r)) refs)
  = filter p (Store.load h refs).
Proof.
  induction refs as [|r rest IH]; [reflexivity|].
  cbn [filter Store.load map]. unfold Store.get in *.
  destruct (p (Store.cell h r)); cbn [Store.load map]; [f_equal|]; exact IH.
Qed.

Lemma defaultCount_app (a b : list Template.t) :
  defaultCount (a ++ b) = (defaultCount a + defaultCount b)%nat.
Proof. unfold defaultCount. rewrite filter_app, length_app. reflexivity. Qed.

Lemma defaultCount_map (g : Template.t -> Template.t) (ts : list Template.t) :
  (forall t, Template.isDefault (g t) = Template.isDefault t) ->
  defaultCount (map g ts) = defaultCount ts.
Proof.
  intros H. unfold defaultCount.
  induction ts as [|t ts IH]; [reflexivity|].
  cbn [map filter]. rewrite H. destruct (Template.isDefault t); cbn [List.length];
    rewrite IH; reflexivity.
Qed.

Lemma defaultCount_split (p : Template.t -> bool) (ts : list Template.t) :
  defaultCount ts
  = (defaultCount (filter p ts) + defaultCount (filter (fun t => negb (p t)) ts))%nat.
Proof.
  unfold defaultCount.
  induction ts as [|t ts IH]; [reflexivity|].
  cbn [filter]. destruct (p t), (Template.isDefault t) eqn:E;
    cbn [negb filter List.length]; rewrite ?E; cbn [List.length]; lia.
Qed.

Lemma filter_length_split {A : Type} (p : A -> bool) (l : list A) :
  List.length l
  = (List.length (filter p l) + List.length (filter (fun x => negb (p x)) l))%nat.
Proof.
  induction l as [|x l IH]; [reflexivity|].
  cbn [filter]. destruct (p x); cbn [negb List.length]; lia.
Qed.

(** With distinct ids, the templates with a given id are the one found. *)
Lemma filter_by_id (s : string) (ts : list Template.t) :
  NoDup (templateIds ts) ->
  In s (templateIds ts) ->
  exists t, find (hasId (Some s)) ts = Some t
            /\ In t ts /\ Template.id t = s
            /\ filter (hasId (Some s)) ts = [t].
Proof.
  unfold templateIds. induction ts as [|x ts IH]; intros Hnd Hin; [destruct Hin|].
  cbn [map] in Hnd, Hin. inversion Hnd as [|? ? Hx Hnd']; subst.
  cbn [find filter hasId].
  destruct (String.eqb_spec (Template.id x) s) as [E|E].
  - exists x. split; [reflexivity|]. split; [left; reflexivity|]. split; [exact E|].
    f_equal. clear IH Hin Hnd. induction ts as [|y ts IH]; [reflexivity|].
    cbn [filter hasId]. cbn [map] in Hx, Hnd'. inversion Hnd'; subst.
    destruct (String.eqb_spec (Template.id y) (Template.id x)) as [E'|_].
    + exfalso. apply Hx. left. exact E'.
    + apply IH; [|assumption]. intros H. apply Hx. right. exact H.
  - destruct Hin as [Hin|Hin]; [contradiction|].
    destruct (IH Hnd' Hin) as (t & Hf & Ht & Hid & Hfl).
    exists t. split; [exact Hf|]. split; [right; exact Ht|].
    split; [exact Hid | exact Hfl].
Qed.

Lemma NoDup_ids_filter (p : Template.t -> bool) (ts : list Template.t) :
  NoDup (templateIds ts) -> NoDup (templateIds (filter p ts)).
Proof.
  unfold templateIds. induction ts as [|x ts IH]; intros H; [constructor|].
  cbn [map] in H. inversion H as [|? ? Hx Hnd]; subst.
  cbn [filter]. destruct (p x); [|exact (IH Hnd)].
  cbn [map]. constructor; [|exact (IH Hnd)].
  intros Hin. apply Hx. apply in_map_iff in Hin. destruct Hin as (y & Ey & Hy).
  apply in_map_iff. exists y. split; [exact Ey|].
  apply filter_In in Hy. exact (proj1 Hy).
Qed.

(** Marking by id marks exactly the templates with the id. *)
Lemma defaultCount_marked (s : string) (ts : list Template.t) :
  defaultCount (map (fun t => withField (FieldIsDefault (hasId (Some s) t)) t) ts)
  = List.length (filter (hasId (Some s)) ts).
Proof.
  unfold defaultCount. induction ts as [|t ts IH]; [reflexivity|].
  cbn [map]. cbn [filter].
  replace (Template.isDefault (withField (FieldIsDefault (hasId (Some s) t)) t))
    with (hasId (Some s) t) by reflexivity.
  destruct (hasId (Some s) t); cbn [List.length]; rewrite IH; reflexivity.
Qed.

Lemma load_put_head (h : Store.t) (first : Ref) (rest : list Ref) (o : Template.t) :
  ~ In first rest ->
  Store.load (Store.put first o h) (first :: rest) = o :: Store.load h rest.
Proof.
  intros Hn. cbn [Store.load map Store.put Store.cell].
  rewrite Nat.eqb_refl. f_equal. apply map_ext_in. intros x Hx.
  destruct (Nat.eqb_spec x first) as [->|_]; [contradiction | reflexivity].
Qed.

Lemma load_put_absent (h : Store.t) (r : Ref) (refs : list Ref) (o : Template.t) :
  ~ In r refs -> Store.load (Store.put r o h) refs = Store.load h refs.
Proof.
  intros Hn. unfold Store.load. apply map_ext_in. intros x Hx. cbn.
  destruct (Nat.eqb_spec x r) as [->|_]; [contradiction | reflexivity].
Qed.

Lemma NoDup_refs (h : Store.t) (refs : list Ref) :
  NoDup (templateIds (Store.load h refs)) -> NoDup refs.
Proof.
  unfold templateIds, Store.load. rewrite map_map. apply NoDup_map_inv.
Qed.

Lemma NoDup_app_iff_helper {A : Type} (l : list A) (x : A) :
  NoDup l -> ~ In x l -> NoDup (l ++ [x]).
Proof.
  intros Hnd Hx. induction l as [|y l IH]; [repeat constructor; intros []|].
  inversion Hnd as [|? ? Hy Hl]; subst. cbn [app]. constructor.
  - intros Hin. apply in_app_or in Hin. destruct Hin as [Hin|[->|[]]].
    + contradiction.
    + apply Hx. left. reflexivity.
  - apply IH; [exact Hl|]. intros H. apply Hx. right. exact H.
Qed.

Lemma handleTemplateChange_keeps (f : TemplateField) (h : Store.t)
    (st : SettingsModal.State) :
  plainField f ->
  wellFormedTemplates h (SettingsModal.localTemplates st) ->
  selectionValid h st ->
  let out := SettingsModal.handleTemplateChange f h st in
  wellFormedTemplates (fst out) (SettingsModal.localTemplates (snd out))
  /\ selectionValid (fst out) (snd out).
Proof.
  intros Hf (Hv & Hnd & Hc) Hsel. cbv zeta.
  unfold SettingsModal.handleTemplateChange.
  destruct (negb (truthy (SettingsModal.selectedTemplateId st)));
    [split; [exact (conj Hv (conj Hnd Hc)) | exact Hsel]|].
  pose proof (mapObjects_spec
                (fun t => if hasId (SettingsModal.selectedTemplateId st) t
                          then Some (withField f t) else None)
                (SettingsModal.localTemplates st) h Hv) as Hm.
  cbv zeta in Hm.
  destruct (mapObjects _ (SettingsModal.localTemplates st) h) as [refs h'].
  cbn [fst snd SettingsModal.localTemplates SettingsModal.selectedTemplateId] in *.
  destruct Hm as (Hl & Hv' & _ & _).
  assert (Hids : templateIds (Store.load h' refs)
                 = templateIds (Store.load h (SettingsModal.localTemplates st))).
  { rewrite Hl. unfold templateIds. rewrite map_map. apply map_ext. intros t.
    destruct (hasId (SettingsModal.selectedTemplateId st) t); [|reflexivity].
    destruct f; try reflexivity; destruct Hf. }
  split.
  - split; [exact Hv'|]. split; [rewrite Hids; exact Hnd|].
    rewrite Hl, defaultCount_map; [exact Hc|]. intros t.
    destruct (hasId (SettingsModal.selectedTemplateId st) t); [|reflexivity].
    destruct f; try reflexivity; destruct Hf.
  - destruct Hsel as (id & Hid & Hin). exists id. split; [exact Hid|].
    cbn [fst snd SettingsModal.localTemplates]. rewrite Hids. exact Hin.
Qed.

Lemma handleSetDefaultTemplate_keeps (h : Store.t) (st : SettingsModal.State) :
  wellFormedTemplates h (SettingsModal.localTemplates st) ->
  selectionValid h st ->
  let out := SettingsModal.handleSetDefaultTemplate h st in
  wellFormedTemplates (fst out) (SettingsModal.localTemplates (snd out))
  /\ selectionValid (fst out) (snd out).
Proof.
  intros (Hv & Hnd & Hc) Hsel. cbv zeta.
  unfold SettingsModal.handleSetDefaultTemplate.
  destruct (negb (truthy (SettingsModal.selectedTemplateId st)));
    [split; [exact (conj Hv (conj Hnd Hc)) | exact Hsel]|].
  pose proof (mapObjects_spec
                (fun t => Some (withField
                                  (FieldIsDefault
                                     (hasId (SettingsModal.selectedTemplateId st) t)) t))
                (SettingsModal.localTemplates st) h Hv) as Hm.
  cbv zeta in Hm.
  destruct (mapObjects _ (SettingsModal.localTemplates st) h) as [refs h'].
  cbn [fst snd SettingsModal.localTemplates SettingsModal.selectedTemplateId] in *.
  destruct Hm as (Hl & Hv' & _ & _).
  assert (Hids : templateIds (Store.load h' refs)
                 = templateIds (Store.load h (SettingsModal.localTemplates st))).
  { rewrite Hl. unfold templateIds. rewrite map_map. apply map_ext. reflexivity. }
  destruct Hsel as (id & Hid & Hin).
  split.
  - split; [exact Hv'|]. split; [rewrite Hids; exact Hnd|].
    rewrite Hl, Hid.
    rewrite (defaultCount_marked id).
    destruct (filter_by_id id _ Hnd Hin) as (t & _ & _ & _ & ->). reflexivity.
  - exists id. split; [exact Hid|].
    cbn [fst snd SettingsModal.localTemplates]. rewrite Hids. exact Hin.
Qed.

Lemma handleAddNewTemplate_keeps (now : Z) (h : Store.t) (st : SettingsModal.State) :
  wellFormedTemplates h (SettingsModal.localTemplates st) ->
  ~ In (Template.id (SettingsModal.newTemplateFactory now))
      (map Template.id (Store.load h (SettingsModal.localTemplates st))) ->
  let out := SettingsModal.handleAddNewTemplate now h st in
  wellFormedTemplates (fst out) (SettingsModal.localTemplates (snd out))
  /\ selectionValid (fst out) (snd out).
Proof.
  intros (Hv & Hnd & Hc) Hfresh. cbv zeta.
  unfold SettingsModal.handleAddNewTemplate.
  pose proof (load_alloc (SettingsModal.newTemplateFactory now) h _ Hv) as Hl.
  cbn [Store.alloc fst snd SettingsModal.localTemplates
       SettingsModal.selectedTemplateId] in *.
  set (h' := {| Store.cell := _; Store.next := S (Store.next h) |}) in *.
  assert (Hnew : Store.cell h' (Store.next h) = SettingsModal.newTemplateFactory now).
  { cbn. rewrite Nat.eqb_refl. reflexivity. }
  assert (Hload : Store.load h' (SettingsModal.localTemplates st ++ [Store.next h])
                  = Store.load h (SettingsModal.localTemplates st)
                    ++ [SettingsModal.newTemplateFactory now]).
  { unfold Store.load in *. rewrite map_app, Hl. cbn [map]. rewrite Hnew. reflexivity. }
  split.
  - split; [|split].
    + apply Forall_app. split.
      * eapply Forall_impl; [|exact Hv]. cbn. intros; lia.
      * constructor; [cbn; lia | constructor].
    + rewrite Hload. unfold templateIds in *. rewrite map_app. cbn [map].
      apply NoDup_app_iff_helper; assumption.
    + rewrite Hload, defaultCount_app, Hc. reflexivity.
  - eexists. split; [reflexivity|].
    cbn [fst snd SettingsModal.localTemplates]. rewrite Hload. unfold templateIds, Store.get.
    rewrite map_app, Hnew. apply in_or_app. right. left. reflexivity.
Qed.

(** What a confirmed deletion does, for distinct ids and a valid
    selection among at least two templates. *)
Lemma handleDeleteTemplate_confirmed (h : Store.t) (st : SettingsModal.State)
    (s : string) :
  Forall (fun r => (r < Store.next h)%nat) (SettingsModal.localTemplates st) ->
  NoDup (templateIds (Store.load h (SettingsModal.localTemplates st))) ->
  SettingsModal.selectedTemplateId st = Some s ->
  In s (templateIds (Store.load h (SettingsModal.localTemplates st))) ->
  truthy (Some s) = true ->
  (2 <= List.length (SettingsModal.localTemplates st))%nat ->
  exists (selected first : Ref) (rest : list Ref),
    SettingsModal.selectedTemplate h st = Some selected
    /\ In selected (SettingsModal.localTemplates st)
    /\ Template.id (Store.get h selected) = s
    /\ filter (fun r => negb (hasId (Some s) (Store.get h r)))
         (SettingsModal.localTemplates st) = first :: rest
    /\ ~ In first rest
    /\ first <> selected
    /\ defaultCount (Store.load h (SettingsModal.localTemplates st))
       = ((if Template.isDefault (Store.get h selected) then 1 else 0)
          + defaultCount (Store.load h (first :: rest)))%nat
    /\ let h' :=
         if Template.isDefault (Store.get h selected)
         then Store.put first
                (withField (FieldIsDefault true) (Store.get h first)) h
         else h in
       SettingsModal.handleDeleteTemplate true h st
       = SettingsModal.Continue false h'
           {| SettingsModal.localTemplates := first :: rest;
              SettingsModal.selectedTemplateId :=
                Some (Template.id (Store.get h first)) |}.
Proof.
  intros Hv Hnd Hs Hin Ht Hlen.
  set (refs := SettingsModal.localTemplates st) in *.
  destruct (filter_by_id s _ Hnd Hin) as (t & Hfind & Hint & Hid & Hfl).
  pose proof (find_load (hasId (Some s)) h refs) as Hfl2. rewrite Hfind in Hfl2.
  destruct (find (fun r => hasId (Some s) (Store.get h r)) refs) as [selected|] eqn:Esel;
    [|discriminate].
  cbn [option_map] in Hfl2. injection Hfl2 as Hget.
  pose proof (find_some _ _ Esel) as [Hsel_in Hsel_id].
  pose proof (filter_load (fun x => negb (hasId (Some s) x)) h refs) as Hrem.
  pose proof (filter_length_split (hasId (Some s)) (Store.load h refs)) as Hsplit.
  rewrite Hfl in Hsplit. rewrite <- Hrem in Hsplit.
  unfold Store.load in Hsplit at 1. rewrite length_map in Hsplit.
  destruct (filter (fun r => negb (hasId (Some s) (Store.get h r))) refs)
    as [|first rest] eqn:Erem.
  { cbn in Hsplit. lia. }
  assert (Hnd_refs : NoDup (first :: rest)).
  { rewrite <- Erem. apply NoDup_filter. exact (NoDup_refs h refs Hnd). }
  assert (Hfirst : In first (filter (fun r => negb (hasId (Some s) (Store.get h r))) refs))
    by (rewrite Erem; left; reflexivity).
  apply filter_In in Hfirst. destruct Hfirst as [_ Hfirst_id].
  exists selected, first, rest.
  split; [unfold SettingsModal.selectedTemplate; rewrite Hs; exact Esel|].
  split; [exact Hsel_in|].
  split; [rewrite Hget; exact Hid|].
  split; [reflexivity|].
  split; [inversion Hnd_refs; assumption|].
  split.
  { intros ->. rewrite Hsel_id in Hfirst_id. discriminate. }
  split.
  { rewrite (defaultCount_split (hasId (Some s)) (Store.load h refs)), Hfl.
    rewrite <- Hrem, Hget. unfold defaultCount at 1. cbn [filter].
    destruct (Template.isDefault t); reflexivity. }
  cbv zeta. unfold SettingsModal.handleDeleteTemplate.
  fold refs. rewrite Hs, Ht. cbn [negb orb].
  destruct (Nat.leb_spec (List.length refs) 1) as [Hle|_]; [lia|].
  rewrite Erem. unfold SettingsModal.selectedTemplate. fold refs.
  rewrite Hs, Esel.
  destruct (Template.isDefault (Store.get h selected)) eqn:Ed.
  - f_equal. f_equal. f_equal. cbn. rewrite Nat.eqb_refl. reflexivity.
  - reflexivity.
Qed.

Lemma handleDeleteTemplate_keeps (confirmed : bool) (h : Store.t)
    (st : SettingsModal.State) :
  wellFormedTemplates h (SettingsModal.localTemplates st) ->
  selectionValid h st ->
  endsWith (fun h' st' =>
              wellFormedTemplates h' (SettingsModal.localTemplates st')
              /\ selectionValid h' st')
    (SettingsModal.handleDeleteTemplate confirmed h st).
Proof.
  intros (Hv & Hnd & Hc) (s & Hs & Hin).
  assert (Hsame : wellFormedTemplates h (SettingsModal.localTemplates st)
                  /\ selectionValid h st).
  { split; [exact (conj Hv (conj Hnd Hc)) | exists s; split; assumption]. }
  destruct (truthy (Some s)) eqn:Ht;
    [|unfold SettingsModal.handleDeleteTemplate; rewrite Hs, Ht; exact Hsame].
  destruct (Nat.leb_spec (List.length (SettingsModal.localTemplates st)) 1) as [Hle|Hlen].
  { unfold SettingsModal.handleDeleteTemplate.
    replace (List.length (SettingsModal.localTemplates st) <=? 1)%nat with true
      by (symmetry; apply Nat.leb_le; exact Hle).
    rewrite orb_true_r. exact Hsame. }
  destruct confirmed.
  2:{ unfold SettingsModal.handleDeleteTemplate. rewrite Hs, Ht.
      replace (List.length (SettingsModal.localTemplates st) <=? 1)%nat with false
        by (symmetry; apply Nat.leb_gt; exact Hlen).
      exact Hsame. }
  destruct (handleDeleteTemplate_confirmed h st s Hv Hnd Hs Hin Ht ltac:(lia))
    as (selected & first & rest & _ & _ & _ & Erem & Hnf & _ & Hcount & Hout).
  cbv zeta in Hout. rewrite Hout. cbn [endsWith SettingsModal.localTemplates].
  pose proof (filter_load (fun x => negb (hasId (Some s) x)) h
                (SettingsModal.localTemplates st)) as Hrem.
  cbv beta in Hrem. rewrite Erem in Hrem.
  assert (Hv' : Forall (fun r => (r < Store.next h)%nat) (first :: rest)).
  { rewrite <- Erem. apply Forall_forall. intros r Hr. apply filter_In in Hr.
    rewrite Forall_forall in Hv. apply Hv. exact (proj1 Hr). }
  assert (Hnd' : NoDup (templateIds (Store.load h (first :: rest)))).
  { rewrite Hrem. apply NoDup_ids_filter. exact Hnd. }
  rewrite Hc in Hcount.
  destruct (Template.isDefault (Store.get h selected)).
  - assert (Hids : templateIds
                     (withField (FieldIsDefault true) (Store.get h first)
                      :: Store.load h rest)
                   = templateIds (Store.load h (first :: rest))) by reflexivity.
    split; [split; [exact Hv' | split]|].
    + rewrite load_put_head by exact Hnf. rewrite Hids. exact Hnd'.
    + rewrite load_put_head by exact Hnf.
      assert (H0 : defaultCount (Store.load h (first :: rest)) = 0%nat) by lia.
      cbn [Store.load map] in H0. unfold defaultCount in *. cbn [filter] in *.
      unfold Store.get.
      destruct (Template.isDefault (Store.cell h first)); [discriminate|].
      cbn [withField Template.isDefault List.length]. unfold Store.load. rewrite H0.
      reflexivity.
    + eexists. split; [reflexivity|].
      cbn [SettingsModal.localTemplates]. rewrite load_put_head by exact Hnf.
      left. reflexivity.
  - split; [split; [exact Hv' | split; [exact Hnd' | lia]]|].
    eexists. split; [reflexivity|]. left. reflexivity.
Qed.

Lemma act_keeps (a : SettingsModal.Action) (h : Store.t) (st : SettingsModal.State) :
  wellFormedTemplates h (SettingsModal.localTemplates st) ->
  selectionValid h st ->
  SettingsModal.offered a h st ->
  endsWith (fun h' st' =>
              wellFormedTemplates h' (SettingsModal.localTemplates st')
              /\ selectionValid h' st')
    (SettingsModal.act a h st).
Proof.
  intros Hwf Hsel Hoff. unfold SettingsModal.offered in Hoff.
  destruct (SettingsModal.selectedTemplate h st) as [r|]; [|destruct Hoff].
  destruct a as [id|v|v|v|v| |now|confirmed]; cbn [SettingsModal.act].
  - cbn [endsWith]. split; [exact Hwf|]. exists id. split; [reflexivity | exact Hoff].
  - pose proof (handleTemplateChange_keeps (FieldName v) h st I Hwf Hsel) as H.
    cbv zeta in H. destruct (SettingsModal.handleTemplateChange _ h st). exact H.
  - pose proof (handleTemplateChange_keeps (FieldAccentColor v) h st I Hwf Hsel) as H.
    cbv zeta in H. destruct (SettingsModal.handleTemplateChange _ h st). exact H.
  - pose proof (handleTemplateChange_keeps (FieldLayout v) h st I Hwf Hsel) as H.
    cbv zeta in H. destruct (SettingsModal.handleTemplateChange _ h st). exact H.
  - pose proof (handleTemplateChange_keeps (FieldDefaultNotes v) h st I Hwf Hsel) as H.
    cbv zeta in H. destruct (SettingsModal.handleTemplateChange _ h st). exact H.
  - pose proof (handleSetDefaultTemplate_keeps h st Hwf Hsel) as H.
    cbv zeta in H. destruct (SettingsModal.handleSetDefaultTemplate h st). exact H.
  - pose proof (handleAddNewTemplate_keeps now h st Hwf Hoff) as H.
    cbv zeta in H. destruct (SettingsModal.handleAddNewTemplate now h st). exact H.
  - exact (handleDeleteTemplate_keeps confirmed h st Hwf Hsel).
Qed.

Lemma run_keeps (actions : list SettingsModal.Action) (h : Store.t)
    (st : SettingsModal.State) :
  wellFormedTemplates h (SettingsModal.localTemplates st) ->
  selectionValid h st ->
  SettingsModal.allOffered actions h st ->
  endsWith (fun h' st' => wellFormedTemplates h' (SettingsModal.localTemplates st'))
    (SettingsModal.run actions h st).
Proof.
  revert h st. induction actions as [|a rest IH]; intros h st Hwf Hsel Hall.
  - exact Hwf.
  - cbn [SettingsModal.allOffered] in Hall. destruct Hall as [Hoff Hrest].
    pose proof (act_keeps a h st Hwf Hsel Hoff) as Hact.
    cbn [SettingsModal.run].
    destruct (SettingsModal.act a h st) as [al h' st'|]; [|destruct Hact].
    destruct Hact as [Hwf' Hsel']. exact (IH h' st' Hwf' Hsel' Hrest).
Qed.

(** At mount the selection is one of the templates, or there is none
    and the editor shows no control. *)
Lemma mount_selection (h : Store.t) (templates : list Ref) :
  selectionValid h (SettingsModal.mount h templates)
  \/ SettingsModal.selectedTemplate h (SettingsModal.mount h templates) = None.
Proof.
  unfold SettingsModal.mount. cbv zeta.
  destruct (find Template.isDefault (Store.load h templates)) as [d|] eqn:Ed.
  - cbn [option_map]. destruct (truthy (Some (Template.id d))) eqn:Td.
    + left. exists (Template.id d). split; [reflexivity|].
      cbn [SettingsModal.localTemplates]. apply in_map.
      exact (proj1 (find_some _ _ Ed)).
    + destruct (hd_error (Store.load h templates)) as [t|] eqn:Eh.
      * cbn [option_map]. destruct (truthy (Some (Template.id t))) eqn:Tt.
        -- left. exists (Template.id t). split; [reflexivity|].
           cbn [SettingsModal.localTemplates]. apply in_map.
           destruct (Store.load h templates); [discriminate|].
           injection Eh as ->. left. reflexivity.
        -- right. unfold SettingsModal.selectedTemplate.
           cbn [SettingsModal.selectedTemplateId hasId].
           cbn [SettingsModal.localTemplates]. clear.
           induction templates as [|x l IH]; [reflexivity | exact IH].
      * right. destruct templates; [reflexivity | discriminate].
  - cbn [option_map truthy].
    destruct (hd_error (Store.load h templates)) as [t|] eqn:Eh.
    + cbn [option_map]. destruct (truthy (Some (Template.id t))) eqn:Tt.
      * left. exists (Template.id t). split; [reflexivity|].
        cbn [SettingsModal.localTemplates]. apply in_map.
        destruct (Store.load h templates); [discriminate|].
        injection Eh as ->. left. reflexivity.
      * right. unfold SettingsModal.selectedTemplate.
        cbn [SettingsModal.selectedTemplateId hasId].
        cbn [SettingsModal.localTemplates]. clear.
           induction templates as [|x l IH]; [reflexivity | exact IH].
    + right. destruct templates; [reflexivity | discriminate].
Qed.

(** With exactly one default, that is the template the invoice form takes. *)
Lemma defaultTemplate_unique (D : Template.t) (ts : list Template.t) :
  defaultCount ts = 1%nat ->
  let d := InvoiceForm.defaultTemplate D ts in
  In d ts /\ Template.isDefault d = true
  /\ (forall t, In t ts -> Template.isDefault t = true -> t = d).
Proof.
  intros Hc. cbv zeta. unfold InvoiceForm.defaultTemplate, defaultCount in *.
  induction ts as [|x ts IH]; [discriminate|].
  cbn [find filter] in *. destruct (Template.isDefault x) eqn:Ex.
  - split; [left; reflexivity|]. split; [exact Ex|].
    intros t [->|Ht] Hd; [reflexivity|].
    cbn [List.length] in Hc.
    assert (Hin : In t (filter Template.isDefault ts))
      by (apply filter_In; split; assumption).
    destruct (filter Template.isDefault ts); [destruct Hin | discriminate].
  - specialize (IH Hc).
    destruct (find Template.isDefault ts) as [d|] eqn:Ef.
    + destruct IH as (Hin & Hd & Hu).
      split; [right; exact Hin|]. split; [exact Hd|].
      intros t [->|Ht] Hdt; [congruence | exact (Hu t Ht Hdt)].
    + exfalso. destruct (filter Template.isDefault ts) as [|y l] eqn:Efl;
        [discriminate|].
      assert (Hy : In y (filter Template.isDefault ts)) by (rewrite Efl; left; reflexivity).
      apply filter_In in Hy. destruct Hy as [Hy1 Hy2].
      pose proof (find_none _ _ Ef y Hy1). congruence.
Qed.

Lemma sample_templates_wellFormed :
  wellFormedTemplates SampleForm.store SampleForm.templates.
Proof.
  split; [|split].
  - repeat constructor.
  - cbn. repeat constructor; cbn; intuition discriminate.
  - reflexivity.
Defined.

(** X19. The template editor keeps the templates well formed: from
    templates with distinct ids and exactly one default, every sequence of
    actions that the editor offers runs without a [TypeError] and leaves
    templates with distinct ids and exactly one default; handed to [App]
    by Save, that default is the template a new invoice takes its
    template id and its notes from. *)
Theorem template_editor_keeps_one_default :
  forall (h : Store.t) (templates : list Ref) (actions : list SettingsModal.Action),
    wellFormedTemplates h templates ->
    SettingsModal.allOffered actions h (SettingsModal.mount h templates) ->
    endsWith
      (fun h' st' =>
         let saved := Store.load h' (SettingsModal.handleSave st') in
         (1 <= List.length saved)%nat
         /\ NoDup (templateIds saved)
         /\ defaultCount saved = 1%nat
         /\ forall (D : Template.t) (invoices : list Invoice.t)
                   (businessProfile : BusinessProfile.t) (currentUser : User.t)
                   (now issued created : Z) (t : Template.t),
              In t saved -> Template.isDefault t = true ->
              let new := InvoiceForm.getNewInvoiceTemplate D saved invoices
                           businessProfile currentUser now issued created in
              Invoice.templateId new = Template.id t
              /\ Invoice.notes new = Template.defaultNotes t)
      (SettingsModal.run actions h (SettingsModal.mount h templates)).
Proof.
  intros h templates actions Hwf Hall.
  assert (Hend : endsWith
                   (fun h' st' =>
                      wellFormedTemplates h' (SettingsModal.localTemplates st'))
                   (SettingsModal.run actions h (SettingsModal.mount h templates))).
  { destruct (mount_selection h templates) as [Hsel|Hnone].
    - exact (run_keeps actions h (SettingsModal.mount h templates) Hwf Hsel Hall).
    - destruct actions as [|a rest]; [exact Hwf|].
      cbn [SettingsModal.allOffered] in Hall. destruct Hall as [Hoff _].
      unfold SettingsModal.offered in Hoff. rewrite Hnone in Hoff. destruct Hoff. }
  destruct (SettingsModal.run actions h (SettingsModal.mount h templates))
    as [al h' st'|]; [|exact Hend].
  cbn [endsWith] in *. cbv zeta. unfold SettingsModal.handleSave.
  destruct Hend as (_ & Hnd & Hc). split; [|split; [exact Hnd | split; [exact Hc|]]].
  - unfold defaultCount in Hc.
    destruct (Store.load h' (SettingsModal.localTemplates st')); [discriminate|].
    cbn [List.length]. lia.
  - intros D invoices bp user now issued created t Hin Hd.
    destruct (defaultTemplate_unique D _ Hc) as (_ & _ & Hu).
    cbn [InvoiceForm.getNewInvoiceTemplate Invoice.templateId Invoice.notes].
    rewrite <- (Hu t Hin Hd). split; reflexivity.
Qed.

Lemma template_editor_keeps_one_default_witness :
  wellFormedTemplates SampleForm.store SampleForm.templates
  /\ SettingsModal.allOffered SampleForm.session SampleForm.store
       (SettingsModal.mount SampleForm.store SampleForm.templates)
  /\ endsWith
       (fun h' st' =>
          map Template.name (Store.load h' (SettingsModal.handleSave st'))
          = ["Classic"; "Receipt"]%string
          /\ defaultCount (Store.load h' (SettingsModal.handleSave st')) = 1%nat)
       (SettingsModal.run SampleForm.session SampleForm.store
          (SettingsModal.mount SampleForm.store SampleForm.templates)).
Proof.
  assert (Hoff : SettingsModal.allOffered SampleForm.session SampleForm.store
                   (SettingsModal.mount SampleForm.store SampleForm.templates)).
  { vm_compute. repeat split; try reflexivity. intros [H|[]]. discriminate. }
  split; [exact sample_templates_wellFormed|]. split; [exact Hoff|].
  pose proof (template_editor_keeps_one_default SampleForm.store SampleForm.templates
                SampleForm.session sample_templates_wellFormed Hoff) as H.
  destruct (SettingsModal.run SampleForm.session SampleForm.store
              (SettingsModal.mount SampleForm.store SampleForm.templates))
    as [al h' st'|] eqn:E; [|destruct H].
  cbn [endsWith] in *. cbv zeta in H. destruct H as (_ & _ & Hc & _).
  split; [|exact Hc].
  vm_compute in E. injection E as _ <- <-. reflexivity.
Defined.

Lemma same_id_same_template (ts : list Template.t) (a b : Template.t) :
  NoDup (templateIds ts) -> In a ts -> In b ts ->
  Template.id a = Template.id b -> a = b.
Proof.
  unfold templateIds. induction ts as [|x ts IH]; intros Hnd Ha Hb E; [destruct Ha|].
  cbn [map] in Hnd. inversion Hnd as [|? ? Hx Hnd']; subst.
  destruct Ha as [->|Ha], Hb as [->|Hb].
  - reflexivity.
  - exfalso. apply Hx. rewrite E. apply in_map. exact Hb.
  - exfalso. apply Hx. rewrite <- E. apply in_map. exact Ha.
  - exact (IH Hnd' Ha Hb E).
Qed.

(** Marking one object of an array marks one more template. *)
Lemma defaultCount_put (h : Store.t) (r : Ref) (o : Template.t) (refs : list Ref) :
  NoDup refs -> In r refs ->
  Template.isDefault (Store.get h r) = false ->
  Template.isDefault o = true ->
  defaultCount (Store.load (Store.put r o h) refs)
  = S (defaultCount (Store.load h refs)).
Proof.
  intros Hnd Hin Hr Ho. induction refs as [|x refs IH]; [destruct Hin|].
  inversion Hnd as [|? ? Hx Hnd']; subst.
  change (Store.load (Store.put r o h) (x :: refs))
    with ([Store.cell (Store.put r o h) x] ++ Store.load (Store.put r o h) refs).
  change (Store.load h (x :: refs)) with ([Store.cell h x] ++ Store.load h refs).
  rewrite !defaultCount_app.
  destruct Hin as [->|Hin].
  - rewrite (load_put_absent h r refs o Hx).
    unfold defaultCount at 1 3. cbn [Store.put Store.cell filter].
    rewrite Nat.eqb_refl, Ho. unfold Store.get in Hr. rewrite Hr. reflexivity.
  - rewrite (IH Hnd' Hin).
    assert (Hne : x <> r) by (intros ->; contradiction).
    unfold defaultCount at 1 3. cbn [Store.put Store.cell filter].
    destruct (Nat.eqb_spec x r); [contradiction|]. lia.
Qed.

(** X20. Cancel does not undo a deletion of the default template.  The
    editor opens on the default template; deleting it (confirmed) marks
    the first remaining template object as default, and that object is one
    of the template objects of [App].  So without Save the templates of
    [App] have two defaults; and when the old default was not the first
    template, the template that new invoices take is now the first one. *)
Theorem deleted_default_template_outlives_cancel :
  forall (D : Template.t) (h : Store.t) (templates : list Ref),
    wellFormedTemplates h templates ->
    (2 <= List.length templates)%nat ->
    let before := InvoiceForm.defaultTemplate D (Store.load h templates) in
    truthy (Some (Template.id before)) = true ->
    exists (h' : Store.t) (st' : SettingsModal.State),
      SettingsModal.handleDeleteTemplate true h (SettingsModal.mount h templates)
      = SettingsModal.Continue false h' st'
      /\ ~ In (Template.id before)
           (templateIds (Store.load h' (SettingsModal.localTemplates st')))
      /\ defaultCount (Store.load h' templates) = 2%nat
      /\ let after := InvoiceForm.defaultTemplate D (Store.load h' templates) in
         forall first, hd_error (Store.load h templates) = Some first ->
           if Template.isDefault first then after = before
           else after = withField (FieldIsDefault true) first
                /\ Template.id after <> Template.id before.
Proof.
  intros D h templates (Hv & Hnd & Hc) Hlen before Htruthy.
  destruct (defaultTemplate_unique D _ Hc) as (Hbin & Hbd & Hbu).
  fold before in Hbin, Hbd, Hbu.
  assert (Hfind : find Template.isDefault (Store.load h templates) = Some before).
  { unfold before, InvoiceForm.defaultTemplate.
    destruct (find Template.isDefault (Store.load h templates)) as [d|] eqn:Ef;
      [reflexivity|].
    exfalso. pose proof (find_none _ _ Ef before Hbin). congruence. }
  set (s := Template.id before) in *.
  set (st := SettingsModal.mount h templates).
  assert (Hs : SettingsModal.selectedTemplateId st = Some s).
  { unfold st, SettingsModal.mount. cbv zeta. rewrite Hfind.
    cbn [option_map SettingsModal.selectedTemplateId]. fold s. rewrite Htruthy.
    reflexivity. }
  assert (Hin : In s (templateIds (Store.load h templates)))
    by (apply in_map; exact Hbin).
  destruct (handleDeleteTemplate_confirmed h st s Hv Hnd Hs Hin Htruthy Hlen)
    as (selected & first & rest & _ & Hsel_in & Hsel_id & Erem & Hnf & Hne & Hcount
        & Hout).
  cbn [SettingsModal.localTemplates st SettingsModal.mount] in *.
  assert (Hsel : Store.get h selected = before).
  { apply (same_id_same_template (Store.load h templates)); try assumption.
    apply in_map. exact Hsel_in. }
  rewrite Hsel, Hbd in *. cbv zeta in Hout.
  set (o := withField (FieldIsDefault true) (Store.get h first)) in *.
  rewrite Hc in Hcount.
  assert (H0 : defaultCount (Store.load h (first :: rest)) = 0%nat) by lia.
  assert (Hfirst_in : In first templates).
  { assert (H : In first (first :: rest)) by (left; reflexivity).
    rewrite <- Erem in H. apply filter_In in H. exact (proj1 H). }
  assert (Hfirst_nd : Template.isDefault (Store.get h first) = false).
  { unfold defaultCount in H0. cbn [Store.load map filter] in H0. unfold Store.get.
    destruct (Template.isDefault (Store.cell h first)); [discriminate | reflexivity]. }
  eexists _, _. split; [exact Hout|].
  cbn [SettingsModal.localTemplates].
  pose proof (filter_load (fun x => negb (hasId (Some s) x)) h templates) as Hrem.
  cbv beta in Hrem. rewrite Erem in Hrem.
  split; [|split].
  - rewrite (load_put_head h first rest o Hnf).
    change (templateIds (o :: Store.load h rest))
      with (templateIds (Store.load h (first :: rest))).
    rewrite Hrem. intros Hx. apply in_map_iff in Hx. destruct Hx as (x & Ex & Hx).
    apply filter_In in Hx. destruct Hx as [_ Hx]. cbn [hasId] in Hx.
    rewrite Ex, String.eqb_refl in Hx. discriminate.
  - rewrite (defaultCount_put h first o templates (NoDup_refs h templates Hnd)
               Hfirst_in Hfirst_nd eq_refl), Hc. reflexivity.
  - cbv zeta. intros t0 Hhd.
    destruct templates as [|r0 tl]; [discriminate|].
    cbn [Store.load map hd_error] in Hhd. injection Hhd as <-.
    destruct (Template.isDefault (Store.cell h r0)) eqn:E0.
    + assert (Hb0 : Store.cell h r0 = before)
        by (apply Hbu; [left; reflexivity | exact E0]).
      assert (Hr0 : first <> r0).
      { intros ->. unfold Store.get in Hfirst_nd. congruence. }
      unfold InvoiceForm.defaultTemplate.
      cbn [Store.load map find Store.put Store.cell].
      destruct (Nat.eqb_spec r0 first) as [E|_]; [symmetry in E; contradiction|].
      rewrite E0. exact Hb0.
    + assert (Hid0 : Template.id (Store.cell h r0) <> s).
      { intros E. assert (Store.cell h r0 = before); [|congruence].
        apply (same_id_same_template (Store.load h (r0 :: tl))); try assumption.
        left. reflexivity. }
      assert (Hr0 : first = r0).
      { cbn [filter hasId] in Erem. unfold Store.get in Erem.
        destruct (String.eqb_spec (Template.id (Store.cell h r0)) s) as [E|_];
          [contradiction|].
        cbn [negb] in Erem. congruence. }
      subst first. unfold InvoiceForm.defaultTemplate.
      cbn [Store.load map find Store.put Store.cell]. rewrite Nat.eqb_refl.
      unfold o. cbn [withField Template.isDefault Template.id]. unfold Store.get.
      split; [reflexivity | exact Hid0].
Qed.

Lemma deleted_default_template_outlives_cancel_witness :
  wellFormedTemplates SampleForm.store SampleForm.templates
  /\ InvoiceForm.defaultTemplate SampleForm.classicTemplate
       (Store.load SampleForm.store SampleForm.templates) = SampleForm.modernTemplate
  /\ exists h' st',
       SettingsModal.handleDeleteTemplate true SampleForm.store
         (SettingsModal.mount SampleForm.store SampleForm.templates)
       = SettingsModal.Continue false h' st'
       /\ defaultCount (Store.load h' SampleForm.templates) = 2%nat
       /\ Template.id
            (InvoiceForm.defaultTemplate SampleForm.classicTemplate
               (Store.load h' SampleForm.templates)) = "classic"%string.
Proof.
  split; [exact sample_templates_wellFormed|]. split; [reflexivity|].
  destruct (deleted_default_template_outlives_cancel SampleForm.classicTemplate
              SampleForm.store SampleForm.templates sample_templates_wellFormed
              ltac:(cbn; lia) eq_refl) as (h' & st' & Hout & _ & Hc & Hafter).
  exists h', st'. split; [exact Hout|]. split; [exact Hc|].
  cbv zeta in Hafter.
  destruct (Hafter SampleForm.classicTemplate eq_refl) as [-> _]. reflexivity.
Defined.

(** ** The splash screen under the event loop *)

Lemma applyUpdate_keeps_loading (upd : StateUpdate) (st : AppState) :
  (forall b, upd <> SetIsAuthLoading b) ->
  isAuthLoading (applyUpdate upd st) = isAuthLoading st.
Proof.
  intros H. destruct upd; try reflexivity. exfalso. exact (H b eq_refl).
Qed.

Lemma advance_quiet (p : Ctl unit) :
  forall st, neverSetsLoading p ->
    isAuthLoading (fst (fst (advance p st))) = isAuthLoading st
    /\ quietTask (snd (advance p st)).
Proof.
  induction p as [a|c k IH|u k IH|upd k IH]; intros st Hp; cbn [advance].
  - split; [reflexivity | exact I].
  - split; [reflexivity | exact Hp].
  - destruct (getOrCreateUserProfile u) as [r|c k'].
    + specialize (IH r st (Hp r)).
      destruct (advance (k r) st) as [[st' tr] t]. exact IH.
    + split; [reflexivity | exact Hp].
  - cbn [neverSetsLoading] in Hp. destruct Hp as [Hupd Hk].
    specialize (IH (applyUpdate upd st) Hk).
    destruct (advance k (applyUpdate upd st)) as [[st' tr] t].
    cbn [fst snd] in *. rewrite (proj1 IH). split; [|exact (proj2 IH)].
    apply applyUpdate_keeps_loading. exact Hupd.
Qed.

Lemma advance_loading (p : Ctl unit) :
  forall st, clearsLoadingAtEnd p -> isAuthLoading st = true ->
    loadingTask (fst (fst (advance p st))) (snd (advance p st)).
Proof.
  induction p as [a|c k IH|u k IH|upd k IH]; intros st Hp Hst; cbn [advance].
  - destruct Hp.
  - split; [exact Hst | exact Hp].
  - destruct (getOrCreateUserProfile u) as [r|c k'].
    + specialize (IH r st (Hp r) Hst).
      destruct (advance (k r) st) as [[st' tr] t]. exact IH.
    + split; [exact Hst | exact Hp].
  - cbn [clearsLoadingAtEnd] in Hp.
    destruct upd as [s|c|b|b|m].
    1, 2, 4, 5:
      match goal with
      | |- context [advance ?k0 ?s0] =>
          specialize (IH s0 Hp Hst);
          destruct (advance k0 s0) as [[st' tr] t]; exact IH
      end.
    destruct Hp as [-> [a ->]]. reflexivity.
Qed.

Lemma advanceProfile_quiet (q : Proc (option User.t)) (ret : option User.t -> Ctl unit)
    (st : AppState) :
  (forall r, neverSetsLoading (ret r)) ->
  isAuthLoading (fst (fst (advanceProfile q ret st))) = isAuthLoading st
  /\ quietTask (snd (advanceProfile q ret st)).
Proof.
  intros Hret. destruct q as [r|c k]; cbn [advanceProfile].
  - pose proof (advance_quiet (ret r) st (Hret r)) as H.
    destruct (advance (ret r) st) as [[st' tr] t]. exact H.
  - split; [reflexivity | exact Hret].
Qed.

Lemma advanceProfile_loading (q : Proc (option User.t))
    (ret : option User.t -> Ctl unit) (st : AppState) :
  (forall r, clearsLoadingAtEnd (ret r)) -> isAuthLoading st = true ->
  loadingTask (fst (fst (advanceProfile q ret st))) (snd (advanceProfile q ret st)).
Proof.
  intros Hret Hst. destruct q as [r|c k]; cbn [advanceProfile].
  - pose proof (advance_loading (ret r) st (Hret r) Hst) as H.
    destruct (advance (ret r) st) as [[st' tr] t]. exact H.
  - split; [exact Hst | exact Hret].
Qed.

Lemma resume_quiet (t t' : Task) (r : Response) (st st' : AppState) (tr : list Event) :
  quietTask t -> resume t r st = Some (st', tr, t') ->
  isAuthLoading st' = isAuthLoading st /\ quietTask t'.
Proof.
  intros Hq Hres. destruct t as [c k|c k ret|]; cbn [resume] in Hres;
    [| |discriminate].
  - destruct (fromResponse c r) as [x|]; [|discriminate].
    pose proof (advance_quiet (k x) st (Hq x)) as H.
    destruct (advance (k x) st) as [[s1 tr1] t1]. injection Hres as <- _ <-. exact H.
  - destruct (fromResponse c r) as [x|]; [|discriminate].
    pose proof (advanceProfile_quiet (k x) ret st Hq) as H.
    destruct (advanceProfile (k x) ret st) as [[s1 tr1] t1].
    injection Hres as <- _ <-. exact H.
Qed.

Lemma resume_loading (t t' : Task) (r : Response) (st st' : AppState) (tr : list Event) :
  loadingTask st t -> resume t r st = Some (st', tr, t') -> loadingTask st' t'.
Proof.
  intros Hl Hres. destruct t as [c k|c k ret|]; cbn [resume] in Hres;
    [| |discriminate].
  - destruct Hl as [Hst Hk]. destruct (fromResponse c r) as [x|]; [|discriminate].
    pose proof (advance_loading (k x) st (Hk x) Hst) as H.
    destruct (advance (k x) st) as [[s1 tr1] t1]. injection Hres as <- _ <-. exact H.
  - destruct Hl as [Hst Hk]. destruct (fromResponse c r) as [x|]; [|discriminate].
    pose proof (advanceProfile_loading (k x) ret st Hk Hst) as H.
    destruct (advanceProfile (k x) ret st) as [[s1 tr1] t1].
    injection Hres as <- _ <-. exact H.
Qed.

(** A task that does not write [isAuthLoading] leaves the first task as
    it finds it. *)
Lemma loadingTask_same (st st' : AppState) (t : Task) :
  isAuthLoading st' = isAuthLoading st -> loadingTask st t -> loadingTask st' t.
Proof. intros E. destruct t; cbn; rewrite E; exact (fun H => H). Qed.

Lemma initializeApp_clearsLoadingAtEnd : clearsLoadingAtEnd initializeApp.
Proof.
  unfold initializeApp, await, set. cbn [bind clearsLoadingAtEnd].
  intros e. destruct (isMissingRelation e); cbn [bind clearsLoadingAtEnd].
  - split; [reflexivity | eexists; reflexivity].
  - intros [s|]; cbn [bind clearsLoadingAtEnd].
    + intros [p|]; cbn [bind clearsLoadingAtEnd].
      * split; [reflexivity | eexists; reflexivity].
      * intros _. split; [reflexivity | eexists; reflexivity].
    + split; [reflexivity | eexists; reflexivity].
Qed.

Lemma onAuthStateChange_neverSetsLoading (s : option Session.t) :
  neverSetsLoading (onAuthStateChange s).
Proof.
  unfold onAuthStateChange, set. cbn [bind neverSetsLoading].
  split; [intros b; discriminate|].
  destruct s as [s|]; cbn [bind neverSetsLoading].
  - intros r. split; [intros b; discriminate | exact I].
  - split; [intros b; discriminate | exact I].
Qed.

Lemma mount_splashInvariant : splashInvariant mount.
Proof.
  unfold mount, effectBody. cbn [fold_left execStmt app tasks listener trace].
  pose proof (advance_loading initializeApp initialState
                initializeApp_clearsLoadingAtEnd eq_refl) as H.
  destruct (advance initializeApp initialState) as [[st tr] t].
  cbn [fst snd app tasks listener app] in *. split.
  - cbn [app tasks]. split; [exact H | constructor].
  - cbn [listener]. intros cb E s. injection E as <-.
    apply onAuthStateChange_neverSetsLoading.
Qed.

Lemma step_splashInvariant (cfg cfg' : Config) (i : Input) :
  splashInvariant cfg -> step cfg i = Some cfg' -> splashInvariant cfg'.
Proof.
  intros [Htasks Hlis] Hstep.
  destruct (tasks cfg) as [|t0 rest] eqn:Et; [destruct Htasks|].
  destruct Htasks as [H0 Hrest].
  destruct i as [n r|s]; cbn [step] in Hstep.
  - rewrite Et in Hstep.
    destruct (nth_error (t0 :: rest) n) as [t|] eqn:En; [|discriminate].
    destruct (resume t r (app cfg)) as [[[st tr] t']|] eqn:Eres; [|discriminate].
    injection Hstep as <-. unfold splashInvariant. cbn [tasks app listener].
    split; [|exact Hlis].
    destruct n as [|n]; cbn [nth_error replaceNth] in *.
    + injection En as <-. split; [|exact Hrest].
      exact (resume_loading _ _ _ _ _ _ H0 Eres).
    + assert (Hq : quietTask t).
      { rewrite Forall_forall in Hrest. apply Hrest.
        exact (nth_error_In _ _ En). }
      destruct (resume_quiet _ _ _ _ _ _ Hq Eres) as [Hsame Hq'].
      split; [exact (loadingTask_same _ _ _ Hsame H0)|].
      apply Forall_replaceNth; assumption.
  - destruct (listener cfg) as [cb|] eqn:El; [|discriminate].
    pose proof (advance_quiet (cb s) (app cfg) (Hlis cb eq_refl s)) as [Hsame Hq].
    destruct (advance (cb s) (app cfg)) as [[st tr] t].
    injection Hstep as <-. unfold splashInvariant.
    cbn [tasks app listener fst snd] in *. rewrite Et. cbn [app].
    split; [|exact Hlis].
    split; [exact (loadingTask_same _ _ _ Hsame H0)|].
    apply Forall_app. split; [exact Hrest | constructor; [exact Hq | constructor]].
Qed.

Lemma Reachable_splashInvariant (cfg : Config) : Reachable cfg -> splashInvariant cfg.
Proof.
  induction 1 as [|cfg i cfg' _ IH Hstep].
  - exact mount_splashInvariant.
  - exact (step_splashInvariant cfg cfg' i IH Hstep).
Qed.

(** X21. Under every interleaving of backend replies and auth
    notifications, [isAuthLoading] is false exactly when the run of
    [initializeApp] (the first task) has finished: until then the splash
    screen stays, whatever the auth listener has written meanwhile, and
    afterwards nothing brings it back. *)
Theorem splash_screen_until_initializeApp_ends :
  forall (cfg : Config),
    Reachable cfg ->
    exists (t0 : Task) (rest : list Task),
      tasks cfg = t0 :: rest
      /\ (isAuthLoading (app cfg) = false <-> t0 = Finished)
      /\ (t0 <> Finished ->
          forall isLocalDataLoading,
            render isLocalDataLoading (app cfg) = SplashScreen).
Proof.
  intros cfg Hr. destruct (Reachable_splashInvariant cfg Hr) as [Htasks _].
  destruct (tasks cfg) as [|t0 rest]; [destruct Htasks|].
  destruct Htasks as [H0 _]. exists t0, rest. split; [reflexivity|].
  assert (Hiff : isAuthLoading (app cfg) = false <-> t0 = Finished).
  { destruct t0 as [c k|c k ret|]; cbn [loadingTask] in H0.
    - destruct H0 as [H0 _]. split; [congruence | discriminate].
    - destruct H0 as [H0 _]. split; [congruence | discriminate].
    - split; [reflexivity | intros _; exact H0]. }
  split; [exact Hiff|].
  intros Hne l. unfold render.
  destruct (isAuthLoading (app cfg)); [reflexivity|].
  exfalso. apply Hne. apply Hiff. reflexivity.
Qed.

Lemma splash_screen_until_initializeApp_ends_witness :
  isAuthLoading (app (Sample.after Sample.probeInputs)) = true
  /\ isAuthLoading (app (Sample.after Sample.loginInputs)) = false
  /\ exists rest, tasks (Sample.after Sample.loginInputs) = Finished :: rest.
Proof.
  split; [reflexivity|]. split; [reflexivity|].
  destruct (splash_screen_until_initializeApp_ends (Sample.after Sample.loginInputs)
              (steps_Reachable Sample.loginInputs mount _ reach_mount eq_refl))
    as (t0 & rest & Et & Hiff & _).
  exists rest. rewrite Et. f_equal. apply Hiff. reflexivity.
Defined.

(** ** The requests under the event loop *)

Lemma countEvents_app (f : Event -> bool) (a b : list Event) :
  countEvents f (a ++ b) = (countEvents f a + countEvents f b)%nat.
Proof. unfold countEvents. rewrite filter_app, length_app. reflexivity. Qed.

Lemma countEvents_cons (f : Event -> bool) (e : Event) (tr : list Event) :
  countEvents f (e :: tr) = ((if f e then 1 else 0) + countEvents f tr)%nat.
Proof. unfold countEvents. cbn [filter]. destruct (f e); reflexivity. Qed.

Lemma requestsAtMost_mono (f : Remote -> bool) (p : Ctl unit) :
  forall n m, (n <= m)%nat -> requestsAtMost f n p -> requestsAtMost f m p.
Proof.
  induction p as [a|c k IH|u k IH|upd k IH]; intros n m Hle Hp;
    cbn [requestsAtMost] in *.
  - exact I.
  - destruct (f c).
    + destruct n as [|n]; [destruct Hp|]. destruct m as [|m]; [lia|].
      intros r. apply (IH r n m); [lia | exact (Hp r)].
    + intros r. exact (IH r n m Hle (Hp r)).
  - split; [exact (proj1 Hp)|]. intros r. exact (IH r n m Hle (proj2 Hp r)).
  - exact (IH n m Hle Hp).
Qed.

Section Budget.

Variable f : Remote -> bool.

Lemma advance_budget (p : Ctl unit) :
  forall st n, requestsAtMost f n p ->
    exists m, taskAtMost f m (snd (advance p st))
              /\ (countEvents (isRequestOf f) (snd (fst (advance p st))) + m <= n)%nat.
Proof.
  induction p as [a|c k IH|u k IH|upd k IH]; intros st n Hp;
    cbn [advance requestsAtMost] in *.
  - exists 0%nat. split; [exact I | cbn; lia].
  - cbn [fst snd]. rewrite countEvents_cons. cbn [isRequestOf countEvents filter].
    destruct (f c).
    + destruct n as [|n]; [destruct Hp|]. exists n.
      split; [exact Hp | cbn; lia].
    + exists n. split; [exact Hp | cbn; lia].
  - destruct Hp as [Hq Hk].
    destruct (getOrCreateUserProfile u) as [r|c k'].
    + destruct (IH r st n (Hk r)) as (m & Ht & Hc).
      destruct (advance (k r) st) as [[st' tr] t]. cbn [fst snd] in *.
      exists m. split; [exact Ht|]. rewrite !countEvents_cons. cbn [isRequestOf]. lia.
    + cbn [procNever] in Hq. destruct Hq as [Hc Hq]. cbn [fst snd].
      exists n. split; [split; assumption|].
      rewrite !countEvents_cons. cbn [isRequestOf]. rewrite Hc. cbn. lia.
  - destruct (IH (applyUpdate upd st) n Hp) as (m & Ht & Hc).
    destruct (advance k (applyUpdate upd st)) as [[st' tr] t]. cbn [fst snd] in *.
    exists m. split; [exact Ht|]. rewrite countEvents_cons. cbn [isRequestOf]. lia.
Qed.

Lemma advanceProfile_budget (q : Proc (option User.t)) (ret : option User.t -> Ctl unit)
    (st : AppState) (n : nat) :
  procNever f q -> (forall r, requestsAtMost f n (ret r)) ->
  exists m, taskAtMost f m (snd (advanceProfile q ret st))
            /\ (countEvents (isRequestOf f) (snd (fst (advanceProfile q ret st))) + m
                <= n)%nat.
Proof.
  intros Hq Hret. destruct q as [r|c k]; cbn [advanceProfile].
  - destruct (advance_budget (ret r) st n (Hret r)) as (m & Ht & Hc).
    destruct (advance (ret r) st) as [[st' tr] t]. cbn [fst snd] in *.
    exists m. split; [exact Ht|]. rewrite countEvents_cons. cbn [isRequestOf]. lia.
  - cbn [procNever] in Hq. destruct Hq as [Hc Hq]. cbn [fst snd].
    exists n. split; [split; assumption|].
    rewrite countEvents_cons. cbn [isRequestOf]. rewrite Hc. cbn. lia.
Qed.

Lemma resume_budget (t t' : Task) (r : Response) (st st' : AppState) (tr : list Event)
    (n : nat) :
  taskAtMost f n t -> resume t r st = Some (st', tr, t') ->
  exists m, taskAtMost f m t' /\ (countEvents (isRequestOf f) tr + m <= n)%nat.
Proof.
  intros Ht Hres. destruct t as [c k|c k ret|]; cbn [resume] in Hres;
    [| |discriminate].
  - destruct (fromResponse c r) as [x|]; [|discriminate].
    destruct (advance_budget (k x) st n (Ht x)) as (m & Hm & Hc).
    destruct (advance (k x) st) as [[s1 tr1] t1]. injection Hres as _ <- <-.
    cbn [fst snd] in *. exists m. split; [exact Hm|].
    rewrite countEvents_cons. cbn [isRequestOf]. lia.
  - destruct Ht as [Hq Hret]. destruct (fromResponse c r) as [x|]; [|discriminate].
    destruct (advanceProfile_budget (k x) ret st n (Hq x) Hret) as (m & Hm & Hc).
    destruct (advanceProfile (k x) ret st) as [[s1 tr1] t1]. injection Hres as _ <- <-.
    cbn [fst snd] in *. exists m. split; [exact Hm|].
    rewrite countEvents_cons. cbn [isRequestOf]. lia.
Qed.

Lemma step_requestBudget (total : nat) (cfg cfg' : Config) (i : Input) :
  requestBudget f total cfg -> step cfg i = Some cfg' -> requestBudget f total cfg'.
Proof.
  intros [Htasks Hlis] Hstep.
  destruct (tasks cfg) as [|t0 rest] eqn:Et; [destruct Htasks|].
  destruct Htasks as [(n & H0 & Hc) Hrest].
  destruct i as [k r|s]; cbn [step] in Hstep.
  - rewrite Et in Hstep.
    destruct (nth_error (t0 :: rest) k) as [t|] eqn:En; [|discriminate].
    destruct (resume t r (app cfg)) as [[[st tr] t']|] eqn:Eres; [|discriminate].
    injection Hstep as <-. unfold requestBudget. cbn [tasks trace listener].
    split; [|exact Hlis].
    destruct k as [|k]; cbn [nth_error replaceNth] in *.
    + injection En as <-.
      destruct (resume_budget _ _ _ _ _ _ n H0 Eres) as (m & Hm & Hc').
      split; [|exact Hrest]. exists m. split; [exact Hm|].
      rewrite countEvents_app. lia.
    + assert (Hq : taskAtMost f 0 t).
      { rewrite Forall_forall in Hrest. apply Hrest. exact (nth_error_In _ _ En). }
      destruct (resume_budget _ _ _ _ _ _ 0%nat Hq Eres) as (m & Hm & Hc').
      assert (m = 0%nat) by lia. subst m.
      split.
      * exists n. split; [exact H0|]. rewrite countEvents_app. lia.
      * apply Forall_replaceNth; assumption.
  - destruct (listener cfg) as [cb|] eqn:El; [|discriminate].
    destruct (advance_budget (cb s) (app cfg) 0%nat (Hlis cb eq_refl s))
      as (m & Hm & Hc').
    destruct (advance (cb s) (app cfg)) as [[st tr] t].
    injection Hstep as <-. unfold requestBudget.
    cbn [tasks trace listener fst snd] in *. rewrite Et.
    assert (m = 0%nat) by lia. subst m.
    split; [|exact Hlis]. split.
    + exists n. split; [exact H0|].
      rewrite countEvents_app, countEvents_cons. cbn [isRequestOf]. lia.
    + apply Forall_app. split; [exact Hrest | constructor; [exact Hm | constructor]].
Qed.

Lemma Reachable_requestBudget (total : nat) :
  requestBudget f total mount ->
  forall cfg, Reachable cfg -> requestBudget f total cfg.
Proof.
  intros Hm cfg Hr. induction Hr as [|cfg i cfg' _ IH Hstep].
  - exact Hm.
  - exact (step_requestBudget total cfg cfg' i IH Hstep).
Qed.

Lemma requestBudget_count (total : nat) (cfg : Config) :
  requestBudget f total cfg ->
  (countEvents (isRequestOf f) (trace cfg) <= total)%nat.
Proof.
  intros [Htasks _]. destruct (tasks cfg); [destruct Htasks|].
  destruct Htasks as [(n & _ & Hc) _]. lia.
Qed.

End Budget.

Lemma getOrCreateUserProfile_requests (f : Remote -> bool) (u : SupabaseUser.t) :
  (forall id, f (SelectProfile id) = false) ->
  (forall row, f (InsertProfile row) = false) ->
  procNever f (getOrCreateUserProfile u).
Proof.
  intros Hs Hi. unfold getOrCreateUserProfile. cbn [procNever].
  split; [apply Hs|]. intros res.
  destruct (data res); [exact I|].
  destruct (isRealError (error res)); [exact I|].
  cbn [procNever]. split; [apply Hi|]. intros ins.
  destruct (error ins); exact I.
Qed.

Lemma mount_requestBudget (f : Remote -> bool) (n : nat) :
  (forall id, f (SelectProfile id) = false) ->
  (forall row, f (InsertProfile row) = false) ->
  requestsAtMost f n initializeApp ->
  requestBudget f n mount.
Proof.
  intros Hs Hi Hinit.
  unfold mount, effectBody. cbn [fold_left execStmt app tasks listener trace].
  destruct (advance_budget f initializeApp initialState n Hinit) as (m & Hm & Hc).
  destruct (advance initializeApp initialState) as [[st tr] t].
  cbn [fst snd app tasks listener trace app] in *. split.
  - split; [|constructor]. exists m. split; [exact Hm|].
    cbn [trace]. change (([] ++ tr) ++ [Subscribed]) with (tr ++ [Subscribed]).
    rewrite countEvents_app.
    change (countEvents (isRequestOf f) [Subscribed]) with 0%nat. lia.
  - intros cb E s. injection E as <-.
    unfold onAuthStateChange, set. cbn [bind requestsAtMost].
    destruct s as [s|]; cbn [bind requestsAtMost]; [|exact I].
    split; [apply getOrCreateUserProfile_requests; assumption|].
    intros r. exact I.
Qed.

Lemma countEvents_ext (f g : Event -> bool) (tr : list Event) :
  (forall e, f e = g e) -> countEvents f tr = countEvents g tr.
Proof.
  intros H. unfold countEvents. rewrite (filter_ext f g H). reflexivity.
Qed.

Lemma initializeApp_requestsAtMost (f : Remote -> bool) :
  (forall id, f (SelectProfile id) = false) ->
  (forall row, f (InsertProfile row) = false) ->
  requestsAtMost f
    ((if f ProbeProfiles then 1 else 0)
     + (if f GetSession then 1 else 0)
     + (if f SignOut then 1 else 0))%nat
    initializeApp.
Proof.
  intros Hs Hi.
  unfold initializeApp, await, set.
  destruct (f ProbeProfiles) eqn:EP, (f GetSession) eqn:EG, (f SignOut) eqn:ES;
    cbn [Nat.add bind requestsAtMost]; rewrite ?EP;
    intros e; destruct (isMissingRelation e); cbn [bind requestsAtMost];
    try exact I; rewrite ?EG;
    (intros [s|]; cbn [bind requestsAtMost]; [|exact I]);
    (split; [apply getOrCreateUserProfile_requests; assumption|]);
    (intros [p|]; cbn [bind requestsAtMost]; [exact I|]);
    rewrite ?ES; intros _; exact I.
Qed.

(** X22. Under every interleaving of backend replies and auth
    notifications, the mounted component probes the schema exactly once,
    asks for the session at most once and signs out at most once; the auth
    listener makes no such request. *)
Theorem bootstrap_requests_are_made_once :
  forall (cfg : Config),
    Reachable cfg ->
    countEvents (isRequestOf isProbe) (trace cfg) = 1%nat
    /\ (countEvents isSessionRequest (trace cfg) <= 1)%nat
    /\ (countEvents isSignOutRequest (trace cfg) <= 1)%nat.
Proof.
  intros cfg Hr.
  assert (Hbudget : forall f,
            (forall id, f (SelectProfile id) = false) ->
            (forall row, f (InsertProfile row) = false) ->
            (countEvents (isRequestOf f) (trace cfg)
             <= (if f ProbeProfiles then 1 else 0)
                + (if f GetSession then 1 else 0)
                + (if f SignOut then 1 else 0))%nat).
  { intros f Hs Hi. apply requestBudget_count.
    apply Reachable_requestBudget; [|exact Hr].
    apply mount_requestBudget; [exact Hs | exact Hi|].
    apply initializeApp_requestsAtMost; assumption. }
  split; [|split].
  - pose proof (Hbudget isProbe (fun _ => eq_refl) (fun _ => eq_refl)) as Hle.
    cbn in Hle.
    destruct (Reachable_subscribedAtMount cfg Hr) as [rest E].
    rewrite E in *. rewrite countEvents_cons in *. cbn [isRequestOf isProbe] in *. lia.
  - rewrite (countEvents_ext isSessionRequest (isRequestOf isGetSession)).
    + exact (Hbudget isGetSession (fun _ => eq_refl) (fun _ => eq_refl)).
    + intros [c| | | | | |]; reflexivity.
  - rewrite (countEvents_ext isSignOutRequest (isRequestOf isSignOut)).
    + exact (Hbudget isSignOut (fun _ => eq_refl) (fun _ => eq_refl)).
    + intros [c| | | | | |]; reflexivity.
Qed.

Lemma bootstrap_requests_are_made_once_witness :
  countEvents (isRequestOf isProbe) (trace (Sample.after Sample.loginInputs)) = 1%nat
  /\ (countEvents isSessionRequest (trace (Sample.after Sample.loginInputs)) <= 1)%nat.
Proof.
  destruct (bootstrap_requests_are_made_once (Sample.after Sample.loginInputs)
              (steps_Reachable Sample.loginInputs mount _ reach_mount eq_refl))
    as (H1 & H2 & _).
  split; [exact H1 | exact H2].
Defined.

(** ** Causes and effects under the event loop *)

Lemma fromResponse_toResponse (c : Remote) (r : Response) (x : Reply c) :
  fromResponse c r = Some x -> r = toResponse c x.
Proof.
  destruct c; cbn; destruct r; intros E; try discriminate;
    injection E as <-; reflexivity.
Qed.

Section CausesFacts.

Variables cause effect : Event -> bool.
Hypothesis effect_own : forall e, effect e = true -> ownStep e = true.

Lemma effect_other (e : Event) : ownStep e = false -> effect e = false.
Proof.
  intros H. destruct (effect e) eqn:E; [|reflexivity].
  rewrite (effect_own e E) in H. discriminate.
Qed.

Lemma follows_mono (tr : list Event) :
  forall s s', (s = true -> s' = true) ->
    follows cause effect s tr = true -> follows cause effect s' tr = true.
Proof.
  induction tr as [|e tr IH]; intros s s' Hs H; [reflexivity|].
  cbn [follows] in *. apply andb_true_iff in H. destruct H as [H1 H2].
  apply andb_true_iff. split.
  - destruct (effect e); [|reflexivity]. cbn in *. exact (Hs H1).
  - apply (IH (s || cause e) (s' || cause e)); [|exact H2].
    intros H. apply orb_true_iff in H. apply orb_true_iff.
    destruct H as [H|H]; [left; exact (Hs H) | right; exact H].
Qed.

Lemma follows_app (a b : list Event) :
  forall s, follows cause effect s (a ++ b)
            = follows cause effect s a
              && follows cause effect (s || existsb cause a) b.
Proof.
  induction a as [|e a IH]; intros s.
  - cbn. rewrite orb_false_r. reflexivity.
  - cbn [List.app follows existsb]. rewrite IH, andb_assoc, orb_assoc. reflexivity.
Qed.

Lemma onlyAfter_mono (p : Ctl unit) :
  forall s s', (s = true -> s' = true) ->
    onlyAfter cause effect s p -> onlyAfter cause effect s' p.
Proof.
  assert (Hor : forall s s' b, (s = true -> s' = true) ->
                               (s || b = true -> s' || b = true)).
  { intros s s' b Hs H. apply orb_true_iff in H. apply orb_true_iff.
    destruct H as [H|H]; [left; exact (Hs H) | right; exact H]. }
  induction p as [a|c k IH|u k IH|upd k IH]; intros s s' Hs Hp;
    cbn [onlyAfter] in *.
  - exact I.
  - destruct Hp as [He Hk]. split.
    + destruct (effect (Requested c)); [|reflexivity]. cbn in *. exact (Hs He).
    + intros r. exact (IH r _ _ (Hor _ _ _ Hs) (Hk r)).
  - destruct Hp as [Hq Hk]. split; [exact Hq|].
    intros r. exact (IH r _ _ (Hor _ _ _ Hs) (Hk r)).
  - destruct Hp as [He Hk]. split.
    + destruct (effect (StateSet upd)); [|reflexivity]. cbn in *. exact (Hs He).
    + exact (IH _ _ Hs Hk).
Qed.

Lemma taskOnlyAfter_mono (t : Task) (s s' : bool) :
  (s = true -> s' = true) ->
  taskOnlyAfter cause effect s t -> taskOnlyAfter cause effect s' t.
Proof.
  intros Hs Ht.
  assert (Hor : forall b, s || b = true -> s' || b = true).
  { intros b H. apply orb_true_iff in H. apply orb_true_iff.
    destruct H as [H|H]; [left; exact (Hs H) | right; exact H]. }
  destruct t as [c k|c k ret|]; cbn [taskOnlyAfter] in *.
  - intros r. exact (onlyAfter_mono _ _ _ (Hor _) (Ht r)).
  - destruct Ht as [Hq Hret]. split; [exact Hq|].
    intros r. exact (onlyAfter_mono _ _ _ (Hor _) (Hret r)).
  - exact I.
Qed.

Lemma advance_causal (p : Ctl unit) :
  forall st s, onlyAfter cause effect s p ->
    follows cause effect s (snd (fst (advance p st))) = true
    /\ taskOnlyAfter cause effect (s || existsb cause (snd (fst (advance p st))))
         (snd (advance p st)).
Proof.
  induction p as [a|c k IH|u k IH|upd k IH]; intros st s Hp;
    cbn [advance onlyAfter] in *.
  - split; [reflexivity | exact I].
  - destruct Hp as [He Hk]. cbn [fst snd follows existsb taskOnlyAfter].
    rewrite He. split; [reflexivity|].
    intros r. apply (onlyAfter_mono _ (s || cause (Replied c (toResponse c r))));
      [orb_incl | exact (Hk r)].
  - destruct Hp as [Hq Hk].
    destruct (getOrCreateUserProfile u) as [r|c k'].
    + destruct (IH r st _ (Hk r)) as [Hf Ht].
      destruct (advance (k r) st) as [[st' tr] t]. cbn [fst snd] in *.
      cbn [follows existsb].
      rewrite (effect_other (ResolveCalled u) eq_refl),
        (effect_other (Resolved r) eq_refl). cbn [implb andb].
      split.
      * apply (follows_mono _ (s || cause (Resolved r))); [orb_incl | exact Hf].
      * apply (taskOnlyAfter_mono _ (s || cause (Resolved r) || existsb cause tr));
          [orb_incl | exact Ht].
    + cbn [procNever] in Hq. destruct Hq as [Hc Hq].
      cbn [fst snd follows existsb taskOnlyAfter].
      rewrite (effect_other (ResolveCalled u) eq_refl), Hc. cbn [implb andb].
      split; [reflexivity|]. split; [exact Hq|].
      intros r. apply (onlyAfter_mono _ (s || cause (Resolved r)));
        [orb_incl | exact (Hk r)].
  - destruct Hp as [He Hk]. destruct (IH (applyUpdate upd st) s Hk) as [Hf Ht].
    destruct (advance k (applyUpdate upd st)) as [[st' tr] t]. cbn [fst snd] in *.
    cbn [follows existsb]. rewrite He. cbn [andb].
    split.
    + apply (follows_mono _ s); [orb_incl | exact Hf].
    + apply (taskOnlyAfter_mono _ (s || existsb cause tr)); [orb_incl | exact Ht].
Qed.

Lemma advanceProfile_causal (q : Proc (option User.t))
    (ret : option User.t -> Ctl unit) (st : AppState) (s : bool) :
  procNever (fun c => effect (Requested c)) q ->
  (forall r, onlyAfter cause effect (s || cause (Resolved r)) (ret r)) ->
  follows cause effect s (snd (fst (advanceProfile q ret st))) = true
  /\ taskOnlyAfter cause effect
       (s || existsb cause (snd (fst (advanceProfile q ret st))))
       (snd (advanceProfile q ret st)).
Proof.
  intros Hq Hret. destruct q as [r|c k]; cbn [advanceProfile].
  - destruct (advance_causal (ret r) st _ (Hret r)) as [Hf Ht].
    destruct (advance (ret r) st) as [[st' tr] t]. cbn [fst snd] in *.
    cbn [follows existsb]. rewrite (effect_other (Resolved r) eq_refl).
    cbn [implb andb]. split; [exact Hf|].
    apply (taskOnlyAfter_mono _ (s || cause (Resolved r) || existsb cause tr));
      [orb_incl | exact Ht].
  - cbn [procNever] in Hq. destruct Hq as [Hc Hq].
    cbn [fst snd follows existsb taskOnlyAfter]. rewrite Hc. cbn [implb andb].
    split; [reflexivity|]. split; [exact Hq|].
    intros r. apply (onlyAfter_mono _ (s || cause (Resolved r)));
      [orb_incl | exact (Hret r)].
Qed.

Lemma resume_causal (t t' : Task) (r : Response) (st st' : AppState)
    (tr : list Event) (s : bool) :
  taskOnlyAfter cause effect s t -> resume t r st = Some (st', tr, t') ->
  follows cause effect s tr = true
  /\ taskOnlyAfter cause effect (s || existsb cause tr) t'.
Proof.
  intros Ht Hres. destruct t as [c k|c k ret|]; cbn [resume] in Hres;
    [| |discriminate].
  - destruct (fromResponse c r) as [x|] eqn:Ex; [|discriminate].
    pose proof (fromResponse_toResponse c r x Ex) as ->.
    destruct (advance_causal (k x) st _ (Ht x)) as [Hf Hk].
    destruct (advance (k x) st) as [[s1 tr1] t1]. injection Hres as _ <- <-.
    cbn [fst snd] in *. cbn [follows existsb].
    rewrite (effect_other (Replied c (toResponse c x)) eq_refl). cbn [implb andb].
    split; [exact Hf|].
    apply (taskOnlyAfter_mono _
             (s || cause (Replied c (toResponse c x)) || existsb cause tr1));
      [orb_incl | exact Hk].
  - destruct Ht as [Hq Hret].
    destruct (fromResponse c r) as [x|] eqn:Ex; [|discriminate].
    assert (Hret' : forall r0,
              onlyAfter cause effect ((s || cause (Replied c r)) || cause (Resolved r0))
                (ret r0)).
    { intros r0. apply (onlyAfter_mono _ (s || cause (Resolved r0)));
        [orb_incl | exact (Hret r0)]. }
    destruct (advanceProfile_causal (k x) ret st _ (Hq x) Hret') as [Hf Hk].
    destruct (advanceProfile (k x) ret st) as [[s1 tr1] t1]. injection Hres as _ <- <-.
    cbn [fst snd] in *. cbn [follows existsb].
    rewrite (effect_other (Replied c r) eq_refl). cbn [implb andb].
    split; [exact Hf|].
    apply (taskOnlyAfter_mono _ (s || cause (Replied c r) || existsb cause tr1));
      [orb_incl | exact Hk].
Qed.

Lemma step_causal (cfg cfg' : Config) (i : Input) :
  causal cause effect cfg -> step cfg i = Some cfg' -> causal cause effect cfg'.
Proof.
  intros (Hf & Htasks & Hlis) Hstep.
  assert (Hgrow : forall tr,
            Forall (taskOnlyAfter cause effect (existsb cause (trace cfg ++ tr)))
              (tasks cfg)).
  { intros tr. eapply Forall_impl; [|exact Htasks].
    intros t. apply taskOnlyAfter_mono. rewrite existsb_app. orb_incl. }
  destruct i as [n r|s]; cbn [step] in Hstep.
  - destruct (nth_error (tasks cfg) n) as [t|] eqn:En; [|discriminate].
    destruct (resume t r (app cfg)) as [[[st tr] t']|] eqn:Eres; [|discriminate].
    injection Hstep as <-. unfold causal. cbn [trace tasks listener].
    assert (Ht : taskOnlyAfter cause effect (existsb cause (trace cfg)) t).
    { rewrite Forall_forall in Htasks. apply Htasks. exact (nth_error_In _ _ En). }
    destruct (resume_causal _ _ _ _ _ _ _ Ht Eres) as [Hf' Ht'].
    split; [|split; [|exact Hlis]].
    + rewrite follows_app, Hf. cbn [andb orb]. exact Hf'.
    + apply Forall_replaceNth; [exact (Hgrow tr)|].
      rewrite existsb_app. exact Ht'.
  - destruct (listener cfg) as [cb|] eqn:El; [|discriminate].
    destruct (advance_causal (cb s) (app cfg) _ (Hlis cb eq_refl s)) as [Hf' Ht'].
    destruct (advance (cb s) (app cfg)) as [[st tr] t].
    injection Hstep as <-. unfold causal.
    cbn [trace tasks listener fst snd] in *.
    split; [|split; [|exact Hlis]].
    + rewrite follows_app, Hf. cbn [andb orb follows].
      rewrite (effect_other (Notified s) eq_refl). cbn [implb andb].
      apply (follows_mono _ false); [discriminate | exact Hf'].
    + apply Forall_app. split; [exact (Hgrow (Notified s :: tr))|].
      constructor; [|constructor].
      apply (taskOnlyAfter_mono _ (false || existsb cause tr)); [|exact Ht'].
      rewrite existsb_app. cbn [existsb]. orb_incl.
Qed.

Lemma mount_causal :
  onlyAfter cause effect false initializeApp ->
  (forall s, onlyAfter cause effect false (onAuthStateChange s)) ->
  causal cause effect mount.
Proof.
  intros Hinit Hcb.
  unfold mount, effectBody. cbn [fold_left execStmt app tasks listener trace].
  destruct (advance_causal initializeApp initialState false Hinit) as [Hf Ht].
  destruct (advance initializeApp initialState) as [[st tr] t].
  cbn [fst snd] in *. unfold causal. cbn [trace tasks listener].
  change (([] ++ tr) ++ [Subscribed]) with (tr ++ [Subscribed]).
  split; [|split].
  - rewrite follows_app, Hf. cbn [andb follows].
    rewrite (effect_other Subscribed eq_refl). reflexivity.
  - constructor; [|constructor].
    apply (taskOnlyAfter_mono _ (false || existsb cause tr)); [|exact Ht].
    rewrite existsb_app. orb_incl.
  - intros cb E s. injection E as <-. exact (Hcb s).
Qed.

Lemma Reachable_causal (cfg : Config) :
  onlyAfter cause effect false initializeApp ->
  (forall s, onlyAfter cause effect false (onAuthStateChange s)) ->
  Reachable cfg -> causal cause effect cfg.
Proof.
  intros Hinit Hcb Hr. induction Hr as [|cfg i cfg' _ IH Hstep].
  - exact (mount_causal Hinit Hcb).
  - exact (step_causal cfg cfg' i IH Hstep).
Qed.

Lemma follows_spec (tr : list Event) :
  forall s, follows cause effect s tr = true ->
    forall pre e post, tr = pre ++ e :: post -> effect e = true ->
      s || existsb cause pre = true.
Proof.
  induction tr as [|x tr IH]; intros s H pre e post E He.
  - destruct pre; discriminate.
  - cbn [follows] in H. apply andb_true_iff in H. destruct H as [H1 H2].
    destruct pre as [|y pre]; cbn [List.app] in E; injection E as -> ->.
    + rewrite He in H1. cbn in *. rewrite H1. reflexivity.
    + cbn [existsb]. rewrite orb_assoc. exact (IH _ H2 pre e post eq_refl He).
Qed.

End CausesFacts.

Lemma existsb_In_event (f : Event -> bool) (tr : list Event) :
  existsb f tr = true -> exists e, In e tr /\ f e = true.
Proof. apply existsb_exists. Qed.

(** X23. Nothing drastic happens without its cause, under every
    interleaving: before each sign-out request and before each setting of
    the login advisory, a call of [getOrCreateUserProfile] has returned
    null; before each write of [needsDbSetup], a probe reply has reported
    the missing relation. *)
Theorem sign_out_and_setup_have_a_cause :
  forall (cfg : Config) (pre post : list Event) (e : Event),
    Reachable cfg ->
    trace cfg = pre ++ e :: post ->
    (e = Requested SignOut \/ (exists m, e = StateSet (SetLoginMessage (Some m))) ->
     In (Resolved None) pre)
    /\ ((exists b, e = StateSet (SetNeedsDbSetup b)) ->
        exists err, In (Replied ProbeProfiles (ProbeResponse err)) pre
                    /\ isMissingRelation err = true).
Proof.
  intros cfg pre post e Hr Htr.
  assert (Hprofile : forall (eff : Event -> bool) u,
            (forall c, eff (Requested c) = true -> c = SignOut) ->
            procNever (fun c => eff (Requested c)) (getOrCreateUserProfile u)).
  { intros eff u Heff. apply getOrCreateUserProfile_requests.
    - intros id. destruct (eff (Requested (SelectProfile id))) eqn:E; [|reflexivity].
      discriminate (Heff _ E).
    - intros row. destruct (eff (Requested (InsertProfile row))) eqn:E; [|reflexivity].
      discriminate (Heff _ E). }
  split.
  - intros He.
    assert (Hown : forall x, isSignOutOrAdvisory x = true -> ownStep x = true).
    { intros [c| |u| | | |]; try discriminate; reflexivity. }
    assert (Hreq : forall c, isSignOutOrAdvisory (Requested c) = true -> c = SignOut).
    { intros []; try discriminate. reflexivity. }
    assert (Hinit : onlyAfter isFailedResolution isSignOutOrAdvisory false initializeApp).
    { unfold initializeApp, await, set. cbn [bind onlyAfter].
      split; [reflexivity|]. intros err.
      destruct (isMissingRelation err); cbn [bind onlyAfter];
        [repeat split|].
      split; [reflexivity|]. intros [s|]; cbn [bind onlyAfter]; [|repeat split].
      split; [exact (Hprofile _ _ Hreq)|].
      intros [p|]; cbn [bind onlyAfter]; repeat split. }
    assert (Hcb : forall s, onlyAfter isFailedResolution isSignOutOrAdvisory false
                              (onAuthStateChange s)).
    { intros s. unfold onAuthStateChange, set. cbn [bind onlyAfter].
      split; [reflexivity|]. destruct s as [s|]; cbn [bind onlyAfter]; [|repeat split].
      split; [exact (Hprofile _ _ Hreq)|]. intros r. repeat split. }
    destruct (Reachable_causal _ _ Hown cfg Hinit Hcb Hr) as [Hf _].
    assert (Heff : isSignOutOrAdvisory e = true)
      by (destruct He as [->|[m ->]]; reflexivity).
    pose proof (follows_spec _ _ _ _ Hf pre e post Htr Heff) as Hex.
    cbn [orb] in Hex. apply existsb_In_event in Hex.
    destruct Hex as (x & Hx & Hc).
    destruct x as [| | | |[r|]| |]; try discriminate. exact Hx.
  - intros [b ->].
    assert (Hown : forall x, isSetupUpdate x = true -> ownStep x = true).
    { intros [c| |u| | | |]; try discriminate; reflexivity. }
    assert (Hreq : forall c, isSetupUpdate (Requested c) = true -> c = SignOut)
      by (intros c; discriminate).
    assert (Hinit : onlyAfter isMissingRelationReply isSetupUpdate false initializeApp).
    { unfold initializeApp, await, set. cbn [bind onlyAfter].
      split; [reflexivity|]. intros err.
      cbn [toResponse isMissingRelationReply orb].
      destruct (isMissingRelation err); cbn [bind onlyAfter];
        [repeat split|].
      split; [reflexivity|]. intros [s|]; cbn [bind onlyAfter]; [|repeat split].
      split; [exact (Hprofile _ _ Hreq)|].
      intros [p|]; cbn [bind onlyAfter]; repeat split. }
    assert (Hcb : forall s, onlyAfter isMissingRelationReply isSetupUpdate false
                              (onAuthStateChange s)).
    { intros s. unfold onAuthStateChange, set. cbn [bind onlyAfter].
      split; [reflexivity|]. destruct s as [s|]; cbn [bind onlyAfter]; [|repeat split].
      split; [exact (Hprofile _ _ Hreq)|]. intros r. repeat split. }
    destruct (Reachable_causal _ _ Hown cfg Hinit Hcb Hr) as [Hf _].
    pose proof (follows_spec _ _ _ _ Hf pre _ post Htr eq_refl) as Hex.
    cbn [orb] in Hex. apply existsb_In_event in Hex.
    destruct Hex as (x & Hx & Hc).
    destruct x as [|c r| | | | |]; try discriminate.
    destruct c; try discriminate. destruct r as [err| | |]; try discriminate.
    exists err. split; [exact Hx | exact Hc].
Qed.

Lemma sign_out_and_setup_have_a_cause_witness :
  trace (Sample.after SampleRun.failureInputs)
  = firstn 10 (trace (Sample.after SampleRun.failureInputs)) ++ [Requested SignOut]
  /\ In (Resolved None) (firstn 10 (trace (Sample.after SampleRun.failureInputs))).
Proof.
  assert (E : trace (Sample.after SampleRun.failureInputs)
              = firstn 10 (trace (Sample.after SampleRun.failureInputs))
                ++ [Requested SignOut]) by reflexivity.
  split; [exact E|].
  apply (proj1 (sign_out_and_setup_have_a_cause
                  (Sample.after SampleRun.failureInputs) _ [] (Requested SignOut)
                  (steps_Reachable SampleRun.failureInputs mount _ reach_mount eq_refl)
                  E)).
  left. reflexivity.
Defined.
